(** * Orchid page controller: panel transitions and scroll progress

  A shallow embedding of [apps/store/orchidjs/shared/js/page_controller.js]
  (the [OrchidJS.PageController] singleton) together with the properties
  its specification states about it.

  Conventions of the embedding.
  - The DOM is a list of elements in document order; an element reference
    held by the script is the element's position in that list, so that
    [classList] mutations go through the shared document.
  - JavaScript [undefined]/[null] are [None]; truthiness of a string is
    non-emptiness.
  - [dataset] values are strings, as in the DOM: [dataset.index = index]
    stores the decimal rendering of the number and the relational
    operators applied to two such values compare strings.
  - The global object [window] is a finite map from property names to
    values; lifecycle objects are looked up in it by name.
  - Lifecycle methods ([init], [show], [hide]) are foreign code: a method
    either returns or throws, and each invocation is recorded in a call
    log.  Foreign code is assumed not to touch the modelled state.
  - JavaScript numbers are idealised as exact rationals. *)

From Stdlib Require Import QArith Qminmax Lqa Ascii String DecimalString.
From stdpp Require Import gmap strings list fin_maps.

Local Open Scope string_scope.

(* ===================================================================== *)
(** ** JavaScript values used by the controller                          *)
(* ===================================================================== *)

Module JS.

(** [if (s)] for a string. *)
Definition truthy (s : string) : bool := negb (String.eqb s "").

(** [if (v)] for a value that is a string or [undefined]. *)
Definition truthy_opt (v : option string) : bool :=
  match v with
  | Some s => truthy s
  | None => false
  end.

(** [a || b] on strings. *)
Definition or_else (a b : string) : string := if truthy a then a else b.

(** [a <= b] where each side is a string or [undefined].  Two strings are
    compared lexicographically by code unit; [undefined] converts to NaN
    and every comparison with NaN is false. *)
Definition le (a b : option string) : bool :=
  match a, b with
  | Some x, Some y => String.leb x y
  | _, _ => false
  end.

(** [a >= b], same conventions. *)
Definition ge (a b : option string) : bool :=
  match a, b with
  | Some x, Some y => String.leb y x
  | _, _ => false
  end.

(** [String(n)] for a non-negative integer. *)
Definition toString (n : nat) : string :=
  NilZero.string_of_uint (Nat.to_uint n).

(** [s.split(sep)] for a one-character separator. *)
Fixpoint split (sep : Ascii.ascii) (s : string) : list string :=
  match s with
  | EmptyString => [EmptyString]
  | String c r =>
      if Ascii.eqb c sep then EmptyString :: split sep r
      else match split sep r with
           | h :: t => String c h :: t
           | [] => [String c EmptyString]
           end
  end.

(** The property key an expression denotes: [undefined] used as a key is
    the string ["undefined"]. *)
Definition toPropertyKey (k : option string) : string :=
  default "undefined" k.

End JS.

(* ===================================================================== *)
(** ** Document                                                          *)
(* ===================================================================== *)

Module DOM.

Record Dataset := mkDataset {
  index : option string;          (* data-index *)
  previousPageId : option string; (* data-previous-page-id *)
  pageObject : option string;     (* data-page-object *)
  pageId : option string          (* data-page-id *)
}.

Record Element := mkElement {
  el_id : string;                 (* [element.id]; "" when there is none *)
  role : option string;           (* the [role] attribute *)
  classList : list string;
  dataset : Dataset
}.

(** Elements in document order. *)
Abbreviation Document := (list Element).

(** A node held by the script: its position in the document. *)
Abbreviation Node := nat.

Definition set_classList (cl : list string) (e : Element) : Element :=
  mkElement (el_id e) (role e) cl (dataset e).

Definition set_index (i : option string) (e : Element) : Element :=
  mkElement (el_id e) (role e) (classList e)
    (mkDataset i (previousPageId (dataset e)) (pageObject (dataset e))
       (pageId (dataset e))).

(** *** DOMTokenList *)

Definition contains (c : string) (cl : list string) : bool :=
  bool_decide (c ∈ cl).

Definition tokens_add (c : string) (cl : list string) : list string :=
  if contains c cl then cl else cl ++ [c].

Definition tokens_remove (c : string) (cl : list string) : list string :=
  filter (λ x, x ≠ c) cl.

(** [classList.add(c)] *)
Definition add (c : string) (e : Element) : Element :=
  set_classList (tokens_add c (classList e)) e.

(** [classList.remove(c)] *)
Definition remove (c : string) (e : Element) : Element :=
  set_classList (tokens_remove c (classList e)) e.

(** [classList.toggle(c)] *)
Definition toggle (c : string) (e : Element) : Element :=
  if contains c (classList e) then remove c e else add c e.

(** [classList.toggle(c, force)] *)
Definition toggle_force (c : string) (force : bool) (e : Element) : Element :=
  if force then add c e else remove c e.

Definition hasClass (c : string) (e : Element) : bool :=
  contains c (classList e).

(** *** Selectors *)

(** [[role="panel"]] *)
Definition isPanel (e : Element) : bool :=
  bool_decide (role e = Some "panel").

(** [[role="panel"].visible] *)
Definition isVisiblePanel (e : Element) : bool :=
  isPanel e && hasClass "visible" e.

(** [.selected] *)
Definition isSelected (e : Element) : bool := hasClass "selected" e.

(** [[data-page-id]] *)
Definition hasPageId (e : Element) : bool :=
  bool_decide (is_Some (pageId (dataset e))).

(** Positions, counted from [k], of the elements matching [sel]. *)
Fixpoint matching_from (sel : Element → bool) (k : nat) (doc : Document)
  : list Node :=
  match doc with
  | [] => []
  | e :: rest =>
      (if sel e then [k] else []) ++ matching_from sel (S k) rest
  end.

(** [document.querySelectorAll(sel)]: a static list of nodes. *)
Definition querySelectorAll (sel : Element → bool) (doc : Document)
  : list Node :=
  matching_from sel 0 doc.

(** [document.querySelector(sel)]: the first match, or [null]. *)
Definition querySelector (sel : Element → bool) (doc : Document)
  : option (Node * Element) :=
  list_find (λ e, sel e = true) doc.

(** [document.getElementById(i)]: the first element whose id is [i];
    the empty id matches nothing. *)
Definition getElementById (i : string) (doc : Document)
  : option (Node * Element) :=
  if JS.truthy i then list_find (λ e, el_id e = i) doc else None.

(** Mutate the element held at node [n]. *)
Definition update (n : Node) (f : Element → Element) (doc : Document)
  : Document :=
  alter f n doc.

(** [nodes.forEach((node) => f(node))] *)
Definition forEach (nodes : list Node) (f : Element → Element)
  (doc : Document) : Document :=
  foldl (λ d n, update n f d) doc nodes.

(** [nodes.forEach((node, index) => f(index, node))] *)
Definition forEachIndexed (nodes : list Node) (f : nat → Element → Element)
  (doc : Document) : Document :=
  foldl (λ d kn, update kn.2 (f kn.1) d) doc
    (zip (seq 0 (length nodes)) nodes).

End DOM.

(* ===================================================================== *)
(** ** Location and session history                                      *)
(* ===================================================================== *)

Module URL.

(** A URL: everything but the query, and the decoded query pairs in order. *)
Record t := mk {
  base : string;
  searchParams : list (string * string)
}.

(** [searchParams.set(name, value)]: the first pair named [name] takes the
    value and the other pairs of that name are dropped; without such a
    pair one is appended. *)
Fixpoint params_set (name value : string) (ps : list (string * string))
  : list (string * string) :=
  match ps with
  | [] => [(name, value)]
  | (k, v) :: rest =>
      if String.eqb k name
      then (name, value) :: filter (λ p, p.1 ≠ name) rest
      else (k, v) :: params_set name value rest
  end.

(** [searchParams.get(name)]: the value of the first pair named [name]. *)
Fixpoint params_get (name : string) (ps : list (string * string))
  : option string :=
  match ps with
  | [] => None
  | (k, v) :: rest =>
      if String.eqb k name then Some v else params_get name rest
  end.

Definition set_param (name value : string) (u : t) : t :=
  mk (base u) (params_set name value (searchParams u)).

Definition get_param (name : string) (u : t) : option string :=
  params_get name (searchParams u).

End URL.

(* ===================================================================== *)
(** ** The global object and the lifecycle objects it holds              *)
(* ===================================================================== *)

Module Window.

Inductive Method := MInit | MShow | MHide.

#[global] Instance Method_eq_dec : EqDecision Method.
Proof. solve_decision. Defined.

(** What a foreign method does when invoked. *)
Inductive Outcome := Returns | Raises.

(** An object reachable from [window].  A method that is not a function
    on the object is [None]. *)
Record PageObject := mkPageObject {
  isLoaded : bool;
  init : option Outcome;
  show : option Outcome;
  hide : option Outcome
}.

(** The value of a property of [window]: [undefined]/[null], or an object
    with its own lifecycle members and named sub-objects. *)
Inductive Global :=
| GNullish
| GObject (self : PageObject) (members : gmap string PageObject).

(** A lifecycle object is named by the path that reaches it:
    [window[B]] is [(B, None)] and [window[B][O]] is [(B, Some O)]. *)
Abbreviation ObjRef := (string * option string)%type.

Definition method (m : Method) (o : PageObject) : option Outcome :=
  match m with
  | MInit => init o
  | MShow => show o
  | MHide => hide o
  end.

(** [o.isLoaded = true] *)
Definition mark_loaded (o : PageObject) : PageObject :=
  mkPageObject true (init o) (show o) (hide o).

(** [k in window].  The global object always has the property
    [undefined]. *)
Definition hasProperty (k : string) (w : gmap string Global) : bool :=
  bool_decide (k = "undefined") || bool_decide (is_Some (w !! k)).

(** [window[k]].  The global [undefined] is not writable. *)
Definition get (k : string) (w : gmap string Global) : Global :=
  if bool_decide (k = "undefined") then GNullish
  else default GNullish (w !! k).

(** The object a reference denotes, when there is one. *)
Definition resolve (r : ObjRef) (w : gmap string Global)
  : option PageObject :=
  match get r.1 w with
  | GNullish => None
  | GObject self members =>
      match r.2 with
      | None => Some self
      | Some o => members !! o
      end
  end.

(** [window[B][O].isLoaded = true] / [window[B].isLoaded = true] *)
Definition set_loaded (r : ObjRef) (w : gmap string Global)
  : gmap string Global :=
  match get r.1 w with
  | GNullish => w
  | GObject self members =>
      match r.2 with
      | None => <[r.1 := GObject (mark_loaded self) members]> w
      | Some o => <[r.1 := GObject self (alter mark_loaded o members)]> w
      end
  end.

End Window.

(* ===================================================================== *)
(** ** State of the page and the script                                  *)
(* ===================================================================== *)

Module State.

Record World := mkWorld {
  (* PageController's own fields *)
  previousPanelId : string;
  currentPanelId : string;
  isKeyDown : bool;
  (* the browser *)
  document : DOM.Document;
  location : URL.t;
  history : list URL.t;            (* earlier entries, newest first *)
  window : gmap string Window.Global;
  (* lifecycle methods invoked so far, oldest first *)
  calls : list (Window.ObjRef * Window.Method)
}.

Inductive Error :=
| TypeError
| Thrown (obj : Window.ObjRef) (m : Window.Method).

Inductive Completion (A : Type) :=
| Normal (a : A)
| Throw (e : Error).
Arguments Normal {A} a.
Arguments Throw {A} e.

(** Script code: a state transformer that returns or throws. *)
Definition M (A : Type) : Type := World → Completion A * World.

Definition ret {A} (a : A) : M A := λ w, (Normal a, w).

Definition bind {A B} (m : M A) (k : A → M B) : M B :=
  λ w, match m w with
       | (Normal a, w') => k a w'
       | (Throw e, w') => (Throw e, w')
       end.

Definition throw {A} (e : Error) : M A := λ w, (Throw e, w).

(** [try { m } catch (error) { }] *)
Definition try_catch (m : M unit) : M unit :=
  λ w, match m w with
       | (Normal a, w') => (Normal a, w')
       | (Throw _, w') => (Normal tt, w')
       end.

Definition gets {A} (f : World → A) : M A := λ w, (Normal (f w), w).

Definition modify (f : World → World) : M unit := λ w, (Normal tt, f w).

Definition with_previousPanelId (v : string) (w : World) : World :=
  mkWorld v (currentPanelId w) (isKeyDown w) (document w) (location w)
    (history w) (window w) (calls w).

Definition with_currentPanelId (v : string) (w : World) : World :=
  mkWorld (previousPanelId w) v (isKeyDown w) (document w) (location w)
    (history w) (window w) (calls w).

Definition with_isKeyDown (v : bool) (w : World) : World :=
  mkWorld (previousPanelId w) (currentPanelId w) v (document w) (location w)
    (history w) (window w) (calls w).

Definition with_document (f : DOM.Document → DOM.Document) (w : World)
  : World :=
  mkWorld (previousPanelId w) (currentPanelId w) (isKeyDown w)
    (f (document w)) (location w) (history w) (window w) (calls w).

Definition with_window
  (f : gmap string Window.Global → gmap string Window.Global) (w : World)
  : World :=
  mkWorld (previousPanelId w) (currentPanelId w) (isKeyDown w) (document w)
    (location w) (history w) (f (window w)) (calls w).

(** [history.pushState({}, '', url)]: the current entry becomes an earlier
    one and [url] the current location, without navigation. *)
Definition pushState (url : URL.t) : M unit :=
  modify (λ w,
    mkWorld (previousPanelId w) (currentPanelId w) (isKeyDown w)
      (document w) url (location w :: history w) (window w) (calls w)).

Definition record_call (c : Window.ObjRef * Window.Method) : M unit :=
  modify (λ w,
    mkWorld (previousPanelId w) (currentPanelId w) (isKeyDown w)
      (document w) (location w) (history w) (window w) (calls w ++ [c])).

End State.

Declare Scope js_scope.
Delimit Scope js_scope with js.
Notation "x ← y ; z" := (State.bind y (λ x, z))
(at level 20, y at level 100, z at level 200, only parsing) : js_scope.
Notation "x ;; z" := (State.bind x (λ _, z))
(at level 100, z at level 200, only parsing, right associativity) : js_scope.

(* ===================================================================== *)
(** ** PageController                                                    *)
(* ===================================================================== *)

Module PageController.
Import State.
Local Open Scope js_scope.

Definition dot : Ascii.ascii := "."%char.

(** Invoke method [m] of the value [o] reached by [r]: reading a property
    of [undefined] and calling what is not a function are TypeErrors; a
    function is entered (and logged) and then returns or throws. *)
Definition invoke (r : Window.ObjRef) (m : Window.Method)
  (o : option Window.PageObject) : M unit :=
  match o with
  | None => throw TypeError
  | Some po =>
      match Window.method m po with
      | None => throw TypeError
      | Some out =>
          record_call (r, m) ;;
          match out with
          | Window.Returns => ret tt
          | Window.Raises => throw (Thrown r m)
          end
      end
  end.

(** [window[B][O]]: a TypeError when [window[B]] is nullish. *)
Definition member (B O : string) : M (option Window.PageObject) :=
  w ← gets window ;
  match Window.get B w with
  | Window.GNullish => throw TypeError
  | Window.GObject _ members => ret (members !! O)
  end.

(** [window[B][O].m()] *)
Definition call_member (B O : string) (m : Window.Method) : M unit :=
  o ← member B O ;
  invoke (B, Some O) m o.

(** [window[B].m()] *)
Definition call_self (B : string) (m : Window.Method) : M unit :=
  w ← gets window ;
  match Window.get B w with
  | Window.GNullish => throw TypeError
  | Window.GObject self _ => invoke (B, None) m (Some self)
  end.

(** Lines 315-331: [hide()] on the object the outgoing panel declares. *)
Definition hideSelected (selectedPanel : DOM.Element) : M unit :=
  let selectedPageCode := DOM.pageObject (DOM.dataset selectedPanel) in
  match selectedPageCode with
  | Some code =>
      if JS.truthy code then
        let selectedPageBootstrap := JS.split dot code !! 0%nat in
        let selectedPageObject := JS.split dot code !! 1%nat in
        w ← gets window ;
        if Window.hasProperty (JS.toPropertyKey selectedPageObject) w then
          try_catch
            (if JS.truthy_opt selectedPageObject then
               call_member (JS.toPropertyKey selectedPageBootstrap)
                 (JS.toPropertyKey selectedPageObject) Window.MHide
             else
               call_self (JS.toPropertyKey selectedPageBootstrap)
                 Window.MHide)
        else ret tt
      else ret tt
  | None => ret tt
  end.

(** Lines 333-361: [init()] once, then [show()], on the object the
    incoming panel declares. *)
Definition showTarget (targetPanel : DOM.Element) : M unit :=
  let targetPageCode := DOM.pageObject (DOM.dataset targetPanel) in
  match targetPageCode with
  | Some code =>
      if JS.truthy code then
        let targetPageBootstrap :=
          JS.toPropertyKey (JS.split dot code !! 0%nat) in
        let targetPageObject := JS.split dot code !! 1%nat in
        w ← gets window ;
        if Window.hasProperty targetPageBootstrap w then
          (if JS.truthy_opt targetPageObject then
             let O := JS.toPropertyKey targetPageObject in
             o ← member targetPageBootstrap O ;
             match o with
             | Some po =>
                 if negb (Window.isLoaded po) then
                   call_member targetPageBootstrap O Window.MInit ;;
                   modify (with_window
                             (Window.set_loaded (targetPageBootstrap, Some O)))
                 else ret tt
             | None => ret tt
             end
           else
             match Window.get targetPageBootstrap w with
             | Window.GObject self _ =>
                 if negb (Window.isLoaded self) then
                   call_self targetPageBootstrap Window.MInit ;;
                   modify (with_window
                             (Window.set_loaded (targetPageBootstrap, None)))
                 else ret tt
             | Window.GNullish => ret tt
             end) ;;
          try_catch
            (if JS.truthy_opt targetPageObject then
               call_member targetPageBootstrap
                 (JS.toPropertyKey targetPageObject) Window.MShow
             else
               call_self targetPageBootstrap Window.MShow)
        else ret tt
      else ret tt
  | None => ret tt
  end.

(** Lines 282-362.  The two panels' [dataset]s are read from the elements
    as found by [getElementById]: nothing in the function writes a
    dataset. *)
Definition togglePanelVisibility (selectedPanelId targetPanelId : string)
  : M unit :=
  if bool_decide (selectedPanelId ≠ targetPanelId) then
    modify (with_previousPanelId (JS.or_else selectedPanelId "root")) ;;
    modify (with_currentPanelId targetPanelId) ;;
    url ← gets location ;
    pushState (URL.set_param "panel" targetPanelId url) ;;
    doc ← gets document ;
    let selectedPanel := DOM.getElementById selectedPanelId doc in
    let selectedPanels := DOM.querySelectorAll DOM.isVisiblePanel doc in
    let targetPanel := DOM.getElementById targetPanelId doc in
    match selectedPanel with
    | None => ret tt
    | Some (sn, sp) =>
        match targetPanel with
        | None => throw TypeError
        | Some (tn, tp) =>
            (match DOM.previousPageId (DOM.dataset tp) with
             | Some p =>
                 if JS.truthy p then modify (with_previousPanelId p)
                 else ret tt
             | None => ret tt
             end) ;;
            modify (with_document
                      (DOM.forEach selectedPanels (DOM.remove "visible"))) ;;
            let sIndex := DOM.index (DOM.dataset sp) in
            let tIndex := DOM.index (DOM.dataset tp) in
            modify (with_document
              (DOM.update sn (DOM.toggle_force "previous" (JS.le sIndex tIndex)))) ;;
            modify (with_document
              (DOM.update sn (DOM.toggle_force "next" (JS.ge sIndex tIndex)))) ;;
            modify (with_document (DOM.update tn (DOM.toggle "visible"))) ;;
            modify (with_document
              (DOM.update tn (DOM.toggle_force "previous" (JS.le sIndex tIndex)))) ;;
            modify (with_document
              (DOM.update tn (DOM.toggle_force "next" (JS.ge sIndex tIndex)))) ;;
            hideSelected sp ;;
            showTarget tp
        end
    end
  else ret tt.

(** Lines 232-248; [key] is [event.key]. *)
Definition handleKeyDown (key : string) : M unit :=
  down ← gets isKeyDown ;
  if down then ret tt
  else if String.eqb key "Escape" then
    doc ← gets document ;
    (match DOM.querySelector DOM.isSelected doc with
     | Some (n, _) =>
         modify (with_document (DOM.update n (DOM.remove "selected")))
     | None => ret tt
     end) ;;
    prev ← gets previousPanelId ;
    cur ← gets currentPanelId ;
    if JS.truthy prev && JS.truthy cur then
      togglePanelVisibility cur prev ;;
      modify (with_isKeyDown true)
    else ret tt
  else ret tt.

(** Lines 250-252. *)
Definition handleKeyUp : M unit := modify (with_isKeyDown false).

(** Lines 51-55 of [init]: every panel gets its position among the panels
    as [dataset.index] and the class [next]. *)
Definition init_panels : M unit :=
  doc ← gets document ;
  let panels := DOM.querySelectorAll DOM.isPanel doc in
  modify (with_document
    (DOM.forEachIndexed panels
       (λ index panel,
          DOM.add "next" (DOM.set_index (Some (JS.toString index)) panel)))).

(** Lines 57-85 of [init]: the [panel] query parameter selects a panel.
    The transition the [load] listener will request is returned; the
    registration of listeners is not modelled. *)
Definition init_selection : M (option (string * string)) :=
  url ← gets location ;
  let panelValue := URL.get_param "panel" url in
  doc ← gets document ;
  let selectedButtons := DOM.querySelectorAll DOM.isSelected doc in
  let selectableButtons := DOM.querySelectorAll DOM.hasPageId doc in
  let selectedPanel := DOM.querySelector DOM.isVisiblePanel doc in
  match panelValue with
  | Some value =>
      if JS.truthy value then
        match selectedPanel with
        | None => throw TypeError
        | Some (_, sp) =>
            if bool_decide (DOM.el_id sp ≠ value) then
              modify (with_document
                (DOM.forEach selectedButtons (DOM.remove "selected"))) ;;
              modify (with_document
                (DOM.forEach selectableButtons
                   (λ b, if bool_decide
                              (DOM.pageId (DOM.dataset b) = Some value)
                         then DOM.add "selected" b else b))) ;;
              ret (Some (DOM.el_id sp, value))
            else ret None
        end
      else ret None
  | None => ret None
  end.

Definition init : M (option (string * string)) :=
  init_panels ;; init_selection.

(** The object a controller path denotes (lines 317-318 and 335-336):
    [window[B][O]] when the second component of the path is truthy and
    [window[B]] otherwise. *)
Definition pathRef (code : string) : Window.ObjRef :=
  let B := JS.toPropertyKey (JS.split dot code !! 0%nat) in
  let O := JS.split dot code !! 1%nat in
  (B, if JS.truthy_opt O then Some (JS.toPropertyKey O) else None).

(** A sequence of [keydown] events with no [keyup] in between, each one
    run of the listener. *)
Definition keydowns (keys : list string) (w : World) : World :=
  foldl (λ w key, (handleKeyDown key w).2) w keys.

(** A sequence of transition requests, each one run of an event handler:
    a request that throws leaves its state behind and the later ones
    still run. *)
Fixpoint transitions (reqs : list (string * string)) (w : World) : World :=
  match reqs with
  | [] => w
  | (a, b) :: rest => transitions rest (togglePanelVisibility a b w).2
  end.

(** *** Scroll progress (lines 110-230)

    The listeners of [bindScrollEvents] act on the style declaration of
    the panel they were bound for, a map from custom property names to
    numbers.  The re-measurement of [--back-button-width] they also do
    writes to the header's style and is left out. *)

(** Lines 220-230. *)
Definition cubicBezier (t p0 p1 p2 p3 : Q) : Q :=
  (let u := 1 - t in
   let tt := t * t in
   let uu := u * u in
   let uuu := uu * u in
   let ttt := tt * t in
   let p := uuu * p0 + 3 * uu * t * p1 + 3 * u * tt * p2 + ttt * p3 in
   p)%Q.

(** Lines 211-214. *)
Definition setProgress (progress : Q) (style : gmap string Q)
  : gmap string Q :=
  <["--panel-progress-expo" := cubicBezier progress 0 0 0 1]>
    (<["--panel-progress" := progress]> style).

(** Lines 216-218. *)
Definition setOverscrollProgress (progress : Q) (style : gmap string Q)
  : gmap string Q :=
  <["--panel-progress-overscroll" := progress]> style.

(** [if (progress >= 1) { progress = 1; }] *)
Definition capAtOne (progress : Q) : Q :=
  if Qle_bool 1 progress then 1%Q else progress.

(** Lines 146-163: the overscroll plugin's [onScroll], [y] being
    [params.y]. *)
Definition onScroll (y : Q) (style : gmap string Q) : gmap string Q :=
  if Qle_bool 0 y then style
  else
    let scrollPosition := (y * -1)%Q in
    let progress := capAtOne (scrollPosition / 300)%Q in
    setOverscrollProgress progress style.

(** Lines 169-182: the smooth-scroll listener, [y] being
    [scrollbar.offset.y]. *)
Definition scrollbarListener (y : Q) (style : gmap string Q)
  : gmap string Q :=
  let scrollPosition := y in
  let progress := capAtOne (scrollPosition / 40)%Q in
  setOverscrollProgress 0%Q (setProgress progress style).

(** Lines 186-197: the native [scroll] listener, [scrollTop] being
    [content.scrollTop]. *)
Definition scrollListener (scrollTop : Q) (style : gmap string Q)
  : gmap string Q :=
  let scrollPosition := scrollTop in
  let progress := capAtOne (scrollPosition / 80)%Q in
  setProgress progress style.

(** Lines 254-280, the activation handler of a page button.  [id] is
    [button.dataset.pageId] of the activated element: the listener is only
    bound to elements matching [[data-page-id]] (lines 41-49 and 96-104).
    [makeFocusable] is the foreign [SpatialNavigation.makeFocusable]. *)
Definition handlePageButtonClick (makeFocusable : M unit) (id : string)
  : M unit :=
  w ← gets window ;
  (if Window.hasProperty "SpatialNavigation" w then makeFocusable
   else ret tt) ;;
  doc ← gets document ;
  let selectedButtons := DOM.querySelectorAll DOM.isSelected doc in
  let selectableButtons := DOM.querySelectorAll DOM.hasPageId doc in
  let selectedPanel := DOM.querySelector DOM.isVisiblePanel doc in
  modify (with_document
    (DOM.forEach selectedButtons (DOM.remove "selected"))) ;;
  modify (with_document
    (DOM.forEach selectableButtons
       (λ selectableButton,
          if bool_decide
               (DOM.pageId (DOM.dataset selectableButton) = Some id)
          then DOM.add "selected" selectableButton
          else selectableButton))) ;;
  match selectedPanel with
  | None => throw TypeError
  | Some (_, sp) => togglePanelVisibility (DOM.el_id sp) id
  end.

End PageController.

(* ===================================================================== *)
(** ** Vividus2D: box intersection                                       *)
(* ===================================================================== *)

Module Vividus2D.

(** A box as [areaIntersects] reads it. *)
Record Box := mkBox {
  x : Q;
  y : Q;
  width : Q;
  height : Q
}.

(** [a > b] *)
Definition gt (a b : Q) : bool := negb (Qle_bool a b).

(** [a < b] *)
Definition lt (a b : Q) : bool := negb (Qle_bool b a).

(** [Vividus2D.areaIntersects], lines 19-27 of the canvas renderer file. *)
Definition areaIntersects (box1 box2 : Box) : bool :=
  negb (gt (x box1) (x box2 + width box2)
        || lt (x box1 + width box1) (x box2)
        || gt (y box1) (y box2 + height box2)
        || lt (y box1 + height box1) (y box2)).

End Vividus2D.

(* ===================================================================== *)
(** ** Specification-side notions                                        *)
(* ===================================================================== *)

Module Spec.

(** [clamp(x, lo, hi)] as the specification uses it. *)
Definition clamp (x lo hi : Q) : Q := Qmax lo (Qmin x hi).

(** The 4-point Bezier polynomial of the specification. *)
Definition bezier (t p0 p1 p2 p3 : Q) : Q :=
  ((1 - t) ^ 3 * p0 + 3 * (1 - t) ^ 2 * t * p1
   + 3 * (1 - t) * t ^ 2 * p2 + t ^ 3 * p3)%Q.

(** The state in which a transition leaves the script and the browser
    before any panel is looked up: the navigation pointer names the
    request and the new URL is the current history entry. *)
Definition requested (fromId toId : string) (w : State.World)
  : State.World :=
  State.mkWorld (JS.or_else fromId "root") toId (State.isKeyDown w)
    (State.document w)
    (URL.set_param "panel" toId (State.location w))
    (State.location w :: State.history w)
    (State.window w) (State.calls w).

(** The back target a completed transition records: the target panel's
    own [previousPageId] when it declares one, the source otherwise. *)
Definition backTarget (fromId : string) (tp : DOM.Element) : string :=
  match DOM.previousPageId (DOM.dataset tp) with
  | Some p => if JS.truthy p then p else JS.or_else fromId "root"
  | None => JS.or_else fromId "root"
  end.

(** The class changes of a transition between the elements at nodes [sn]
    and [tn], in the order the script makes them. *)
Definition restyled (sn tn : DOM.Node) (sp tp : DOM.Element)
  (doc : DOM.Document) : DOM.Document :=
  let sIndex := DOM.index (DOM.dataset sp) in
  let tIndex := DOM.index (DOM.dataset tp) in
  DOM.update tn (DOM.toggle_force "next" (JS.ge sIndex tIndex))
    (DOM.update tn (DOM.toggle_force "previous" (JS.le sIndex tIndex))
       (DOM.update tn (DOM.toggle "visible")
          (DOM.update sn (DOM.toggle_force "next" (JS.ge sIndex tIndex))
             (DOM.update sn (DOM.toggle_force "previous" (JS.le sIndex tIndex))
                (DOM.forEach (DOM.querySelectorAll DOM.isVisiblePanel doc)
                   (DOM.remove "visible") doc))))).

(** The state of a transition between two existing elements once the
    classes are switched and before any lifecycle method runs. *)
Definition switched (fromId toId : string) (sn tn : DOM.Node)
  (sp tp : DOM.Element) (w : State.World) : State.World :=
  State.mkWorld (backTarget fromId tp) toId (State.isKeyDown w)
    (restyled sn tn sp tp (State.document w))
    (URL.set_param "panel" toId (State.location w))
    (State.location w :: State.history w)
    (State.window w) (State.calls w).

(** [w] with the global object replaced by [win] and the calls [l] added
    to the log. *)
Definition logged (l : list (Window.ObjRef * Window.Method))
  (win : gmap string Window.Global) (w : State.World) : State.World :=
  State.mkWorld (State.previousPanelId w) (State.currentPanelId w)
    (State.isKeyDown w) (State.document w) (State.location w)
    (State.history w) win (State.calls w ++ l).

(** The log entry of [show()] on [po], when [po] has such a method. *)
Definition shown (r : Window.ObjRef) (po : Window.PageObject)
  : list (Window.ObjRef * Window.Method) :=
  match Window.show po with
  | Some _ => [(r, Window.MShow)]
  | None => []
  end.

(** The state after Escape has cleared the class [selected] from the first
    element carrying it (lines 238-241). *)
Definition deselected (w : State.World) : State.World :=
  match DOM.querySelector DOM.isSelected (State.document w) with
  | Some (n, _) =>
      State.with_document (DOM.update n (DOM.remove "selected")) w
  | None => w
  end.

(** The lifecycle object [r] exists and is marked loaded. *)
Definition loaded (r : Window.ObjRef) (win : gmap string Window.Global)
  : Prop :=
  ∃ po, Window.resolve r win = Some po ∧ Window.isLoaded po = true.

(** How often [init()] has been invoked on [r]. *)
Definition initCount (r : Window.ObjRef)
  (cs : list (Window.ObjRef * Window.Method)) : nat :=
  length (filter (λ c, c = (r, Window.MInit)) cs).

(** The number of panels that precede node [n] in the document. *)
Definition panelRank (n : DOM.Node) (doc : DOM.Document) : nat :=
  length (filter (λ e, DOM.isPanel e = true) (take n doc)).

(** What no class change touches: id, role and dataset. *)
Definition skeleton (e : DOM.Element)
  : string * option string * DOM.Dataset :=
  (DOM.el_id e, DOM.role e, DOM.dataset e).

(** The [panel] pairs of a query. *)
Definition panelParams (ps : list (string * string))
  : list (string * string) :=
  filter (λ p, p.1 = "panel") ps.

(** The other pairs of a query. *)
Definition otherParams (ps : list (string * string))
  : list (string * string) :=
  filter (λ p, p.1 ≠ "panel") ps.

(** The selection update shared by the activation handler (lines 264-277)
    and by [init] (lines 71-84): [selected] is removed from every element
    carrying it and then added to the page buttons of [id]. *)
Definition reselected (id : string) (doc : DOM.Document) : DOM.Document :=
  DOM.forEach (DOM.querySelectorAll DOM.hasPageId doc)
    (λ selectableButton,
       if bool_decide (DOM.pageId (DOM.dataset selectableButton) = Some id)
       then DOM.add "selected" selectableButton
       else selectableButton)
    (DOM.forEach (DOM.querySelectorAll DOM.isSelected doc)
       (DOM.remove "selected") doc).

(** What the indexing loop of [init] leaves alone in an element. *)
Definition marks (e : DOM.Element)
  : string * option string * bool * bool * option string * option string
    * option string :=
  (DOM.el_id e, DOM.role e, DOM.hasClass "visible" e,
   DOM.hasClass "selected" e, DOM.pageId (DOM.dataset e),
   DOM.previousPageId (DOM.dataset e), DOM.pageObject (DOM.dataset e)).

(** Foreign code that returns and leaves the modelled state alone. *)
Definition harmless (m : State.M unit) : Prop :=
  ∀ w, m w = (State.Normal tt, w).

(** The log entry of an [init()] on [po] that does not return: a method
    that throws has been entered, a member that is not a function has
    not. *)
Definition initAttempt (r : Window.ObjRef) (po : Window.PageObject)
  : list (Window.ObjRef * Window.Method) :=
  match Window.init po with
  | Some _ => [(r, Window.MInit)]
  | None => []
  end.

(** The error such a call ends with: what the method threw, or the
    TypeError of calling what is not a function. *)
Definition initError (r : Window.ObjRef) (po : Window.PageObject)
  : State.Error :=
  match Window.init po with
  | Some _ => State.Thrown r Window.MInit
  | None => State.TypeError
  end.

End Spec.

(* ===================================================================== *)
(** ** Sample pages                                                      *)
(* ===================================================================== *)

Module Sample.
Import State.

Definition panel (i : string) (classes : list string)
  (object : option string) : DOM.Element :=
  DOM.mkElement i (Some "panel") classes
    (DOM.mkDataset None None object None).

Definition button (page : string) (classes : list string) : DOM.Element :=
  DOM.mkElement "" None classes
    (DOM.mkDataset None None None (Some page)).

Definition page (doc : DOM.Document) (win : gmap string Window.Global)
  : World :=
  mkWorld "" "" false doc (URL.mk "app://store/index.html" []) [] win [].

(** The state once [init] has run on a freshly parsed page. *)
Definition started (doc : DOM.Document) (win : gmap string Window.Global)
  : World :=
  (PageController.init (page doc win)).2.

(** Three panels, [home] visible, and two activation buttons. *)
Definition threePanels : DOM.Document :=
  [ panel "home" ["visible"] None;
    button "home" ["selected"];
    panel "about" [] None;
    button "settings" [];
    panel "settings" [] (Some "Store.Library") ].

(** The same page with two panels marked visible. *)
Definition twoVisible : DOM.Document :=
  [ panel "home" ["visible"] None;
    panel "about" ["visible"] None;
    panel "settings" [] None ].

(** Eleven panels [p0] ... [p10], the first visible. *)
Definition elevenPanels : DOM.Document :=
  [ panel "p0" ["visible"] None; panel "p1" [] None; panel "p2" [] None;
    panel "p3" [] None; panel "p4" [] None; panel "p5" [] None;
    panel "p6" [] None; panel "p7" [] None; panel "p8" [] None;
    panel "p9" [] None; panel "p10" [] None ].

Definition lifecycle (loaded : bool) (i s h : option Window.Outcome)
  : Window.PageObject :=
  Window.mkPageObject loaded i s h.

Definition plain : Window.PageObject := lifecycle false None None None.

(** [window.Store = { Library: o }] *)
Definition storeWith (o : Window.PageObject) : gmap string Window.Global :=
  {[ "Store" := Window.GObject plain {[ "Library" := o ]} ]}.

(** A [Store.Library] whose three methods return. *)
Definition wellBehaved : Window.PageObject :=
  lifecycle false (Some Window.Returns) (Some Window.Returns)
    (Some Window.Returns).

(** A [Store.Library] whose [init()] throws. *)
Definition initThrows : Window.PageObject :=
  lifecycle false (Some Window.Raises) (Some Window.Returns)
    (Some Window.Returns).

(** A [Store.Library] whose [show()] throws. *)
Definition showThrows : Window.PageObject :=
  lifecycle false (Some Window.Returns) (Some Window.Raises)
    (Some Window.Returns).

(** The three-panel page after a transition from [home] to [settings]. *)
Definition settingsOpen : World :=
  (PageController.togglePanelVisibility "home" "settings"
     (started threePanels ∅)).2.

(** The eleven-panel page after a transition from [p0] to the panel [i]. *)
Definition openedAt (i : string) : World :=
  (PageController.togglePanelVisibility "p0" i
     (started elevenPanels ∅)).2.

(** The classes of the element at node [n]. *)
Definition classesAt (n : DOM.Node) (w : World) : option (list string) :=
  DOM.classList <$> document w !! n.

(** The [dataset.index] of the element at node [n]. *)
Definition indexAt (n : DOM.Node) (w : World) : option (option string) :=
  (λ e, DOM.index (DOM.dataset e)) <$> document w !! n.

(** A page none of whose panels is visible. *)
Definition noneVisible : DOM.Document :=
  [ panel "home" [] None; button "settings" []; panel "settings" [] None ].

(** A page with two buttons for [settings], one selected link that is not
    a page button, and a panel that names its own back target. *)
Definition withOverride : DOM.Document :=
  [ panel "home" ["visible"] None;
    button "home" ["selected"];
    button "settings" [];
    button "settings" [];
    DOM.mkElement "link" None ["selected"] (DOM.mkDataset None None None None);
    panel "about" [] None;
    DOM.mkElement "settings" (Some "panel") []
      (DOM.mkDataset None (Some "about") None None) ].

(** A page opened at a URL with a query. *)
Definition pageAt (query : list (string * string)) (doc : DOM.Document)
  : World :=
  mkWorld "" "" false doc (URL.mk "app://store/index.html" query) [] ∅ [].

(** A page whose visible panel has no id, and no element with the id
    [root]. *)
Definition anonymousHome : DOM.Document :=
  [ panel "" ["visible"] None; button "settings" [];
    panel "settings" [] None ].

(** That page after its [settings] button has been activated: the
    navigation pointer names [settings] as the current panel and the
    default ["root"] as the previous one. *)
Definition backToRoot : World :=
  (PageController.handlePageButtonClick (State.ret tt) "settings"
     (started anonymousHome ∅)).2.

End Sample.

(* ===================================================================== *)
(** * Properties                                                         *)
(* ===================================================================== *)

Import State.
Local Open Scope list_scope.

(** Evaluate the monadic plumbing, leaving DOM and window operations
    folded. *)
Ltac run :=
  unfold PageController.togglePanelVisibility,
    pushState, record_call, try_catch, bind, ret, throw, gets, modify;
  cbn [with_previousPanelId with_currentPanelId with_isKeyDown
       with_document with_window
       previousPanelId currentPanelId isKeyDown document location history
       window calls fst snd].

(** ** The prelude of a transition *)

Lemma toggle_same (x : string) (w : World) :
  PageController.togglePanelVisibility x x w = (Normal tt, w).
Proof.
  unfold PageController.togglePanelVisibility.
  rewrite bool_decide_false by (intros H; now apply H).
  reflexivity.
Qed.

Lemma toggle_source_missing (a b : string) (w : World) :
  a ≠ b →
  DOM.getElementById a (document w) = None →
  PageController.togglePanelVisibility a b w
  = (Normal tt, Spec.requested a b w).
Proof.
  intros Hab Ha.
  unfold PageController.togglePanelVisibility.
  rewrite bool_decide_true by exact Hab.
  run. rewrite Ha. reflexivity.
Qed.

Lemma toggle_target_missing (a b : string) (w : World) sn sp :
  a ≠ b →
  DOM.getElementById a (document w) = Some (sn, sp) →
  DOM.getElementById b (document w) = None →
  PageController.togglePanelVisibility a b w
  = (Throw TypeError, Spec.requested a b w).
Proof.
  intros Hab Ha Hb.
  unfold PageController.togglePanelVisibility.
  rewrite bool_decide_true by exact Hab.
  run. rewrite Ha, Hb. reflexivity.
Qed.

Lemma toggle_resolved (a b : string) (w : World) sn sp tn tp :
  a ≠ b →
  DOM.getElementById a (document w) = Some (sn, sp) →
  DOM.getElementById b (document w) = Some (tn, tp) →
  PageController.togglePanelVisibility a b w
  = bind (PageController.hideSelected sp)
      (λ _, PageController.showTarget tp)
      (Spec.switched a b sn tn sp tp w).
Proof.
  intros Hab Ha Hb.
  unfold PageController.togglePanelVisibility.
  rewrite bool_decide_true by exact Hab.
  run. rewrite Ha, Hb. run.
  unfold Spec.switched, Spec.backTarget, Spec.restyled.
  destruct (DOM.previousPageId (DOM.dataset tp)) as [p|]; [|reflexivity].
  destruct (JS.truthy p); reflexivity.
Qed.

Lemma logged_nil (w : World) : Spec.logged [] (window w) w = w.
Proof. destruct w. unfold Spec.logged. cbn. now rewrite app_nil_r. Qed.

(** ** Lifecycle dispatch *)

Lemma resolve_member (B O : string) (win : gmap string Window.Global) self ms :
  Window.get B win = Window.GObject self ms →
  Window.resolve (B, Some O) win = ms !! O.
Proof. intros H. unfold Window.resolve. cbn. now rewrite H. Qed.

Lemma resolve_self (B : string) (win : gmap string Window.Global) self ms :
  Window.get B win = Window.GObject self ms →
  Window.resolve (B, None) win = Some self.
Proof. intros H. unfold Window.resolve. cbn. now rewrite H. Qed.

Ltac nothing_logged :=
  exists []; rewrite logged_nil; split; [reflexivity | constructor].

(** [hide()] never lets an error out, touches only the call log, and is
    only ever invoked on an object that exists. *)
Lemma hideSelected_spec (sp : DOM.Element) (w : World) :
  ∃ l, PageController.hideSelected sp w
       = (Normal tt, Spec.logged l (window w) w)
     ∧ Forall (λ c, c.2 = Window.MHide
                    ∧ is_Some (Window.resolve c.1 (window w))) l.
Proof.
  unfold PageController.hideSelected.
  destruct (DOM.pageObject _) as [code|]; [|nothing_logged].
  destruct (JS.truthy code); [|nothing_logged].
  run.
  destruct (Window.hasProperty _ _); [|nothing_logged].
  set (B := JS.toPropertyKey (JS.split PageController.dot code !! 0%nat)).
  set (O := JS.split PageController.dot code !! 1%nat).
  destruct (JS.truthy_opt O).
  - unfold PageController.call_member, PageController.member. run.
    destruct (Window.get B (window w)) as [|self ms] eqn:EB; [nothing_logged|].
    run. unfold PageController.invoke.
    destruct (ms !! JS.toPropertyKey O) as [po|] eqn:EO; [|nothing_logged].
    destruct (Window.method Window.MHide po) as [out|]; [|nothing_logged].
    exists [((B, Some (JS.toPropertyKey O)), Window.MHide)].
    split.
    + destruct out; reflexivity.
    + constructor; [|constructor]. split; [reflexivity|].
      cbn [fst]. rewrite (resolve_member _ _ _ _ _ EB), EO. eauto.
  - unfold PageController.call_self. run.
    destruct (Window.get B (window w)) as [|self ms] eqn:EB; [nothing_logged|].
    unfold PageController.invoke.
    destruct (Window.method Window.MHide self) as [out|]; [|nothing_logged].
    exists [((B, None), Window.MHide)].
    split.
    + destruct out; reflexivity.
    + constructor; [|constructor]. split; [reflexivity|].
      cbn [fst]. rewrite (resolve_self _ _ _ _ EB). eauto.
Qed.

Lemma get_not_undefined (k : string) (win : gmap string Window.Global) self ms :
  Window.get k win = Window.GObject self ms →
  k ≠ "undefined" ∧ win !! k = Some (Window.GObject self ms).
Proof.
  unfold Window.get. case_bool_decide as Hk; [discriminate|].
  destruct (win !! k) as [g|]; cbn; [|discriminate].
  intros ->. auto.
Qed.

Lemma get_absent (k : string) (win : gmap string Window.Global) :
  Window.hasProperty k win = false → Window.get k win = Window.GNullish.
Proof.
  unfold Window.hasProperty, Window.get. intros H.
  apply orb_false_iff in H as [H1 H2].
  rewrite H1. apply bool_decide_eq_false in H2.
  destruct (win !! k) as [g|] eqn:E; [|reflexivity].
  exfalso. apply H2. eauto.
Qed.

Lemma get_insert_eq (k : string) (g : Window.Global)
  (win : gmap string Window.Global) :
  k ≠ "undefined" → Window.get k (<[k := g]> win) = g.
Proof.
  intros Hk. unfold Window.get.
  rewrite bool_decide_false by exact Hk.
  now rewrite lookup_insert_eq.
Qed.

Lemma get_insert_ne (k k' : string) (g : Window.Global)
  (win : gmap string Window.Global) :
  k ≠ k' → Window.get k' (<[k := g]> win) = Window.get k' win.
Proof.
  intros Hk. unfold Window.get.
  now rewrite lookup_insert_ne.
Qed.

Lemma get_set_loaded_member (B O : string) (win : gmap string Window.Global)
  self ms :
  Window.get B win = Window.GObject self ms →
  Window.get B (Window.set_loaded (B, Some O) win)
  = Window.GObject self (alter Window.mark_loaded O ms).
Proof.
  intros H. unfold Window.set_loaded. cbn [fst snd]. rewrite H.
  apply get_insert_eq. now apply get_not_undefined in H.
Qed.

Lemma get_set_loaded_self (B : string) (win : gmap string Window.Global)
  self ms :
  Window.get B win = Window.GObject self ms →
  Window.get B (Window.set_loaded (B, None) win)
  = Window.GObject (Window.mark_loaded self) ms.
Proof.
  intros H. unfold Window.set_loaded. cbn [fst snd]. rewrite H.
  apply get_insert_eq. now apply get_not_undefined in H.
Qed.

Lemma showTarget_undeclared (tp : DOM.Element) (w : World) :
  JS.truthy_opt (DOM.pageObject (DOM.dataset tp)) = false →
  PageController.showTarget tp w = (Normal tt, w).
Proof.
  unfold PageController.showTarget.
  destruct (DOM.pageObject _) as [code|]; cbn; [|reflexivity].
  now intros ->.
Qed.

(** What [init()]/[show()] dispatch does, by what the declared path
    denotes in [window]. *)
Lemma showTarget_cases (tp : DOM.Element) (w : World) (code : string) :
  DOM.pageObject (DOM.dataset tp) = Some code →
  JS.truthy code = true →
  let r := PageController.pathRef code in
  match Window.resolve r (window w) with
  | None =>
      ∃ res, PageController.showTarget tp w = (res, w)
             ∧ (res = Normal tt ∨ res = Throw TypeError)
  | Some po =>
      PageController.showTarget tp w =
      if Window.isLoaded po
      then (Normal tt, Spec.logged (Spec.shown r po) (window w) w)
      else match Window.init po with
           | None => (Throw TypeError, w)
           | Some Window.Raises =>
               (Throw (Thrown r Window.MInit),
                Spec.logged [(r, Window.MInit)] (window w) w)
           | Some Window.Returns =>
               (Normal tt,
                Spec.logged ((r, Window.MInit) :: Spec.shown r po)
                  (Window.set_loaded r (window w)) w)
           end
  end.
Proof.
  intros Hcode Htruthy. unfold PageController.showTarget, PageController.pathRef.
  rewrite Hcode, Htruthy.
  set (B := JS.toPropertyKey (JS.split PageController.dot code !! 0%nat)).
  set (O := JS.split PageController.dot code !! 1%nat).
  run.
  destruct (Window.hasProperty B (window w)) eqn:HB.
  2:{ unfold Window.resolve. cbn [fst]. rewrite (get_absent _ _ HB). eauto. }
  destruct (JS.truthy_opt O).
  - set (O' := JS.toPropertyKey O).
    unfold PageController.call_member, PageController.member. run.
    destruct (Window.get B (window w)) as [|self ms] eqn:EB.
    { unfold Window.resolve. cbn [fst]. rewrite EB. eauto. }
    rewrite (resolve_member _ _ _ _ _ EB).
    destruct (ms !! O') as [po|] eqn:EO.
    2:{ run. rewrite EB. cbn. rewrite EO. cbn. eauto. }
    unfold PageController.invoke, Spec.shown.
    destruct (Window.isLoaded po) eqn:EL; cbn [negb].
    + rewrite EB, EO. cbn [Window.method].
      destruct (Window.show po) as [[]|]; run;
        rewrite ?logged_nil; reflexivity.
    + rewrite EB, EO. cbn [Window.method].
      destruct (Window.init po) as [[]|]; run; try reflexivity.
      rewrite (get_set_loaded_member _ _ _ _ _ EB).
      rewrite lookup_alter_eq, EO. cbn [fmap option_fmap option_map Window.method Window.mark_loaded Window.show].
      unfold Spec.logged.
      destruct (Window.show po) as [[]|]; run;
        rewrite <- ?app_assoc; reflexivity.
  - unfold PageController.call_self. run.
    destruct (Window.get B (window w)) as [|self ms] eqn:EB.
    { unfold Window.resolve. cbn [fst]. rewrite EB. eauto. }
    rewrite (resolve_self _ _ _ _ EB).
    unfold PageController.invoke, Spec.shown.
    destruct (Window.isLoaded self) eqn:EL; cbn [negb].
    + rewrite EB. cbn [Window.method].
      destruct (Window.show self) as [[]|]; run;
        rewrite ?logged_nil; reflexivity.
    + rewrite EB. cbn [Window.method].
      destruct (Window.init self) as [[]|]; run; try reflexivity.
      rewrite (get_set_loaded_self _ _ _ _ EB).
      cbn [Window.method Window.mark_loaded Window.show].
      unfold Spec.logged.
      destruct (Window.show self) as [[]|]; run;
        rewrite <- ?app_assoc; reflexivity.
Qed.

(** ** Document queries and class lists *)

Lemma forEach_matching_from (sel : DOM.Element → bool)
  (f : DOM.Element → DOM.Element) (rest pre : DOM.Document) :
  DOM.forEach (DOM.matching_from sel (length pre) rest) f (pre ++ rest)
  = pre ++ map (λ e, if sel e then f e else e) rest.
Proof.
  unfold DOM.forEach. revert pre.
  induction rest as [|e rest IH]; intros pre; [reflexivity|].
  cbn [DOM.matching_from map]. rewrite foldl_app.
  assert (Hnext : ∀ x, foldl (λ d n, DOM.update n f d) (pre ++ x :: rest)
                         (DOM.matching_from sel (S (length pre)) rest)
                       = pre ++ x :: map (λ e, if sel e then f e else e) rest).
  { intros x. specialize (IH (pre ++ [x])).
    rewrite length_app, Nat.add_1_r, <- !app_assoc in IH. exact IH. }
  destruct (sel e); cbn [foldl]; [|apply Hnext].
  assert (Hhere : DOM.update (length pre) f (pre ++ e :: rest)
                  = pre ++ f e :: rest).
  { unfold DOM.update. rewrite <- (Nat.add_0_r (length pre)).
    exact (alter_app_r f pre (e :: rest) 0). }
  rewrite Hhere. apply Hnext.
Qed.

(** [querySelectorAll(sel).forEach(f)] applies [f] to exactly the elements
    matching [sel]. *)
Lemma forEach_querySelectorAll (sel : DOM.Element → bool)
  (f : DOM.Element → DOM.Element) (doc : DOM.Document) :
  DOM.forEach (DOM.querySelectorAll sel doc) f doc
  = map (λ e, if sel e then f e else e) doc.
Proof. apply (forEach_matching_from sel f doc []). Qed.

Lemma matching_from_unique (sel : DOM.Element → bool) (doc : DOM.Document) :
  ∀ off n,
    n < length doc →
    (∀ k e, doc !! k = Some e → sel e = bool_decide (k = n)) →
    DOM.matching_from sel off doc = [off + n].
Proof.
  induction doc as [|e doc IH]; intros off n Hn Hsel; cbn in Hn; [lia|].
  cbn [DOM.matching_from].
  destruct n as [|n].
  - rewrite (Hsel 0 e eq_refl), bool_decide_true by lia. cbn.
    rewrite Nat.add_0_r. f_equal.
    assert (Hnone : ∀ o, DOM.matching_from sel o doc = []).
    { clear IH Hn. assert (Hall : ∀ k x, doc !! k = Some x → sel x = false).
      { intros k x Hk. now rewrite (Hsel (S k) x Hk). }
      clear Hsel. induction doc as [|x doc IHd]; intros o; [reflexivity|].
      cbn. rewrite (Hall 0 x eq_refl). cbn. apply IHd.
      intros k y Hk. apply (Hall (S k) y Hk). }
    apply Hnone.
  - rewrite (Hsel 0 e eq_refl), bool_decide_false by lia. cbn.
    assert (Hn' : n < length doc) by lia.
    rewrite (IH (S off) n Hn').
    + f_equal. lia.
    + intros k x Hk. rewrite (Hsel (S k) x Hk).
      apply bool_decide_ext. lia.
Qed.

Lemma getElementById_Some (i : string) (doc : DOM.Document) n e :
  DOM.getElementById i doc = Some (n, e) →
  doc !! n = Some e ∧ DOM.el_id e = i.
Proof.
  unfold DOM.getElementById. destruct (JS.truthy i); [|discriminate].
  intros H. apply list_find_Some in H. tauto.
Qed.

Lemma getElementById_distinct (a b : string) (doc : DOM.Document) sn sp tn tp :
  a ≠ b →
  DOM.getElementById a doc = Some (sn, sp) →
  DOM.getElementById b doc = Some (tn, tp) →
  sn ≠ tn.
Proof.
  intros Hab Ha Hb ->.
  apply getElementById_Some in Ha as [Ha1 Ha2].
  apply getElementById_Some in Hb as [Hb1 Hb2].
  congruence.
Qed.

Lemma contains_add (c c' : string) (cl : list string) :
  DOM.contains c (DOM.tokens_add c' cl)
  = bool_decide (c = c') || DOM.contains c cl.
Proof.
  unfold DOM.tokens_add.
  destruct (DOM.contains c' cl) eqn:E.
  - case_bool_decide as Hc; [subst; now rewrite E | reflexivity].
  - unfold DOM.contains in *.
    apply eq_true_iff_eq.
    rewrite orb_true_iff, !bool_decide_eq_true, elem_of_app, list_elem_of_singleton.
    tauto.
Qed.

Lemma contains_remove (c c' : string) (cl : list string) :
  DOM.contains c (DOM.tokens_remove c' cl)
  = negb (bool_decide (c = c')) && DOM.contains c cl.
Proof.
  unfold DOM.tokens_remove, DOM.contains.
  apply eq_true_iff_eq.
  rewrite andb_true_iff, negb_true_iff, bool_decide_eq_false,
    !bool_decide_eq_true, list_elem_of_filter.
  tauto.
Qed.

Lemma hasClass_add (c c' : string) (e : DOM.Element) :
  DOM.hasClass c (DOM.add c' e) = bool_decide (c = c') || DOM.hasClass c e.
Proof. apply contains_add. Qed.

Lemma hasClass_remove (c c' : string) (e : DOM.Element) :
  DOM.hasClass c (DOM.remove c' e)
  = negb (bool_decide (c = c')) && DOM.hasClass c e.
Proof. apply contains_remove. Qed.

Lemma hasClass_toggle_force (c c' : string) (force : bool) (e : DOM.Element) :
  DOM.hasClass c (DOM.toggle_force c' force e)
  = if bool_decide (c = c') then force else DOM.hasClass c e.
Proof.
  unfold DOM.toggle_force. destruct force.
  - rewrite hasClass_add. now case_bool_decide.
  - rewrite hasClass_remove. now case_bool_decide.
Qed.

Lemma hasClass_toggle (c c' : string) (e : DOM.Element) :
  DOM.hasClass c (DOM.toggle c' e)
  = if bool_decide (c = c') then negb (DOM.hasClass c e) else DOM.hasClass c e.
Proof.
  unfold DOM.toggle. fold (DOM.hasClass c' e).
  destruct (DOM.hasClass c' e) eqn:E.
  - rewrite hasClass_remove. case_bool_decide; subst; [now rewrite E|reflexivity].
  - rewrite hasClass_add. case_bool_decide; subst; [now rewrite E|reflexivity].
Qed.

Lemma isPanel_add c e : DOM.isPanel (DOM.add c e) = DOM.isPanel e.
Proof. reflexivity. Qed.

Lemma isPanel_remove c e : DOM.isPanel (DOM.remove c e) = DOM.isPanel e.
Proof. reflexivity. Qed.

Lemma isPanel_toggle_force c b e :
  DOM.isPanel (DOM.toggle_force c b e) = DOM.isPanel e.
Proof. now destruct b. Qed.

Lemma isPanel_toggle c e : DOM.isPanel (DOM.toggle c e) = DOM.isPanel e.
Proof. unfold DOM.toggle. now destruct (DOM.contains c (DOM.classList e)). Qed.

(** ** What a transition does to the global object and the call log *)

Lemma logged_logged l1 l2 win1 win2 (w : World) :
  Spec.logged l2 win2 (Spec.logged l1 win1 w) = Spec.logged (l1 ++ l2) win2 w.
Proof. unfold Spec.logged. cbn. now rewrite app_assoc. Qed.

Lemma set_loaded_resolve (r : Window.ObjRef) (win : gmap string Window.Global) po :
  Window.resolve r win = Some po →
  Window.resolve r (Window.set_loaded r win) = Some (Window.mark_loaded po).
Proof.
  destruct r as [B [O|]]; unfold Window.resolve; cbn [fst snd];
    destruct (Window.get B win) as [|self ms] eqn:EB; try discriminate;
    intros H.
  - rewrite (get_set_loaded_member _ _ _ _ _ EB), lookup_alter_eq, H.
    reflexivity.
  - rewrite (get_set_loaded_self _ _ _ _ EB). congruence.
Qed.

Lemma set_loaded_keeps_loaded (r r0 : Window.ObjRef)
  (win : gmap string Window.Global) :
  Spec.loaded r win → Spec.loaded r (Window.set_loaded r0 win).
Proof.
  intros (po & Hpo & Hl).
  destruct r0 as [B0 O0]. unfold Window.set_loaded. cbn [fst snd].
  destruct (Window.get B0 win) as [|self ms] eqn:EB0; [by exists po|].
  destruct (get_not_undefined _ _ _ _ EB0) as [Hk _].
  destruct r as [B O]. unfold Spec.loaded, Window.resolve in *. cbn [fst snd] in *.
  destruct (decide (B0 = B)) as [->|Hne].
  - rewrite EB0 in Hpo.
    destruct O0 as [o0|]; rewrite get_insert_eq by exact Hk.
    + destruct O as [o|]; [|by exists po].
      rewrite lookup_alter. case_decide; [|by exists po].
      subst. rewrite Hpo. by exists (Window.mark_loaded po).
    + destruct O as [o|]; [by exists po|].
      by exists (Window.mark_loaded self).
  - destruct O0; rewrite get_insert_ne by exact Hne; by exists po.
Qed.

(** The entries a transition may add to the log on behalf of the target. *)
Lemma showTarget_summary (tp : DOM.Element) (w : World) :
  ∃ res l win',
    PageController.showTarget tp w = (res, Spec.logged l win' w)
    ∧ Forall (λ c, is_Some (Window.resolve c.1 (window w))) l
    ∧ (∀ r, Spec.loaded r (window w) →
            Spec.loaded r win' ∧ (r, Window.MInit) ∉ l)
    ∧ (res = Normal tt ∨ res = Throw TypeError
       ∨ ∃ r, res = Throw (Thrown r Window.MInit)).
Proof.
  destruct (JS.truthy_opt (DOM.pageObject (DOM.dataset tp))) eqn:Hdecl.
  2:{ exists (Normal tt), [], (window w).
      rewrite logged_nil, (showTarget_undeclared _ _ Hdecl).
      split; [reflexivity|]. split; [constructor|]. split; [|tauto].
      intros r Hr. split; [exact Hr | apply not_elem_of_nil]. }
  destruct (DOM.pageObject (DOM.dataset tp)) as [code|] eqn:Hcode;
    [|discriminate].
  cbn in Hdecl.
  pose proof (showTarget_cases tp w code Hcode Hdecl) as Hcases.
  cbn zeta in Hcases.
  set (r0 := PageController.pathRef code) in *.
  destruct (Window.resolve r0 (window w)) as [po|] eqn:Hres.
  2:{ destruct Hcases as (res & -> & Hform).
      exists res, [], (window w). rewrite logged_nil.
      split; [reflexivity|]. split; [constructor|]. split; [|tauto].
      intros r Hr. split; [exact Hr | apply not_elem_of_nil]. }
  assert (Hnot : ∀ r, Spec.loaded r (window w) → Window.isLoaded po = false →
                      r ≠ r0).
  { intros r (po' & Hpo' & Hl') Hf ->. congruence. }
  assert (Hshown : ∀ r, (r, Window.MInit) ∉ Spec.shown r0 po).
  { intros r. unfold Spec.shown. destruct (Window.show po).
    - rewrite list_elem_of_singleton. congruence.
    - apply not_elem_of_nil. }
  assert (Hok : Forall (λ c, is_Some (Window.resolve c.1 (window w)))
                  (Spec.shown r0 po)).
  { unfold Spec.shown. destruct (Window.show po); repeat constructor.
    cbn. rewrite Hres. eauto. }
  rewrite Hcases. clear Hcases.
  destruct (Window.isLoaded po) eqn:Hl.
  { exists (Normal tt), (Spec.shown r0 po), (window w).
    split; [reflexivity|]. split; [exact Hok|]. split; [|tauto].
    intros r Hr. split; [exact Hr | apply Hshown]. }
  destruct (Window.init po) as [[]|].
  - exists (Normal tt), ((r0, Window.MInit) :: Spec.shown r0 po),
      (Window.set_loaded r0 (window w)).
    split; [reflexivity|]. split; [|split; [|tauto]].
    + constructor; [cbn; rewrite Hres; eauto | exact Hok].
    + intros r Hr. split; [now apply set_loaded_keeps_loaded|].
      rewrite elem_of_cons. intros [Heq|Hin].
      * apply (Hnot r Hr eq_refl). congruence.
      * now apply (Hshown r).
  - exists (Throw (Thrown r0 Window.MInit)), [(r0, Window.MInit)], (window w).
    split; [reflexivity|]. split; [|split; [|eauto]].
    + repeat constructor. cbn. rewrite Hres. eauto.
    + intros r Hr. split; [exact Hr|].
      rewrite list_elem_of_singleton. intros Heq.
      apply (Hnot r Hr eq_refl). congruence.
  - exists (Throw TypeError), [], (window w). rewrite logged_nil.
    split; [reflexivity|]. split; [constructor|]. split; [|tauto].
    intros r Hr. split; [exact Hr | apply not_elem_of_nil].
Qed.

Lemma lifecycle_summary (sp tp : DOM.Element) (w : World) :
  ∃ res l win',
    bind (PageController.hideSelected sp)
      (λ _, PageController.showTarget tp) w
    = (res, Spec.logged l win' w)
    ∧ Forall (λ c, is_Some (Window.resolve c.1 (window w))) l
    ∧ (∀ r, Spec.loaded r (window w) →
            Spec.loaded r win' ∧ (r, Window.MInit) ∉ l)
    ∧ (res = Normal tt ∨ res = Throw TypeError
       ∨ ∃ r, res = Throw (Thrown r Window.MInit)).
Proof.
  destruct (hideSelected_spec sp w) as (l1 & Hhide & Hl1).
  destruct (showTarget_summary tp (Spec.logged l1 (window w) w))
    as (res & l2 & win' & Hshow & Hl2 & Hloaded & Hres).
  exists res, (l1 ++ l2), win'.
  unfold bind. rewrite Hhide, Hshow, logged_logged.
  split; [reflexivity|]. split; [|split; [|exact Hres]].
  - apply Forall_app. split; [|exact Hl2].
    eapply Forall_impl; [exact Hl1|]. cbn. tauto.
  - intros r Hr. split; [now apply Hloaded|].
    rewrite elem_of_app. intros [Hin|Hin].
    + rewrite Forall_forall in Hl1. apply Hl1 in Hin as [Hm _]. discriminate.
    + now apply (Hloaded r).
Qed.

(** Every way a transition can end: what it adds to the call log, what it
    leaves in [window], and how it completes. *)
Lemma toggle_summary (a b : string) (w : World) :
  ∃ l,
    calls (PageController.togglePanelVisibility a b w).2 = calls w ++ l
    ∧ Forall (λ c, is_Some (Window.resolve c.1 (window w))) l
    ∧ (∀ r, Spec.loaded r (window w) →
            Spec.loaded r (window (PageController.togglePanelVisibility a b w).2)
            ∧ (r, Window.MInit) ∉ l)
    ∧ ((PageController.togglePanelVisibility a b w).1 = Normal tt
       ∨ (PageController.togglePanelVisibility a b w).1 = Throw TypeError
       ∨ ∃ r, (PageController.togglePanelVisibility a b w).1
              = Throw (Thrown r Window.MInit)).
Proof.
  assert (Hquiet : ∀ res w',
            PageController.togglePanelVisibility a b w = (res, w') →
            calls w' = calls w → window w' = window w →
            res = Normal tt ∨ res = Throw TypeError →
            ∃ l,
              calls (PageController.togglePanelVisibility a b w).2 = calls w ++ l
              ∧ Forall (λ c, is_Some (Window.resolve c.1 (window w))) l
              ∧ (∀ r, Spec.loaded r (window w) →
                      Spec.loaded r
                        (window (PageController.togglePanelVisibility a b w).2)
                      ∧ (r, Window.MInit) ∉ l)
              ∧ ((PageController.togglePanelVisibility a b w).1 = Normal tt
                 ∨ (PageController.togglePanelVisibility a b w).1 = Throw TypeError
                 ∨ ∃ r, (PageController.togglePanelVisibility a b w).1
                        = Throw (Thrown r Window.MInit))).
  { intros res w' -> Hc Hw Hres. exists []. cbn [fst snd].
    rewrite Hc, Hw, app_nil_r.
    split; [reflexivity|]. split; [constructor|]. split; [|tauto].
    intros r Hr. split; [exact Hr | apply not_elem_of_nil]. }
  destruct (decide (a = b)) as [->|Hab].
  { eapply Hquiet; [apply toggle_same | | |]; auto. }
  destruct (DOM.getElementById a (document w)) as [[sn sp]|] eqn:Ha.
  2:{ eapply Hquiet; [apply (toggle_source_missing a b w Hab Ha) | | |]; auto. }
  destruct (DOM.getElementById b (document w)) as [[tn tp]|] eqn:Hb.
  2:{ eapply Hquiet; [apply (toggle_target_missing a b w _ _ Hab Ha Hb) | | |];
      auto. }
  rewrite (toggle_resolved a b w _ _ _ _ Hab Ha Hb).
  destruct (lifecycle_summary sp tp (Spec.switched a b sn tn sp tp w))
    as (res & l & win' & -> & Hl & Hloaded & Hres).
  exists l. cbn [fst snd Spec.logged Spec.switched calls window] in *.
  auto.
Qed.

Lemma initCount_app (r : Window.ObjRef) l1 l2 :
  (r, Window.MInit) ∉ l2 →
  Spec.initCount r (l1 ++ l2) = Spec.initCount r l1.
Proof.
  intros Hnot. unfold Spec.initCount.
  rewrite filter_app, length_app.
  replace (filter (λ c, c = (r, Window.MInit)) l2) with
    (@nil (Window.ObjRef * Window.Method)); [cbn; lia|].
  symmetry. apply elem_of_nil_inv. intros x Hx.
  apply list_elem_of_filter in Hx as [-> Hx]. contradiction.
Qed.

(** Once an object is marked loaded no later transition invokes its
    [init()]. *)
Lemma transitions_keep_loaded (r : Window.ObjRef)
  (reqs : list (string * string)) :
  ∀ w, Spec.loaded r (window w) →
       Spec.loaded r (window (PageController.transitions reqs w))
       ∧ Spec.initCount r (calls (PageController.transitions reqs w))
         = Spec.initCount r (calls w).
Proof.
  induction reqs as [|[a b] reqs IH]; intros w Hr; [by split|].
  cbn [PageController.transitions].
  destruct (toggle_summary a b w) as (l & Hcalls & _ & Hloaded & _).
  destruct (Hloaded r Hr) as [Hr' Hnot].
  destruct (IH _ Hr') as [Hfinal Hcount].
  split; [exact Hfinal|].
  rewrite Hcount, Hcalls. now apply initCount_app.
Qed.

(** ** The classes after a transition *)

Lemma strip_invisible (e : DOM.Element) :
  DOM.isVisiblePanel
    (if DOM.isVisiblePanel e then DOM.remove "visible" e else e) = false.
Proof.
  destruct (DOM.isVisiblePanel e) eqn:E; [|exact E].
  unfold DOM.isVisiblePanel. rewrite hasClass_remove.
  rewrite bool_decide_true by reflexivity. cbn. apply andb_false_r.
Qed.

Lemma restyled_length sn tn sp tp (doc : DOM.Document) :
  length (Spec.restyled sn tn sp tp doc) = length doc.
Proof.
  unfold Spec.restyled, DOM.update. cbv zeta.
  rewrite !length_alter, forEach_querySelectorAll. apply length_map.
Qed.

(** After the class changes the target, and only the target, matches
    [[role="panel"].visible]. *)
Lemma restyled_visible sn tn sp tp (doc : DOM.Document) :
  doc !! sn = Some sp → doc !! tn = Some tp → sn ≠ tn →
  DOM.isPanel tp = true →
  ∀ k e, Spec.restyled sn tn sp tp doc !! k = Some e →
         DOM.isVisiblePanel e = bool_decide (k = tn).
Proof.
  intros Hs Ht Hne Hpanel k e.
  unfold Spec.restyled, DOM.update. cbv zeta.
  rewrite forEach_querySelectorAll.
  destruct (decide (k = tn)) as [->|Hk].
  - rewrite bool_decide_true by reflexivity.
    rewrite !list_lookup_alter_eq.
    rewrite !(list_lookup_alter_ne _ _ sn tn) by exact Hne.
    rewrite list_lookup_fmap, Ht. cbn. intros [= <-].
    pose proof (strip_invisible tp) as Hstrip.
    assert (Hp : DOM.isPanel
                   (if DOM.isVisiblePanel tp then DOM.remove "visible" tp else tp)
                 = true).
    { destruct (DOM.isVisiblePanel tp); [rewrite isPanel_remove|]; exact Hpanel. }
    remember (if DOM.isVisiblePanel tp then DOM.remove "visible" tp else tp)
      as stripped eqn:Hdef.
    clear Hdef. unfold DOM.isVisiblePanel in *.
    rewrite !isPanel_toggle_force, isPanel_toggle.
    rewrite !hasClass_toggle_force, hasClass_toggle.
    rewrite !bool_decide_false by discriminate.
    rewrite bool_decide_true by reflexivity.
    rewrite Hp in *. cbn in Hstrip. now rewrite Hstrip.
  - rewrite bool_decide_false by exact Hk.
    rewrite !(list_lookup_alter_ne _ _ tn k) by congruence.
    destruct (decide (k = sn)) as [->|Hks].
    + rewrite !list_lookup_alter_eq, list_lookup_fmap, Hs. cbn. intros [= <-].
      pose proof (strip_invisible sp) as Hstrip.
      remember (if DOM.isVisiblePanel sp then DOM.remove "visible" sp else sp)
        as stripped eqn:Hdef.
      clear Hdef. unfold DOM.isVisiblePanel in *.
      rewrite !isPanel_toggle_force, !hasClass_toggle_force.
      rewrite !bool_decide_false by discriminate. exact Hstrip.
    + rewrite !(list_lookup_alter_ne _ _ sn k) by congruence.
      rewrite list_lookup_fmap.
      destruct (doc !! k) as [x|]; cbn; [|discriminate].
      intros [= <-]. apply strip_invisible.
Qed.

Lemma toggle_document (a b : string) (w : World) sn sp tn tp :
  a ≠ b →
  DOM.getElementById a (document w) = Some (sn, sp) →
  DOM.getElementById b (document w) = Some (tn, tp) →
  document (PageController.togglePanelVisibility a b w).2
  = Spec.restyled sn tn sp tp (document w).
Proof.
  intros Hab Ha Hb.
  rewrite (toggle_resolved a b w _ _ _ _ Hab Ha Hb).
  destruct (lifecycle_summary sp tp (Spec.switched a b sn tn sp tp w))
    as (res & l & win' & -> & _).
  reflexivity.
Qed.

(** The target is the one visible panel after a resolved transition. *)
Lemma toggle_visible (a b : string) (w : World) sn sp tn tp :
  a ≠ b →
  DOM.getElementById a (document w) = Some (sn, sp) →
  DOM.getElementById b (document w) = Some (tn, tp) →
  DOM.isPanel tp = true →
  DOM.querySelectorAll DOM.isVisiblePanel
    (document (PageController.togglePanelVisibility a b w).2) = [tn].
Proof.
  intros Hab Ha Hb Hpanel.
  rewrite (toggle_document a b w sn sp tn tp Hab Ha Hb).
  pose proof (getElementById_distinct a b _ _ _ _ _ Hab Ha Hb) as Hne.
  apply getElementById_Some in Ha as [Hs _].
  apply getElementById_Some in Hb as [Ht _].
  unfold DOM.querySelectorAll.
  rewrite (matching_from_unique DOM.isVisiblePanel _ 0 tn); [reflexivity | |].
  - rewrite restyled_length. now apply lookup_lt_Some in Ht.
  - now apply restyled_visible.
Qed.

(** ** What a transition leaves alone *)

Lemma alter_observed {A} (g : DOM.Element → A) (f : DOM.Element → DOM.Element)
  (n : nat) (doc : DOM.Document) :
  (∀ e, g (f e) = g e) → g <$> alter f n doc = g <$> doc.
Proof.
  intros Hg. apply list_eq. intros i. rewrite !list_lookup_fmap.
  destruct (decide (n = i)) as [->|Hne].
  - rewrite list_lookup_alter_eq. destruct (doc !! i); cbn; [|reflexivity].
    now rewrite Hg.
  - now rewrite list_lookup_alter_ne.
Qed.

Lemma map_if_observed {A} (g : DOM.Element → A) (sel : DOM.Element → bool)
  (f : DOM.Element → DOM.Element) (doc : DOM.Document) :
  (∀ e, g (f e) = g e) →
  g <$> map (λ e, if sel e then f e else e) doc = g <$> doc.
Proof.
  intros Hg. apply list_eq. intros i.
  rewrite !list_lookup_fmap. destruct (doc !! i) as [e|]; cbn; [|reflexivity].
  destruct (sel e); [now rewrite Hg | reflexivity].
Qed.

(** An observation of elements that adding or removing [visible],
    [previous] or [next] does not change is not changed by the class
    changes of a transition. *)
Lemma restyled_observed {A} (g : DOM.Element → A) sn tn sp tp
  (doc : DOM.Document) :
  (∀ c e, c = "visible" ∨ c = "previous" ∨ c = "next" →
          g (DOM.add c e) = g e ∧ g (DOM.remove c e) = g e) →
  g <$> Spec.restyled sn tn sp tp doc = g <$> doc.
Proof.
  intros Hg.
  assert (Hforce : ∀ c b e, c = "previous" ∨ c = "next" →
                            g (DOM.toggle_force c b e) = g e).
  { intros c b e Hc. unfold DOM.toggle_force.
    destruct b; apply Hg; tauto. }
  assert (Htoggle : ∀ e, g (DOM.toggle "visible" e) = g e).
  { intros e. unfold DOM.toggle.
    destruct (DOM.contains "visible" (DOM.classList e)); apply Hg; tauto. }
  unfold Spec.restyled, DOM.update. cbv zeta.
  rewrite !alter_observed; auto.
  rewrite forEach_querySelectorAll. apply map_if_observed.
  intros e. apply Hg. tauto.
Qed.

Lemma toggle_observed {A} (g : DOM.Element → A) (a b : string) (w : World) :
  (∀ c e, c = "visible" ∨ c = "previous" ∨ c = "next" →
          g (DOM.add c e) = g e ∧ g (DOM.remove c e) = g e) →
  g <$> document (PageController.togglePanelVisibility a b w).2
  = g <$> document w.
Proof.
  intros Hg.
  destruct (decide (a = b)) as [->|Hab]; [now rewrite toggle_same|].
  destruct (DOM.getElementById a (document w)) as [[sn sp]|] eqn:Ha.
  2:{ now rewrite (toggle_source_missing a b w Hab Ha). }
  destruct (DOM.getElementById b (document w)) as [[tn tp]|] eqn:Hb.
  2:{ now rewrite (toggle_target_missing a b w _ _ Hab Ha Hb). }
  rewrite (toggle_document a b w _ _ _ _ Hab Ha Hb).
  now apply restyled_observed.
Qed.

Lemma skeleton_blind (c : string) (e : DOM.Element) :
  Spec.skeleton (DOM.add c e) = Spec.skeleton e
  ∧ Spec.skeleton (DOM.remove c e) = Spec.skeleton e.
Proof. split; reflexivity. Qed.

Lemma toggle_skeleton (a b : string) (w : World) :
  Spec.skeleton <$> document (PageController.togglePanelVisibility a b w).2
  = Spec.skeleton <$> document w.
Proof. apply toggle_observed. intros c e _. apply skeleton_blind. Qed.

(** Looking an id up depends on ids only. *)
Lemma getElementById_skeleton (i : string) (doc doc' : DOM.Document) n e :
  Spec.skeleton <$> doc' = Spec.skeleton <$> doc →
  DOM.getElementById i doc = Some (n, e) →
  ∃ e', DOM.getElementById i doc' = Some (n, e')
        ∧ Spec.skeleton e' = Spec.skeleton e.
Proof.
  intros Hsk. unfold DOM.getElementById.
  destruct (JS.truthy i); [|discriminate].
  intros Hfind. apply list_find_Some in Hfind as (Hn & Hid & Hmin).
  assert (Hat : ∀ k x', doc' !! k = Some x' →
                        ∃ x, doc !! k = Some x
                             ∧ Spec.skeleton x' = Spec.skeleton x).
  { intros k x' Hk.
    assert (Hk' : (Spec.skeleton <$> doc') !! k = Some (Spec.skeleton x'))
      by (now rewrite list_lookup_fmap, Hk).
    rewrite Hsk, list_lookup_fmap in Hk'.
    destruct (doc !! k) as [x|]; [|discriminate].
    exists x. split; [reflexivity|]. cbn in Hk'. congruence. }
  assert (Hn' : ∃ e', doc' !! n = Some e').
  { assert (Hk : (Spec.skeleton <$> doc) !! n = Some (Spec.skeleton e))
      by (now rewrite list_lookup_fmap, Hn).
    rewrite <- Hsk, list_lookup_fmap in Hk.
    destruct (doc' !! n) as [e'|]; [eauto | discriminate]. }
  destruct Hn' as [e' He'].
  destruct (Hat n e' He') as (x & Hx & Hskx).
  assert (x = e) by congruence. subst x.
  exists e'. split; [|exact Hskx].
  apply list_find_Some. split; [exact He'|]. split.
  - unfold Spec.skeleton in Hskx. congruence.
  - intros j y Hj Hlt Hy.
    destruct (Hat j y Hj) as (y0 & Hy0 & Hsky).
    apply (Hmin j y0 Hy0 Hlt).
    unfold Spec.skeleton in Hsky. congruence.
Qed.

(** The shape of the state after any transition between different ids. *)
Lemma toggle_shape (a b : string) (w : World) :
  a ≠ b →
  ∃ res prev doc' win' l,
    PageController.togglePanelVisibility a b w
    = (res,
       mkWorld prev b (isKeyDown w) doc'
         (URL.set_param "panel" b (location w))
         (location w :: history w) win' (calls w ++ l)).
Proof.
  intros Hab.
  destruct (DOM.getElementById a (document w)) as [[sn sp]|] eqn:Ha.
  2:{ rewrite (toggle_source_missing a b w Hab Ha).
      exists (Normal tt), (JS.or_else a "root"), (document w), (window w), [].
      unfold Spec.requested. now rewrite app_nil_r. }
  destruct (DOM.getElementById b (document w)) as [[tn tp]|] eqn:Hb.
  2:{ rewrite (toggle_target_missing a b w _ _ Hab Ha Hb).
      exists (Throw TypeError), (JS.or_else a "root"), (document w),
        (window w), [].
      unfold Spec.requested. now rewrite app_nil_r. }
  rewrite (toggle_resolved a b w _ _ _ _ Hab Ha Hb).
  destruct (lifecycle_summary sp tp (Spec.switched a b sn tn sp tp w))
    as (res & l & win' & -> & _).
  exists res, (Spec.backTarget a tp),
    (Spec.restyled sn tn sp tp (document w)), win', l.
  reflexivity.
Qed.

Lemma toggle_pointer (a b : string) (w : World) sn sp tn tp :
  a ≠ b →
  DOM.getElementById a (document w) = Some (sn, sp) →
  DOM.getElementById b (document w) = Some (tn, tp) →
  previousPanelId (PageController.togglePanelVisibility a b w).2
  = Spec.backTarget a tp
  ∧ currentPanelId (PageController.togglePanelVisibility a b w).2 = b.
Proof.
  intros Hab Ha Hb.
  rewrite (toggle_resolved a b w _ _ _ _ Hab Ha Hb).
  destruct (lifecycle_summary sp tp (Spec.switched a b sn tn sp tp w))
    as (res & l & win' & -> & _).
  split; reflexivity.
Qed.

Lemma skeleton_facts (e e' : DOM.Element) :
  Spec.skeleton e' = Spec.skeleton e →
  DOM.el_id e' = DOM.el_id e
  ∧ DOM.isPanel e' = DOM.isPanel e
  ∧ DOM.dataset e' = DOM.dataset e.
Proof.
  unfold Spec.skeleton, DOM.isPanel. intros [= Hid Hrole Hdata].
  now rewrite Hid, Hrole, Hdata.
Qed.


(* ===================================================================== *)
(** * The transition controller                                          *)
(* ===================================================================== *)

(** C3.  A transition from a panel to itself is a no-op: the navigation
    pointer, every class of every element, the location, the session
    history, the global object and the call log are all left as they
    were, and the call returns normally. *)
Theorem transition_to_self_is_noop (x : string) (w : World) :
  PageController.togglePanelVisibility x x w = (Normal tt, w).
Proof. apply toggle_same. Qed.

(** C1, as the specification states it, fails: when the source id names no
    element the new URL has nevertheless been pushed.  On the sample page
    the id [ghost] names nothing, and after [Transition("ghost",
    "settings")] the former location is an earlier history entry and the
    location carries [panel=settings]. *)
Lemma missing_source_still_pushes_history :
  DOM.getElementById "ghost"
    (document (Sample.started Sample.threePanels ∅)) = None
  ∧ history (PageController.togglePanelVisibility "ghost" "settings"
               (Sample.started Sample.threePanels ∅)).2
    = [location (Sample.started Sample.threePanels ∅)]
  ∧ history (Sample.started Sample.threePanels ∅) = []
  ∧ URL.get_param "panel"
      (location (PageController.togglePanelVisibility "ghost" "settings"
                   (Sample.started Sample.threePanels ∅)).2)
    = Some "settings"
  ∧ URL.get_param "panel" (location (Sample.started Sample.threePanels ∅))
    = None.
Proof. vm_compute. repeat split; reflexivity. Qed.

(** C1, amended.  When the source id differs from the target id and names
    no element, the transition returns normally after updating the
    navigation pointer and pushing the new URL: no class of any element
    changes and no lifecycle method runs, while [previousPanelId],
    [currentPanelId], the location and the session history have already
    been written. *)
Theorem transition_from_missing_source (a b : string) (w : World) :
  a ≠ b →
  DOM.getElementById a (document w) = None →
  (PageController.togglePanelVisibility a b w).1 = Normal tt
  ∧ document (PageController.togglePanelVisibility a b w).2 = document w
  ∧ calls (PageController.togglePanelVisibility a b w).2 = calls w
  ∧ window (PageController.togglePanelVisibility a b w).2 = window w
  ∧ isKeyDown (PageController.togglePanelVisibility a b w).2 = isKeyDown w
  ∧ previousPanelId (PageController.togglePanelVisibility a b w).2
    = JS.or_else a "root"
  ∧ currentPanelId (PageController.togglePanelVisibility a b w).2 = b
  ∧ location (PageController.togglePanelVisibility a b w).2
    = URL.set_param "panel" b (location w)
  ∧ history (PageController.togglePanelVisibility a b w).2
    = location w :: history w.
Proof.
  intros Hab Ha. rewrite (toggle_source_missing a b w Hab Ha).
  repeat split; reflexivity.
Qed.

Lemma transition_from_missing_source_witness :
  (PageController.togglePanelVisibility "ghost" "settings"
     (Sample.started Sample.threePanels ∅)).1 = Normal tt
  ∧ document (PageController.togglePanelVisibility "ghost" "settings"
                (Sample.started Sample.threePanels ∅)).2
    = document (Sample.started Sample.threePanels ∅)
  ∧ previousPanelId (PageController.togglePanelVisibility "ghost" "settings"
                       (Sample.started Sample.threePanels ∅)).2 = "ghost"
  ∧ currentPanelId (PageController.togglePanelVisibility "ghost" "settings"
                      (Sample.started Sample.threePanels ∅)).2 = "settings".
Proof.
  destruct (transition_from_missing_source "ghost" "settings"
              (Sample.started Sample.threePanels ∅))
    as (H1 & H2 & _ & _ & _ & H3 & H4 & _).
  - discriminate.
  - vm_compute. reflexivity.
  - repeat split; assumption.
Defined.

(** C10.  When the source id names an element and the target id names
    none, nothing guards the target: the navigation pointer has been
    updated and the new URL pushed when reading the missing target's
    [dataset] throws a TypeError.  The error leaves the call, and the
    writes made before it stay; no class has changed and no lifecycle
    method has run. *)
Theorem transition_to_missing_target (a b : string) (w : World) sn sp :
  a ≠ b →
  DOM.getElementById a (document w) = Some (sn, sp) →
  DOM.getElementById b (document w) = None →
  (PageController.togglePanelVisibility a b w).1 = Throw TypeError
  ∧ previousPanelId (PageController.togglePanelVisibility a b w).2
    = JS.or_else a "root"
  ∧ currentPanelId (PageController.togglePanelVisibility a b w).2 = b
  ∧ location (PageController.togglePanelVisibility a b w).2
    = URL.set_param "panel" b (location w)
  ∧ history (PageController.togglePanelVisibility a b w).2
    = location w :: history w
  ∧ document (PageController.togglePanelVisibility a b w).2 = document w
  ∧ calls (PageController.togglePanelVisibility a b w).2 = calls w.
Proof.
  intros Hab Ha Hb. rewrite (toggle_target_missing a b w sn sp Hab Ha Hb).
  repeat split; reflexivity.
Qed.

Lemma transition_to_missing_target_witness :
  (PageController.togglePanelVisibility "home" "ghost"
     (Sample.started Sample.threePanels ∅)).1 = Throw TypeError
  ∧ currentPanelId (PageController.togglePanelVisibility "home" "ghost"
                      (Sample.started Sample.threePanels ∅)).2 = "ghost"
  ∧ history (PageController.togglePanelVisibility "home" "ghost"
               (Sample.started Sample.threePanels ∅)).2
    = location (Sample.started Sample.threePanels ∅)
      :: history (Sample.started Sample.threePanels ∅).
Proof.
  destruct (transition_to_missing_target "home" "ghost"
              (Sample.started Sample.threePanels ∅) 0
              (DOM.mkElement "home" (Some "panel") ["visible"; "next"]
                 (DOM.mkDataset (Some "0") None None None)))
    as (H1 & _ & H2 & _ & H3 & _).
  - discriminate.
  - vm_compute. reflexivity.
  - vm_compute. reflexivity.
  - repeat split; assumption.
Defined.

(** C2.  After a transition between two different ids that both resolve,
    the target being a panel, exactly one panel carries [visible], namely
    the target, however many panels carried it before.  This holds
    whether or not a lifecycle method later throws. *)
Theorem exactly_one_visible_panel (a b : string) (w : World) sn sp tn tp :
  a ≠ b →
  DOM.getElementById a (document w) = Some (sn, sp) →
  DOM.getElementById b (document w) = Some (tn, tp) →
  DOM.isPanel tp = true →
  DOM.querySelectorAll DOM.isVisiblePanel
    (document (PageController.togglePanelVisibility a b w).2) = [tn].
Proof. apply toggle_visible. Qed.

Lemma exactly_one_visible_panel_witness :
  DOM.querySelectorAll DOM.isVisiblePanel
    (document (Sample.started Sample.twoVisible ∅)) = [0; 1]
  ∧ DOM.querySelectorAll DOM.isVisiblePanel
      (document (PageController.togglePanelVisibility "home" "settings"
                   (Sample.started Sample.twoVisible ∅)).2) = [2].
Proof.
  split; [vm_compute; reflexivity|].
  eapply (exactly_one_visible_panel "home" "settings"
            (Sample.started Sample.twoVisible ∅) 0 _ 2 _).
  - discriminate.
  - vm_compute. reflexivity.
  - vm_compute. reflexivity.
  - vm_compute. reflexivity.
Defined.

(* ===================================================================== *)
(** * Lifecycle of the target's controller                               *)
(* ===================================================================== *)

Lemma initCount_snoc (r : Window.ObjRef) l :
  Spec.initCount r (l ++ [(r, Window.MInit)]) = S (Spec.initCount r l).
Proof.
  unfold Spec.initCount. rewrite filter_app, length_app.
  rewrite filter_cons, decide_True by reflexivity. cbn. lia.
Qed.

(** What does hold of C7.  Let the target panel declare a controller
    path.  (1) When the path denotes no object in [window], the classes
    are switched as for any transition, the target ending as the one
    visible panel, and no lifecycle method is invoked through that path.
    (2) When the path denotes an object not yet marked [isLoaded] whose
    [init()] returns, the transition returns normally, having invoked
    [init()] on it exactly once, directly followed by [show()];
    [isLoaded] is true afterwards whatever [show()] did, and no later
    sequence of transitions invokes that [init()] again. *)
Theorem target_lifecycle (a b : string) (w : World) sn sp tn tp code :
  a ≠ b →
  DOM.getElementById a (document w) = Some (sn, sp) →
  DOM.getElementById b (document w) = Some (tn, tp) →
  DOM.isPanel tp = true →
  DOM.pageObject (DOM.dataset tp) = Some code →
  JS.truthy code = true →
  (Window.resolve (PageController.pathRef code) (window w) = None →
   document (PageController.togglePanelVisibility a b w).2
   = Spec.restyled sn tn sp tp (document w)
   ∧ DOM.querySelectorAll DOM.isVisiblePanel
       (document (PageController.togglePanelVisibility a b w).2) = [tn]
   ∧ ∃ l, calls (PageController.togglePanelVisibility a b w).2 = calls w ++ l
          ∧ ∀ m, (PageController.pathRef code, m) ∉ l)
  ∧
  (∀ po,
     Window.resolve (PageController.pathRef code) (window w) = Some po →
     Window.isLoaded po = false →
     Window.init po = Some Window.Returns →
     (PageController.togglePanelVisibility a b w).1 = Normal tt
     ∧ (∃ hides,
          calls (PageController.togglePanelVisibility a b w).2
          = calls w ++ hides
            ++ (PageController.pathRef code, Window.MInit)
               :: Spec.shown (PageController.pathRef code) po
          ∧ Forall (λ c, c.2 = Window.MHide) hides)
     ∧ Spec.initCount (PageController.pathRef code)
         (calls (PageController.togglePanelVisibility a b w).2)
       = S (Spec.initCount (PageController.pathRef code) (calls w))
     ∧ Window.resolve (PageController.pathRef code)
         (window (PageController.togglePanelVisibility a b w).2)
       = Some (Window.mark_loaded po)
     ∧ ∀ reqs,
         Spec.initCount (PageController.pathRef code)
           (calls (PageController.transitions reqs
                     (PageController.togglePanelVisibility a b w).2))
         = Spec.initCount (PageController.pathRef code)
             (calls (PageController.togglePanelVisibility a b w).2)).
Proof.
  intros Hab Ha Hb Hpanel Hcode Htruthy.
  set (r := PageController.pathRef code).
  split.
  - intros Hnone.
    split; [apply (toggle_document a b w sn sp tn tp Hab Ha Hb)|].
    split; [apply (toggle_visible a b w sn sp tn tp Hab Ha Hb Hpanel)|].
    destruct (toggle_summary a b w) as (l & Hcalls & Hl & _).
    exists l. split; [exact Hcalls|].
    intros m Hin. rewrite Forall_forall in Hl.
    apply Hl in Hin. cbn in Hin. rewrite Hnone in Hin.
    now destruct Hin.
  - intros po Hres Hfresh Hinit.
    rewrite (toggle_resolved a b w _ _ _ _ Hab Ha Hb).
    destruct (hideSelected_spec sp (Spec.switched a b sn tn sp tp w))
      as (hides & Hhide & Hhides).
    pose proof (showTarget_cases tp
                  (Spec.logged hides
                     (window (Spec.switched a b sn tn sp tp w))
                     (Spec.switched a b sn tn sp tp w))
                  code Hcode Htruthy) as Hshow.
    cbn [Spec.logged Spec.switched window] in Hshow. fold r in Hshow.
    cbn zeta in Hshow. rewrite Hres, Hfresh, Hinit in Hshow.
    unfold bind. rewrite Hhide.
    cbn [Spec.logged Spec.switched window]. rewrite Hshow.
    cbn [fst snd Spec.logged calls window].
    assert (Hcount :
      Spec.initCount r
        ((calls w ++ hides) ++ (r, Window.MInit) :: Spec.shown r po)
      = S (Spec.initCount r (calls w))).
    { replace ((calls w ++ hides) ++ (r, Window.MInit) :: Spec.shown r po)
        with (((calls w ++ hides) ++ [(r, Window.MInit)]) ++ Spec.shown r po)
        by (now rewrite <- !app_assoc).
      rewrite initCount_app, initCount_snoc, initCount_app; [reflexivity | |].
      - intros Hin. rewrite Forall_forall in Hhides.
        apply Hhides in Hin as [Hm _]. discriminate.
      - unfold Spec.shown. destruct (Window.show po).
        + rewrite list_elem_of_singleton. congruence.
        + apply not_elem_of_nil. }
    split; [reflexivity|].
    split.
    { exists hides. split; [now rewrite <- app_assoc|].
      eapply Forall_impl; [exact Hhides|]. cbn. tauto. }
    split; [exact Hcount|].
    split; [now apply set_loaded_resolve|].
    intros reqs.
    apply transitions_keep_loaded. cbn [window].
    exists (Window.mark_loaded po).
    split; [now apply set_loaded_resolve | reflexivity].
Qed.

Lemma target_lifecycle_witness :
  (calls (PageController.togglePanelVisibility "home" "settings"
            (Sample.started Sample.threePanels ∅)).2 = []
   ∧ DOM.querySelectorAll DOM.isVisiblePanel
       (document (PageController.togglePanelVisibility "home" "settings"
                    (Sample.started Sample.threePanels ∅)).2) = [4])
  ∧
  (calls (PageController.togglePanelVisibility "home" "settings"
            (Sample.started Sample.threePanels
               (Sample.storeWith Sample.wellBehaved))).2
   = [(("Store", Some "Library"), Window.MInit);
      (("Store", Some "Library"), Window.MShow)]
   ∧ Window.resolve ("Store", Some "Library")
       (window (PageController.togglePanelVisibility "home" "settings"
                  (Sample.started Sample.threePanels
                     (Sample.storeWith Sample.wellBehaved))).2)
     = Some (Window.mark_loaded Sample.wellBehaved)
   ∧ Spec.initCount ("Store", Some "Library")
       (calls (PageController.transitions
                 [("settings", "home"); ("home", "settings")]
                 (PageController.togglePanelVisibility "home" "settings"
                    (Sample.started Sample.threePanels
                       (Sample.storeWith Sample.wellBehaved))).2))
     = 1).
Proof.
  split.
  - destruct (target_lifecycle "home" "settings"
                (Sample.started Sample.threePanels ∅)
                0 (DOM.mkElement "home" (Some "panel") ["visible"; "next"]
                     (DOM.mkDataset (Some "0") None None None))
                4 (DOM.mkElement "settings" (Some "panel") ["next"]
                     (DOM.mkDataset (Some "2") None (Some "Store.Library") None))
                "Store.Library")
      as [Hunresolved _];
      [discriminate | reflexivity | reflexivity | reflexivity | reflexivity
      | reflexivity |].
    destruct Hunresolved as (_ & Hvisible & _); [reflexivity|].
    split; [vm_compute; reflexivity | exact Hvisible].
  - destruct (target_lifecycle "home" "settings"
                (Sample.started Sample.threePanels
                   (Sample.storeWith Sample.wellBehaved))
                0 (DOM.mkElement "home" (Some "panel") ["visible"; "next"]
                     (DOM.mkDataset (Some "0") None None None))
                4 (DOM.mkElement "settings" (Some "panel") ["next"]
                     (DOM.mkDataset (Some "2") None (Some "Store.Library") None))
                "Store.Library")
      as [_ Hresolved];
      [discriminate | reflexivity | reflexivity | reflexivity | reflexivity
      | reflexivity |].
    destruct (Hresolved Sample.wellBehaved)
      as (_ & _ & _ & Hloaded & Hnever);
      [vm_compute; reflexivity | reflexivity | reflexivity |].
    split; [vm_compute; reflexivity|].
    split; [exact Hloaded|].
    etransitivity;
      [exact (Hnever [("settings", "home"); ("home", "settings")])|].
    vm_compute. reflexivity.
Defined.

(** A transition whose target declares an object that is not yet marked
    loaded and whose [init()] does not return: the classes are switched,
    [hide()] may have been invoked for the source, and the error of
    [init()] leaves the call with [window] as it was. *)
Lemma toggle_init_fails (a b : string) (w : World) sn sp tn tp code po :
  a ≠ b →
  DOM.getElementById a (document w) = Some (sn, sp) →
  DOM.getElementById b (document w) = Some (tn, tp) →
  DOM.pageObject (DOM.dataset tp) = Some code →
  JS.truthy code = true →
  Window.resolve (PageController.pathRef code) (window w) = Some po →
  Window.isLoaded po = false →
  Window.init po ≠ Some Window.Returns →
  ∃ hides,
    PageController.togglePanelVisibility a b w
    = (Throw (Spec.initError (PageController.pathRef code) po),
       Spec.logged (hides ++ Spec.initAttempt (PageController.pathRef code) po)
         (window w) (Spec.switched a b sn tn sp tp w))
    ∧ Forall (λ c, c.2 = Window.MHide) hides.
Proof.
  intros Hab Ha Hb Hcode Htruthy Hres Hfresh Hinit.
  rewrite (toggle_resolved a b w _ _ _ _ Hab Ha Hb).
  destruct (hideSelected_spec sp (Spec.switched a b sn tn sp tp w))
    as (hides & Hhide & Hhides).
  exists hides. split.
  2:{ eapply Forall_impl; [exact Hhides|]. cbn. tauto. }
  unfold bind. rewrite Hhide.
  set (w0 := Spec.logged hides _ _).
  assert (Hwin : window w0 = window w) by reflexivity.
  pose proof (showTarget_cases tp w0 code Hcode Htruthy) as Hshow.
  cbn zeta in Hshow. rewrite Hwin, Hres, Hfresh in Hshow.
  rewrite Hshow. unfold Spec.initError, Spec.initAttempt, w0.
  destruct (Window.init po) as [[]|]; [congruence | |].
  - now rewrite logged_logged.
  - now rewrite app_nil_r.
Qed.

(** C7 fails on the code when [init()] does not return: the call sits
    outside any [try] block (lines 340-348) and [isLoaded] is only set
    after it (lines 342 and 347).  Let the target's path denote an object
    not yet marked [isLoaded] whose [init()] throws, or is not a
    function.  The transition throws the error of that call; the object
    is still not marked loaded and its [show()] has not been invoked; and
    the next transition to the same target, from whichever existing
    panel, ends in the same way, so that a throwing [init()] has then been
    invoked twice. *)
Theorem failed_init_is_repeated (a a' b : string) (w : World)
  sn sp sn' sp' tn tp code po :
  a ≠ b → a' ≠ b →
  DOM.getElementById a (document w) = Some (sn, sp) →
  DOM.getElementById a' (document w) = Some (sn', sp') →
  DOM.getElementById b (document w) = Some (tn, tp) →
  DOM.pageObject (DOM.dataset tp) = Some code →
  JS.truthy code = true →
  Window.resolve (PageController.pathRef code) (window w) = Some po →
  Window.isLoaded po = false →
  Window.init po ≠ Some Window.Returns →
  (PageController.togglePanelVisibility a b w).1
  = Throw (Spec.initError (PageController.pathRef code) po)
  ∧ (∃ hides,
       calls (PageController.togglePanelVisibility a b w).2
       = calls w ++ hides
         ++ Spec.initAttempt (PageController.pathRef code) po
       ∧ Forall (λ c, c.2 = Window.MHide) hides)
  ∧ Window.resolve (PageController.pathRef code)
      (window (PageController.togglePanelVisibility a b w).2)
    = Some po
  ∧ (PageController.togglePanelVisibility a' b
       (PageController.togglePanelVisibility a b w).2).1
    = Throw (Spec.initError (PageController.pathRef code) po)
  ∧ (∃ hides,
       calls (PageController.togglePanelVisibility a' b
                (PageController.togglePanelVisibility a b w).2).2
       = calls (PageController.togglePanelVisibility a b w).2 ++ hides
         ++ Spec.initAttempt (PageController.pathRef code) po
       ∧ Forall (λ c, c.2 = Window.MHide) hides)
  ∧ (Window.init po = Some Window.Raises →
     Spec.initCount (PageController.pathRef code)
       (calls (PageController.togglePanelVisibility a' b
                 (PageController.togglePanelVisibility a b w).2).2)
     = S (S (Spec.initCount (PageController.pathRef code) (calls w)))).
Proof.
  intros Hab Hab' Ha Ha' Hb Hcode Htruthy Hres Hfresh Hinit.
  set (r := PageController.pathRef code) in *.
  destruct (toggle_init_fails a b w _ _ _ _ code po
              Hab Ha Hb Hcode Htruthy Hres Hfresh Hinit)
    as (hides & Hrun & Hhides).
  fold r in Hrun.
  pose proof (toggle_skeleton a b w) as Hsk.
  set (w1 := (PageController.togglePanelVisibility a b w).2) in *.
  assert (Hw1 : calls w1 = calls w ++ hides ++ Spec.initAttempt r po
                ∧ window w1 = window w).
  { unfold w1. rewrite Hrun. split; reflexivity. }
  destruct Hw1 as [Hcalls1 Hwin1].
  destruct (getElementById_skeleton _ _ _ _ _ Hsk Ha') as (sp1 & Ha1 & _).
  destruct (getElementById_skeleton _ _ _ _ _ Hsk Hb) as (tp1 & Hb1 & Htp1).
  destruct (skeleton_facts _ _ Htp1) as (_ & _ & Hdata1).
  assert (Hcode1 : DOM.pageObject (DOM.dataset tp1) = Some code)
    by (now rewrite Hdata1).
  assert (Hres1 : Window.resolve r (window w1) = Some po)
    by (now rewrite Hwin1).
  destruct (toggle_init_fails a' b w1 _ _ _ _ code po
              Hab' Ha1 Hb1 Hcode1 Htruthy Hres1 Hfresh Hinit)
    as (hides' & Hrun' & Hhides').
  fold r in Hrun'.
  split; [now rewrite Hrun|].
  split; [exists hides; split; [exact Hcalls1 | exact Hhides]|].
  split; [exact Hres1|].
  split; [now rewrite Hrun'|].
  assert (Hcalls2 :
    calls (PageController.togglePanelVisibility a' b w1).2
    = calls w1 ++ hides' ++ Spec.initAttempt r po)
    by (now rewrite Hrun').
  split; [exists hides'; split; [exact Hcalls2 | exact Hhides']|].
  intros Hraises. rewrite Hcalls2, Hcalls1.
  unfold Spec.initAttempt. rewrite Hraises.
  assert (Hnot : ∀ l : list (Window.ObjRef * Window.Method),
            Forall (λ c, c.2 = Window.MHide) l → (r, Window.MInit) ∉ l).
  { intros l Hl Hin. rewrite Forall_forall in Hl.
    apply Hl in Hin. discriminate. }
  rewrite !app_assoc, initCount_snoc.
  rewrite (initCount_app r _ hides') by (now apply Hnot).
  rewrite initCount_snoc.
  rewrite (initCount_app r _ hides) by (now apply Hnot).
  reflexivity.
Qed.

Lemma failed_init_is_repeated_witness :
  (PageController.togglePanelVisibility "home" "settings"
     (Sample.started Sample.threePanels
        (Sample.storeWith Sample.initThrows))).1
  = Throw (Thrown ("Store", Some "Library") Window.MInit)
  ∧ Window.resolve ("Store", Some "Library")
      (window (PageController.togglePanelVisibility "home" "settings"
                 (Sample.started Sample.threePanels
                    (Sample.storeWith Sample.initThrows))).2)
    = Some Sample.initThrows
  ∧ Spec.initCount ("Store", Some "Library")
      (calls (PageController.togglePanelVisibility "about" "settings"
                (PageController.togglePanelVisibility "home" "settings"
                   (Sample.started Sample.threePanels
                      (Sample.storeWith Sample.initThrows))).2).2)
    = 2.
Proof.
  destruct (failed_init_is_repeated "home" "about" "settings"
              (Sample.started Sample.threePanels
                 (Sample.storeWith Sample.initThrows))
              0 (DOM.mkElement "home" (Some "panel") ["visible"; "next"]
                   (DOM.mkDataset (Some "0") None None None))
              2 (DOM.mkElement "about" (Some "panel") ["next"]
                   (DOM.mkDataset (Some "1") None None None))
              4 (DOM.mkElement "settings" (Some "panel") ["next"]
                   (DOM.mkDataset (Some "2") None (Some "Store.Library") None))
              "Store.Library" Sample.initThrows)
    as (Hthrow & _ & Hstill & _ & _ & Hagain);
    [discriminate | discriminate | reflexivity | reflexivity | reflexivity
    | reflexivity | reflexivity | vm_compute; reflexivity | reflexivity
    | discriminate |].
  split; [exact Hthrow|]. split; [exact Hstill|].
  exact (Hagain eq_refl).
Defined.

(** The same on the sample page when the user goes back in between:
    [home] to [settings], back to [home], and to [settings] again invokes
    the throwing [init()] twice and never reaches [show()]. *)
Example failed_init_runs_again_after_going_back :
  Spec.initCount ("Store", Some "Library")
    (calls (PageController.transitions
              [("home", "settings"); ("settings", "home");
               ("home", "settings")]
              (Sample.started Sample.threePanels
                 (Sample.storeWith Sample.initThrows))))
  = 2
  ∧ Window.resolve ("Store", Some "Library")
      (window (PageController.transitions
                 [("home", "settings"); ("settings", "home");
                  ("home", "settings")]
                 (Sample.started Sample.threePanels
                    (Sample.storeWith Sample.initThrows))))
    = Some Sample.initThrows
  ∧ (("Store", Some "Library"), Window.MShow)
    ∉ calls (PageController.transitions
               [("home", "settings"); ("settings", "home");
                ("home", "settings")]
               (Sample.started Sample.threePanels
                  (Sample.storeWith Sample.initThrows))).
Proof.
  split; [vm_compute; reflexivity|]. split; [vm_compute; reflexivity|].
  vm_compute. intros H. repeat (apply elem_of_cons in H as [H|H]; [discriminate|]).
  now apply elem_of_nil in H.
Qed.

(** C8 fails on the code for [init()]: the call sits outside any [try]
    block (lines 340-348), unlike [hide()] and [show()].  On the sample
    page with a [Store.Library] whose [init()] throws, the transition
    from [home] to [settings] switches the classes, invokes [init()], and
    lets its error out: [isLoaded] stays false and [show()] is never
    invoked. *)
Theorem init_error_leaves_the_transition :
  (PageController.togglePanelVisibility "home" "settings"
     (Sample.started Sample.threePanels
        (Sample.storeWith Sample.initThrows))).1
  = Throw (Thrown ("Store", Some "Library") Window.MInit)
  ∧ calls (PageController.togglePanelVisibility "home" "settings"
             (Sample.started Sample.threePanels
                (Sample.storeWith Sample.initThrows))).2
    = [(("Store", Some "Library"), Window.MInit)]
  ∧ Window.resolve ("Store", Some "Library")
      (window (PageController.togglePanelVisibility "home" "settings"
                 (Sample.started Sample.threePanels
                    (Sample.storeWith Sample.initThrows))).2)
    = Some Sample.initThrows
  ∧ DOM.querySelectorAll DOM.isVisiblePanel
      (document (PageController.togglePanelVisibility "home" "settings"
                   (Sample.started Sample.threePanels
                      (Sample.storeWith Sample.initThrows))).2)
    = [4].
Proof. vm_compute. repeat split; reflexivity. Qed.

(** What does hold of C8: an error thrown by [hide()] or by [show()] never
    leaves a transition.  A transition returns normally, or throws a
    TypeError of its own, or lets out the error of an [init()]. *)
Lemma hide_and_show_errors_are_discarded (a b : string) (w : World) :
  (∀ r, (PageController.togglePanelVisibility a b w).1
        ≠ Throw (Thrown r Window.MHide))
  ∧ (∀ r, (PageController.togglePanelVisibility a b w).1
          ≠ Throw (Thrown r Window.MShow)).
Proof.
  destruct (toggle_summary a b w) as (l & _ & _ & _ & Hres).
  split; intros r Heq; rewrite Heq in Hres;
    destruct Hres as [Hres|[Hres|[r' Hres]]]; discriminate.
Qed.

(** On the sample page with a [Store.Library] whose [show()] throws, the
    transition returns normally: [init()] and [show()] have both been
    invoked and [isLoaded] is true. *)
Example show_error_is_discarded :
  (PageController.togglePanelVisibility "home" "settings"
     (Sample.started Sample.threePanels
        (Sample.storeWith Sample.showThrows))).1 = Normal tt
  ∧ calls (PageController.togglePanelVisibility "home" "settings"
             (Sample.started Sample.threePanels
                (Sample.storeWith Sample.showThrows))).2
    = [(("Store", Some "Library"), Window.MInit);
       (("Store", Some "Library"), Window.MShow)]
  ∧ Window.resolve ("Store", Some "Library")
      (window (PageController.togglePanelVisibility "home" "settings"
                 (Sample.started Sample.threePanels
                    (Sample.storeWith Sample.showThrows))).2)
    = Some (Window.mark_loaded Sample.showThrows).
Proof. vm_compute. repeat split; reflexivity. Qed.

(* ===================================================================== *)
(** * Direction classes                                                  *)
(* ===================================================================== *)

(** The example of C5 holds: from [home] (index 0) to [settings] (index 2)
    both panels get [previous] and lose [next], [settings] becomes the
    visible panel and the location carries [panel=settings]. *)
Lemma home_to_settings :
  Sample.indexAt 0 (Sample.started Sample.threePanels ∅) = Some (Some "0")
  ∧ Sample.indexAt 4 (Sample.started Sample.threePanels ∅) = Some (Some "2")
  ∧ Sample.classesAt 0 (Sample.started Sample.threePanels ∅)
    = Some ["visible"; "next"]
  ∧ Sample.classesAt 4 (Sample.started Sample.threePanels ∅) = Some ["next"]
  ∧ Sample.classesAt 0 Sample.settingsOpen = Some ["previous"]
  ∧ Sample.classesAt 4 Sample.settingsOpen = Some ["visible"; "previous"]
  ∧ URL.get_param "panel" (location Sample.settingsOpen) = Some "settings".
Proof. vm_compute. repeat split; reflexivity. Qed.

(** C5 fails on the code once a page has more than ten panels: the
    indices are kept in [dataset] as strings and compared as strings.  On
    the eleven-panel page, going back from [p10] (index 10) to [p2]
    (index 2) is styled as going forward, both panels getting [previous]
    and losing [next], because ["10" <= "2"] holds of strings; going back
    from [p9] to [p2] gets [next] on both, as the index order asks. *)
Theorem indices_are_compared_as_strings :
  Sample.indexAt 10 (Sample.openedAt "p10") = Some (Some "10")
  ∧ Sample.indexAt 2 (Sample.openedAt "p10") = Some (Some "2")
  ∧ JS.le (Some "10") (Some "2") = true
  ∧ JS.ge (Some "10") (Some "2") = false
  ∧ Sample.classesAt 10
      (PageController.togglePanelVisibility "p10" "p2"
         (Sample.openedAt "p10")).2 = Some ["previous"]
  ∧ Sample.classesAt 2
      (PageController.togglePanelVisibility "p10" "p2"
         (Sample.openedAt "p10")).2 = Some ["visible"; "previous"]
  ∧ Sample.classesAt 9
      (PageController.togglePanelVisibility "p9" "p2"
         (Sample.openedAt "p9")).2 = Some ["next"]
  ∧ Sample.classesAt 2
      (PageController.togglePanelVisibility "p9" "p2"
         (Sample.openedAt "p9")).2 = Some ["next"; "visible"].
Proof. vm_compute. repeat split; reflexivity. Qed.



(* ===================================================================== *)
(** * Escape and the key guard                                           *)
(* ===================================================================== *)

Lemma keydown_guarded (key : string) (w : World) :
  isKeyDown w = true →
  PageController.handleKeyDown key w = (Normal tt, w).
Proof.
  intros H. unfold PageController.handleKeyDown. run. now rewrite H.
Qed.

Lemma keydowns_guarded (keys : list string) (w : World) :
  isKeyDown w = true → PageController.keydowns keys w = w.
Proof.
  intros H. unfold PageController.keydowns.
  induction keys as [|key keys IH]; [reflexivity|].
  cbn [foldl]. now rewrite (keydown_guarded key w H).
Qed.

Lemma handleKeyDown_escape (w : World) :
  isKeyDown w = false →
  PageController.handleKeyDown "Escape" w
  = if JS.truthy (previousPanelId w) && JS.truthy (currentPanelId w)
    then bind (PageController.togglePanelVisibility (currentPanelId w)
                 (previousPanelId w))
           (λ _, modify (with_isKeyDown true)) (Spec.deselected w)
    else (Normal tt, Spec.deselected w).
Proof.
  intros Hup. unfold PageController.handleKeyDown, Spec.deselected.
  unfold bind at 1. unfold gets at 1. rewrite Hup.
  cbn [String.eqb Ascii.eqb Bool.eqb].
  unfold bind at 1. unfold gets at 1.
  destruct (DOM.querySelector DOM.isSelected (document w)) as [[n x]|];
    unfold bind, gets, modify, ret;
    cbn [with_document previousPanelId currentPanelId];
    destruct (JS.truthy (previousPanelId w) && JS.truthy (currentPanelId w));
    reflexivity.
Qed.

Lemma deselected_fields (w : World) :
  previousPanelId (Spec.deselected w) = previousPanelId w
  ∧ currentPanelId (Spec.deselected w) = currentPanelId w
  ∧ isKeyDown (Spec.deselected w) = isKeyDown w
  ∧ Spec.skeleton <$> document (Spec.deselected w)
    = Spec.skeleton <$> document w.
Proof.
  unfold Spec.deselected.
  destruct (DOM.querySelector DOM.isSelected (document w)) as [[n x]|];
    [|auto].
  repeat split. cbn [with_document document]. unfold DOM.update.
  now apply alter_observed.
Qed.

Lemma deselected_history (w : World) :
  location (Spec.deselected w) = location w
  ∧ history (Spec.deselected w) = history w.
Proof.
  unfold Spec.deselected.
  now destruct (DOM.querySelector DOM.isSelected (document w)) as [[n x]|].
Qed.

(** Whatever a transition between different ids does, it leaves a
    non-empty previous panel id. *)
Lemma toggle_previous_truthy (a b : string) (w : World) :
  a ≠ b →
  JS.truthy (previousPanelId (PageController.togglePanelVisibility a b w).2)
  = true.
Proof.
  intros Hab.
  assert (Hor : JS.truthy (JS.or_else a "root") = true).
  { unfold JS.or_else. now destruct (JS.truthy a) eqn:E. }
  destruct (DOM.getElementById a (document w)) as [[sn sp]|] eqn:Ha.
  2:{ now rewrite (toggle_source_missing a b w Hab Ha). }
  destruct (DOM.getElementById b (document w)) as [[tn tp]|] eqn:Hb.
  2:{ now rewrite (toggle_target_missing a b w _ _ Hab Ha Hb). }
  rewrite (proj1 (toggle_pointer a b w _ _ _ _ Hab Ha Hb)).
  unfold Spec.backTarget.
  destruct (DOM.previousPageId (DOM.dataset tp)) as [p|]; [|exact Hor].
  now destruct (JS.truthy p) eqn:E.
Qed.

(** C9, as the specification states it, fails: the guard is set only
    after the transition the first Escape requests has returned.  On the
    page whose visible panel has no id the previous panel id is the
    default ["root"], which names no element: the first Escape throws a
    TypeError from [targetPanel.dataset] (line 301) with the navigation
    pointer swapped and a history entry pushed, and leaves [isKeyDown]
    false; a second Escape before any key-up is then not a no-op, it
    swaps the pointer back and pushes one more history entry. *)
Lemma held_escape_after_a_failed_transition :
  previousPanelId Sample.backToRoot = "root"
  ∧ currentPanelId Sample.backToRoot = "settings"
  ∧ isKeyDown Sample.backToRoot = false
  ∧ DOM.getElementById "root" (document Sample.backToRoot) = None
  ∧ (PageController.handleKeyDown "Escape" Sample.backToRoot).1
    = Throw TypeError
  ∧ isKeyDown (PageController.handleKeyDown "Escape" Sample.backToRoot).2
    = false
  ∧ previousPanelId
      (PageController.handleKeyDown "Escape" Sample.backToRoot).2
    = "settings"
  ∧ currentPanelId
      (PageController.handleKeyDown "Escape" Sample.backToRoot).2
    = "root"
  ∧ length (history
              (PageController.handleKeyDown "Escape" Sample.backToRoot).2)
    = 2
  ∧ (PageController.handleKeyDown "Escape"
       (PageController.handleKeyDown "Escape" Sample.backToRoot).2).1
    = Normal tt
  ∧ previousPanelId
      (PageController.handleKeyDown "Escape"
         (PageController.handleKeyDown "Escape" Sample.backToRoot).2).2
    = "root"
  ∧ currentPanelId
      (PageController.handleKeyDown "Escape"
         (PageController.handleKeyDown "Escape" Sample.backToRoot).2).2
    = "settings"
  ∧ length (history
              (PageController.handleKeyDown "Escape"
                 (PageController.handleKeyDown "Escape"
                    Sample.backToRoot).2).2)
    = 3.
Proof. vm_compute. repeat split; reflexivity. Qed.

(** C9, amended.  Let Escape be pressed while the guard is clear and both
    ids of the navigation pointer are known; the listener clears
    [selected] and requests the transition from [currentPanelId] to
    [previousPanelId].  (1) When that transition returns normally the
    listener sets [isKeyDown]; from then on every [keydown], Escape or
    not, is a no-op for as long as no [keyup] comes, and [keyup] clears
    the guard.  (2) When that transition throws, which it does with a
    TypeError or with the error of an [init()], the listener throws the
    same error and [isKeyDown] stays false, the current panel id and the
    session history already changed; a second Escape before any key-up
    then requests a transition again, and pushes one more history entry
    whenever the two ids of the pointer differ. *)
Theorem escape_guard (w : World) :
  isKeyDown w = false →
  JS.truthy (previousPanelId w) = true →
  JS.truthy (currentPanelId w) = true →
  ((PageController.togglePanelVisibility (currentPanelId w)
      (previousPanelId w) (Spec.deselected w)).1 = Normal tt →
   PageController.handleKeyDown "Escape" w
   = (Normal tt,
      with_isKeyDown true
        (PageController.togglePanelVisibility (currentPanelId w)
           (previousPanelId w) (Spec.deselected w)).2)
   ∧ isKeyDown (PageController.handleKeyDown "Escape" w).2 = true
   ∧ (∀ key,
        PageController.handleKeyDown key
          (PageController.handleKeyDown "Escape" w).2
        = (Normal tt, (PageController.handleKeyDown "Escape" w).2))
   ∧ (∀ keys,
        PageController.keydowns keys
          (PageController.handleKeyDown "Escape" w).2
        = (PageController.handleKeyDown "Escape" w).2)
   ∧ isKeyDown
       (PageController.handleKeyUp
          (PageController.handleKeyDown "Escape" w).2).2 = false)
  ∧
  (∀ e,
     (PageController.togglePanelVisibility (currentPanelId w)
        (previousPanelId w) (Spec.deselected w)).1 = Throw e →
     PageController.handleKeyDown "Escape" w
     = (Throw e,
        (PageController.togglePanelVisibility (currentPanelId w)
           (previousPanelId w) (Spec.deselected w)).2)
     ∧ (e = TypeError ∨ ∃ r, e = Thrown r Window.MInit)
     ∧ isKeyDown (PageController.handleKeyDown "Escape" w).2 = false
     ∧ currentPanelId (PageController.handleKeyDown "Escape" w).2
       = previousPanelId w
     ∧ history (PageController.handleKeyDown "Escape" w).2
       = location w :: history w
     ∧ (previousPanelId (PageController.handleKeyDown "Escape" w).2
        ≠ previousPanelId w →
        history
          (PageController.handleKeyDown "Escape"
             (PageController.handleKeyDown "Escape" w).2).2
        = location (PageController.handleKeyDown "Escape" w).2
          :: location w :: history w)).
Proof.
  intros Hup Hprev Hcur.
  pose proof (handleKeyDown_escape w Hup) as Hrun.
  rewrite Hprev, Hcur in Hrun. cbn [andb] in Hrun. unfold bind in Hrun.
  destruct (deselected_fields w) as (Hdp & Hdc & Hdk & _).
  destruct (deselected_history w) as [Hdl Hdh].
  split.
  - intros Hnormal.
    destruct (PageController.togglePanelVisibility (currentPanelId w)
                (previousPanelId w) (Spec.deselected w)) as [[[]|err] w'];
      [|discriminate].
    rewrite Hrun. cbn [fst snd].
    split; [reflexivity|]. split; [reflexivity|].
    split; [intros key; now apply keydown_guarded|].
    split; [intros keys; now apply keydowns_guarded | reflexivity].
  - intros e Hthrow.
    assert (Hne : currentPanelId w ≠ previousPanelId w).
    { intros Heq. rewrite Heq, toggle_same in Hthrow. discriminate. }
    destruct (toggle_summary (currentPanelId w) (previousPanelId w)
                (Spec.deselected w)) as (_ & _ & _ & _ & Hkind).
    pose proof (toggle_previous_truthy _ _ (Spec.deselected w) Hne) as Htruthy.
    destruct (toggle_shape (currentPanelId w) (previousPanelId w)
                (Spec.deselected w) Hne)
      as (res & prev & doc' & win' & l & Hshape).
    rewrite Hshape in Hrun, Hthrow, Hkind, Htruthy.
    cbn [fst snd previousPanelId] in Hthrow, Hkind, Htruthy. subst res.
    rewrite Hshape, Hrun. cbn [fst snd].
    rewrite Hdk, Hdl, Hdh.
    split; [reflexivity|].
    split.
    { destruct Hkind as [Hk|[Hk|[r Hk]]]; [discriminate | left | right; exists r];
        congruence. }
    split; [exact Hup|]. split; [reflexivity|]. split; [reflexivity|].
    cbn [previousPanelId location]. intros Hdiff.
    set (w1 := mkWorld prev (previousPanelId w) false doc'
                 (URL.set_param "panel" (previousPanelId w) (location w))
                 (location w :: history w) win' (calls (Spec.deselected w) ++ l)).
    rewrite Hup.
    fold w1.
    rewrite (handleKeyDown_escape w1 eq_refl).
    change (previousPanelId w1) with prev.
    change (currentPanelId w1) with (previousPanelId w).
    rewrite Htruthy, Hprev. cbn [andb]. unfold bind.
    destruct (deselected_history w1) as [Hl1 Hh1].
    destruct (toggle_shape (previousPanelId w) prev (Spec.deselected w1))
      as (res2 & prev2 & doc2 & win2 & l2 & Hshape2); [congruence|].
    rewrite Hshape2, Hl1, Hh1.
    destruct res2 as [[]|err]; reflexivity.
Qed.


Lemma escape_guard_witness :
  (currentPanelId Sample.settingsOpen = "settings"
   ∧ previousPanelId Sample.settingsOpen = "home"
   ∧ DOM.querySelectorAll DOM.isVisiblePanel
       (document Sample.settingsOpen) = [4]
   ∧ DOM.querySelectorAll DOM.isVisiblePanel
       (document (PageController.handleKeyDown "Escape" Sample.settingsOpen).2)
     = [0]
   ∧ isKeyDown (PageController.handleKeyDown "Escape" Sample.settingsOpen).2
     = true
   ∧ PageController.handleKeyDown "Escape"
       (PageController.handleKeyDown "Escape" Sample.settingsOpen).2
     = (Normal tt,
        (PageController.handleKeyDown "Escape" Sample.settingsOpen).2)
   ∧ isKeyDown
       (PageController.handleKeyUp
          (PageController.handleKeyDown "Escape" Sample.settingsOpen).2).2
     = false)
  ∧
  (currentPanelId Sample.backToRoot = "settings"
   ∧ previousPanelId Sample.backToRoot = "root"
   ∧ (PageController.handleKeyDown "Escape" Sample.backToRoot).1
     = Throw TypeError
   ∧ isKeyDown (PageController.handleKeyDown "Escape" Sample.backToRoot).2
     = false
   ∧ history
       (PageController.handleKeyDown "Escape"
          (PageController.handleKeyDown "Escape" Sample.backToRoot).2).2
     = location (PageController.handleKeyDown "Escape" Sample.backToRoot).2
       :: location Sample.backToRoot :: history Sample.backToRoot).
Proof.
  split.
  - destruct (escape_guard Sample.settingsOpen)
      as [Hreturns _]; [reflexivity | reflexivity | reflexivity |].
    destruct Hreturns as (_ & Hdown & Hnoop & _ & Hup);
      [vm_compute; reflexivity|].
    split; [reflexivity|]. split; [reflexivity|].
    split; [vm_compute; reflexivity|]. split; [vm_compute; reflexivity|].
    split; [exact Hdown|]. split; [exact (Hnoop "Escape") | exact Hup].
  - destruct (escape_guard Sample.backToRoot)
      as [_ Hthrows]; [reflexivity | reflexivity | reflexivity |].
    destruct (Hthrows TypeError) as (Hrun & _ & Hclear & _ & _ & Hagain);
      [vm_compute; reflexivity|].
    split; [reflexivity|]. split; [reflexivity|].
    split; [now rewrite Hrun|]. split; [exact Hclear|].
    apply Hagain. vm_compute. discriminate.
Defined.

(* ===================================================================== *)
(** * Scroll progress and easing                                         *)
(* ===================================================================== *)

Lemma capAtOne_min (p : Q) : (PageController.capAtOne p == Qmin p 1)%Q.
Proof.
  unfold PageController.capAtOne.
  destruct (Qle_bool 1 p) eqn:E.
  - apply Qle_bool_iff in E. symmetry. now apply Q.min_r.
  - assert (H : ~ (1 <= p)%Q) by (rewrite <- Qle_bool_iff; congruence).
    symmetry. apply Q.min_l. lra.
Qed.

Lemma capAtOne_le_1 (p : Q) : (PageController.capAtOne p <= 1)%Q.
Proof. rewrite capAtOne_min. apply Q.le_min_r. Qed.

Lemma capAtOne_clamp (p : Q) :
  (0 <= p)%Q →
  (PageController.capAtOne p == Spec.clamp p 0 1)%Q
  ∧ (0 <= PageController.capAtOne p <= 1)%Q.
Proof.
  intros Hp. unfold Spec.clamp.
  assert (Hmin : (0 <= Qmin p 1)%Q) by (apply Q.min_glb; lra).
  split.
  - rewrite capAtOne_min. symmetry. now apply Q.max_r.
  - split; [now rewrite capAtOne_min | apply capAtOne_le_1].
Qed.

(** What the three listeners publish. *)
Lemma scrollListener_publishes (x : Q) (style : gmap string Q) :
  PageController.scrollListener x style !! "--panel-progress"
  = Some (PageController.capAtOne (x / 80)).
Proof.
  unfold PageController.scrollListener, PageController.setProgress.
  rewrite lookup_insert_ne by discriminate. apply lookup_insert_eq.
Qed.

Lemma scrollbarListener_publishes (x : Q) (style : gmap string Q) :
  PageController.scrollbarListener x style !! "--panel-progress"
  = Some (PageController.capAtOne (x / 40)).
Proof.
  unfold PageController.scrollbarListener, PageController.setProgress,
    PageController.setOverscrollProgress.
  rewrite !lookup_insert_ne by discriminate. apply lookup_insert_eq.
Qed.

Lemma onScroll_publishes (y : Q) (style : gmap string Q) :
  (y < 0)%Q →
  PageController.onScroll y style !! "--panel-progress-overscroll"
  = Some (PageController.capAtOne (y * -1 / 300)).
Proof.
  intros Hy. unfold PageController.onScroll.
  destruct (Qle_bool 0 y) eqn:E.
  - apply Qle_bool_iff in E. lra.
  - apply lookup_insert_eq.
Qed.

(** C4, as the specification states it, fails: the listeners cap the
    progress at 1 and have no lower bound.  At a scroll offset of -80 the
    native listener publishes -80/80, which is negative, where the clamp
    gives 0; at -40 the smooth-scroll listener does the same. *)
Lemma negative_offset_gives_negative_progress :
  PageController.scrollListener (-80) ∅ !! "--panel-progress"
  = Some (-80 # 80)%Q
  ∧ PageController.scrollbarListener (-40) ∅ !! "--panel-progress"
    = Some (-40 # 40)%Q
  ∧ (-80 # 80 < 0)%Q
  ∧ (-40 # 40 < 0)%Q
  ∧ (Spec.clamp (-80 / 80) 0 1 == 0)%Q
  ∧ (Spec.clamp (-40 / 40) 0 1 == 0)%Q.
Proof. vm_compute. repeat split; reflexivity. Qed.

(** C4, amended.  The raw progress published for a scroll offset [x] is
    [min(x / THRESHOLD, 1)], with threshold 80 for native scrolling and
    40 for the smooth-scroll offset; it never exceeds 1, and for a
    non-negative offset it equals [clamp(x / THRESHOLD, 0, 1)] and lies in
    [0,1].  The overscroll progress, published only for a negative
    [params.y], is [clamp(-y / 300, 0, 1)] and lies in [0,1], also for
    magnitudes beyond 300. *)
Theorem progress_is_capped_at_one (x : Q) (style : gmap string Q) :
  (∃ p, PageController.scrollListener x style !! "--panel-progress" = Some p
        ∧ (p == Qmin (x / 80) 1)%Q ∧ (p <= 1)%Q
        ∧ ((0 <= x)%Q → (p == Spec.clamp (x / 80) 0 1)%Q ∧ (0 <= p <= 1)%Q))
  ∧ (∃ p, PageController.scrollbarListener x style !! "--panel-progress"
          = Some p
          ∧ (p == Qmin (x / 40) 1)%Q ∧ (p <= 1)%Q
          ∧ ((0 <= x)%Q →
             (p == Spec.clamp (x / 40) 0 1)%Q ∧ (0 <= p <= 1)%Q))
  ∧ ((x < 0)%Q →
     ∃ p, PageController.onScroll x style !! "--panel-progress-overscroll"
          = Some p
          ∧ (p == Spec.clamp (- x / 300) 0 1)%Q ∧ (0 <= p <= 1)%Q)
  ∧ ((0 <= x)%Q → PageController.onScroll x style = style).
Proof.
  split; [|split; [|split]].
  - exists (PageController.capAtOne (x / 80)).
    split; [apply scrollListener_publishes|].
    split; [apply capAtOne_min|]. split; [apply capAtOne_le_1|].
    intros Hx. apply capAtOne_clamp.
    apply Qle_shift_div_l; lra.
  - exists (PageController.capAtOne (x / 40)).
    split; [apply scrollbarListener_publishes|].
    split; [apply capAtOne_min|]. split; [apply capAtOne_le_1|].
    intros Hx. apply capAtOne_clamp.
    apply Qle_shift_div_l; lra.
  - intros Hx. exists (PageController.capAtOne (x * -1 / 300)).
    split; [now apply onScroll_publishes|].
    assert (Hpos : (0 <= x * -1 / 300)%Q) by (apply Qle_shift_div_l; lra).
    destruct (capAtOne_clamp _ Hpos) as [Heq Hrange].
    split; [|exact Hrange].
    rewrite Heq. unfold Spec.clamp.
    assert (Hsame : (x * -1 / 300 == - x / 300)%Q) by (field).
    now rewrite Hsame.
  - intros Hx. unfold PageController.onScroll.
    apply Qle_bool_iff in Hx. now rewrite Hx.
Qed.

Lemma progress_is_capped_at_one_witness :
  (∃ p, PageController.scrollListener 20 ∅ !! "--panel-progress" = Some p
        ∧ (p == 1 # 4)%Q)
  ∧ (∃ p, PageController.scrollbarListener 500 ∅ !! "--panel-progress"
          = Some p ∧ (p == 1)%Q)
  ∧ (∃ p, PageController.onScroll (-450) ∅ !! "--panel-progress-overscroll"
          = Some p ∧ (0 <= p <= 1)%Q).
Proof.
  destruct (progress_is_capped_at_one 20 ∅)
    as ((p & Hp & _ & _ & Hclamp) & _).
  destruct (progress_is_capped_at_one 500 ∅)
    as (_ & (q & Hq & _ & _ & Hqclamp) & _).
  destruct (progress_is_capped_at_one (-450) ∅)
    as (_ & _ & Hover & _).
  split; [|split].
  - exists p. split; [exact Hp|].
    destruct Hclamp as [Heq _]; [lra|]. rewrite Heq. reflexivity.
  - exists q. split; [exact Hq|].
    destruct Hqclamp as [Heq _]; [lra|]. rewrite Heq. reflexivity.
  - destruct Hover as (o & Ho & _ & Hrange); [lra|].
    exists o. split; assumption.
Defined.

(** C6.  [cubicBezier] is the general four-point Bezier polynomial in its
    parameters; at 0 it is the first control value and at 1 the last; and
    with the control values (0, 0, 0, 1) that [setProgress] passes it is
    monotonic on [0,1]. *)
Theorem cubicBezier_is_the_general_polynomial :
  (∀ t p0 p1 p2 p3,
     (PageController.cubicBezier t p0 p1 p2 p3
      == Spec.bezier t p0 p1 p2 p3)%Q)
  ∧ (∀ p0 p1 p2 p3, (PageController.cubicBezier 0 p0 p1 p2 p3 == p0)%Q)
  ∧ (∀ p0 p1 p2 p3, (PageController.cubicBezier 1 p0 p1 p2 p3 == p3)%Q)
  ∧ (∀ s t, (0 <= s)%Q → (s <= t)%Q → (t <= 1)%Q →
            (PageController.cubicBezier s 0 0 0 1
             <= PageController.cubicBezier t 0 0 0 1)%Q)
  ∧ (∀ p style,
       PageController.setProgress p style !! "--panel-progress-expo"
       = Some (PageController.cubicBezier p 0 0 0 1)).
Proof.
  split; [|split; [|split; [|split]]].
  - intros. unfold PageController.cubicBezier, Spec.bezier. cbv zeta. ring.
  - intros. unfold PageController.cubicBezier. cbv zeta. ring.
  - intros. unfold PageController.cubicBezier. cbv zeta. ring.
  - intros s t H0 Hst H1. unfold PageController.cubicBezier. cbv zeta.
    assert (Hs : (s * s <= t * t)%Q) by nra.
    nra.
  - intros. unfold PageController.setProgress. apply lookup_insert_eq.
Qed.

Lemma cubicBezier_is_the_general_polynomial_witness :
  (PageController.cubicBezier (1 # 4) 0 0 0 1
   <= PageController.cubicBezier (1 # 2) 0 0 0 1)%Q
  ∧ (PageController.cubicBezier (1 # 2) 0 0 0 1 == 1 # 8)%Q
  ∧ (PageController.cubicBezier (1 # 2) 1 2 3 4 == 5 # 2)%Q.
Proof.
  destruct cubicBezier_is_the_general_polynomial
    as (Hgeneral & _ & _ & Hmono & _).
  split; [apply Hmono; lra|].
  split; [rewrite Hgeneral; reflexivity | rewrite Hgeneral; reflexivity].
Defined.

(* ===================================================================== *)
(** * Further properties of the controller                               *)
(* ===================================================================== *)

(** ** Indexing the panels *)

Lemma panelRank_cons_S (e : DOM.Element) (n : nat) (doc : DOM.Document) :
  Spec.panelRank (S n) (e :: doc)
  = (if DOM.isPanel e then 1 else 0) + Spec.panelRank n doc.
Proof.
  unfold Spec.panelRank. cbn [take]. rewrite filter_cons.
  destruct (DOM.isPanel e); [rewrite decide_True by reflexivity
                            | rewrite decide_False by discriminate];
    reflexivity.
Qed.

Lemma matching_from_length (sel : DOM.Element → bool) (doc : DOM.Document) :
  ∀ k k', length (DOM.matching_from sel k doc)
          = length (DOM.matching_from sel k' doc).
Proof.
  induction doc as [|e doc IH]; intros k k'; [reflexivity|].
  cbn [DOM.matching_from]. rewrite !length_app, (IH (S k) (S k')).
  now destruct (sel e).
Qed.

Lemma forEachIndexed_panels_from (f : nat → DOM.Element → DOM.Element)
  (rest : DOM.Document) :
  ∀ (pre : DOM.Document) (c : nat),
    foldl (λ d kn, DOM.update kn.2 (f kn.1) d) (pre ++ rest)
      (zip (seq c (length (DOM.matching_from DOM.isPanel (length pre) rest)))
         (DOM.matching_from DOM.isPanel (length pre) rest))
    = pre ++ imap (λ n e, if DOM.isPanel e
                          then f (c + Spec.panelRank n rest) e else e) rest.
Proof.
  induction rest as [|e rest IH]; intros pre c; [reflexivity|].
  cbn [DOM.matching_from]. rewrite imap_cons.
  assert (Hstep : ∀ x c',
            foldl (λ d kn, DOM.update kn.2 (f kn.1) d) (pre ++ x :: rest)
              (zip (seq c' (length
                      (DOM.matching_from DOM.isPanel (S (length pre)) rest)))
                 (DOM.matching_from DOM.isPanel (S (length pre)) rest))
            = pre ++ x :: imap (λ n e0, if DOM.isPanel e0
                                        then f (c' + Spec.panelRank n rest) e0
                                        else e0) rest).
  { intros x c'. specialize (IH (pre ++ [x]) c').
    rewrite length_app, Nat.add_1_r, <- !app_assoc in IH. exact IH. }
  destruct (DOM.isPanel e) eqn:He.
  - cbn [app length seq zip zip_with foldl snd fst].
    assert (Hhere : DOM.update (length pre) (f c) (pre ++ e :: rest)
                    = pre ++ f c e :: rest).
    { unfold DOM.update. rewrite <- (Nat.add_0_r (length pre)).
      exact (alter_app_r (f c) pre (e :: rest) 0). }
    rewrite Hhere, (Hstep (f c e) (S c)).
    change (Spec.panelRank 0 (e :: rest)) with 0.
    rewrite Nat.add_0_r. do 2 f_equal.
    apply imap_ext. intros n x _. unfold compose.
    rewrite panelRank_cons_S, He.
    destruct (DOM.isPanel x); [f_equal; lia | reflexivity].
  - cbn [app]. rewrite (Hstep e c). do 2 f_equal.
    apply imap_ext. intros n x _. unfold compose.
    rewrite panelRank_cons_S, He. reflexivity.
Qed.

(** The document [init] leaves behind its indexing loop. *)
Lemma init_panels_run (w : World) :
  PageController.init_panels w
  = (Normal tt,
     with_document
       (λ doc,
          imap (λ n e,
                  if DOM.isPanel e
                  then DOM.add "next"
                         (DOM.set_index
                            (Some (JS.toString (Spec.panelRank n doc))) e)
                  else e) doc)
       w).
Proof.
  unfold PageController.init_panels. run. f_equal.
  unfold with_document. f_equal.
  unfold DOM.forEachIndexed, DOM.querySelectorAll.
  apply (forEachIndexed_panels_from
           (λ index panel,
              DOM.add "next" (DOM.set_index (Some (JS.toString index)) panel))
           (document w) [] 0).
Qed.

(** X1.  The indexing loop of [init] gives every panel, as
    [dataset.index], the decimal rendering of the number of panels before
    it in the document, and the class [next]; an element that is not a
    panel is left as it is, and the loop never throws. *)
Theorem init_indexes_panels (w : World) (n : DOM.Node) :
  (PageController.init_panels w).1 = Normal tt
  ∧ document (PageController.init_panels w).2 !! n
    = (λ e, if DOM.isPanel e
            then DOM.add "next"
                   (DOM.set_index
                      (Some (JS.toString (Spec.panelRank n (document w)))) e)
            else e) <$> document w !! n.
Proof.
  rewrite init_panels_run. split; [reflexivity|].
  cbn [snd with_document document]. apply list_lookup_imap.
Qed.

(** ** The query of the location *)

Lemma params_get_set (name value : string) (ps : list (string * string)) :
  URL.params_get name (URL.params_set name value ps) = Some value.
Proof.
  induction ps as [|[k v] ps IH]; cbn.
  - now rewrite String.eqb_refl.
  - destruct (String.eqb k name) eqn:E; cbn.
    + now rewrite String.eqb_refl.
    + now rewrite E.
Qed.

Lemma params_set_named (name value : string) (ps : list (string * string)) :
  filter (λ p, p.1 = name) (URL.params_set name value ps) = [(name, value)].
Proof.
  induction ps as [|[k v] ps IH]; cbn [URL.params_set].
  - rewrite filter_cons, decide_True by reflexivity. reflexivity.
  - destruct (String.eqb k name) eqn:E.
    + rewrite filter_cons, decide_True by reflexivity. f_equal.
      apply elem_of_nil_inv. intros x Hx.
      apply list_elem_of_filter in Hx as [Hx1 Hx2].
      apply list_elem_of_filter in Hx2 as [Hx2 _]. contradiction.
    + apply String.eqb_neq in E.
      rewrite filter_cons, decide_False by exact E. exact IH.
Qed.

Lemma filter_twice {A} (P : A → Prop) `{∀ x, Decision (P x)} (l : list A) :
  filter P (filter P l) = filter P l.
Proof.
  induction l as [|x l IH]; [reflexivity|].
  rewrite filter_cons. destruct (decide (P x)) as [Hx|Hx]; [|exact IH].
  rewrite filter_cons, decide_True by exact Hx. now f_equal.
Qed.

Lemma params_set_others (name value : string) (ps : list (string * string)) :
  filter (λ p, p.1 ≠ name) (URL.params_set name value ps)
  = filter (λ p, p.1 ≠ name) ps.
Proof.
  induction ps as [|[k v] ps IH]; cbn [URL.params_set].
  - rewrite filter_cons, decide_False by (cbn; tauto). reflexivity.
  - destruct (String.eqb k name) eqn:E.
    + apply String.eqb_eq in E. subst k.
      rewrite !filter_cons, !decide_False by (cbn; tauto).
      apply filter_twice.
    + apply String.eqb_neq in E.
      rewrite !filter_cons, !decide_True by exact E. now rewrite IH.
Qed.

(** X2.  Every transition between two different ids leaves the location
    with exactly one [panel] parameter, whose value is the target id, at
    the place of the first one it had (or at the end); the other
    parameters and the rest of the URL are kept, and the former location
    becomes the newest earlier history entry.  This holds whether or not
    the ids name elements. *)
Theorem transition_sets_panel_parameter (a b : string) (w : World) :
  a ≠ b →
  URL.get_param "panel"
    (location (PageController.togglePanelVisibility a b w).2) = Some b
  ∧ Spec.panelParams
      (URL.searchParams
         (location (PageController.togglePanelVisibility a b w).2))
    = [("panel", b)]
  ∧ Spec.otherParams
      (URL.searchParams
         (location (PageController.togglePanelVisibility a b w).2))
    = Spec.otherParams (URL.searchParams (location w))
  ∧ URL.base (location (PageController.togglePanelVisibility a b w).2)
    = URL.base (location w)
  ∧ history (PageController.togglePanelVisibility a b w).2
    = location w :: history w.
Proof.
  intros Hab.
  destruct (toggle_shape a b w Hab) as (res & prev & doc' & win' & l & ->).
  cbn [snd location history URL.set_param URL.get_param URL.searchParams
       URL.base].
  split; [apply params_get_set|].
  split; [apply params_set_named|].
  split; [apply params_set_others | split; reflexivity].
Qed.

Lemma transition_sets_panel_parameter_witness :
  URL.searchParams
    (location
       (PageController.togglePanelVisibility "home" "settings"
          (Sample.pageAt
             [("lang", "en"); ("panel", "about"); ("x", "1");
              ("panel", "home")]
             Sample.threePanels)).2)
  = [("lang", "en"); ("panel", "settings"); ("x", "1")]
  ∧ Spec.panelParams
      (URL.searchParams
         (location
            (PageController.togglePanelVisibility "home" "settings"
               (Sample.pageAt
                  [("lang", "en"); ("panel", "about"); ("x", "1");
                   ("panel", "home")]
                  Sample.threePanels)).2))
    = [("panel", "settings")].
Proof.
  split; [vm_compute; reflexivity|].
  apply (transition_sets_panel_parameter "home" "settings"). discriminate.
Defined.

(** X3.  After a transition between two existing elements the current
    panel id is the target id, and the id Escape will go back to is the
    target's own [data-previous-page-id] when it declares a non-empty
    one, and otherwise the source id; lifecycle methods, throwing or not,
    do not change this. *)
Theorem back_target_after_transition (a b : string) (w : World) sn sp tn tp :
  a ≠ b →
  DOM.getElementById a (document w) = Some (sn, sp) →
  DOM.getElementById b (document w) = Some (tn, tp) →
  currentPanelId (PageController.togglePanelVisibility a b w).2 = b
  ∧ (∀ p, DOM.previousPageId (DOM.dataset tp) = Some p →
          JS.truthy p = true →
          previousPanelId (PageController.togglePanelVisibility a b w).2 = p)
  ∧ (JS.truthy_opt (DOM.previousPageId (DOM.dataset tp)) = false →
     previousPanelId (PageController.togglePanelVisibility a b w).2 = a).
Proof.
  intros Hab Ha Hb.
  destruct (toggle_pointer a b w _ _ _ _ Hab Ha Hb) as [-> ->].
  split; [reflexivity|]. unfold Spec.backTarget. split.
  - intros p -> ->. reflexivity.
  - assert (Ht : JS.truthy a = true).
    { unfold DOM.getElementById in Ha. now destruct (JS.truthy a). }
    unfold JS.or_else. rewrite Ht.
    destruct (DOM.previousPageId (DOM.dataset tp)) as [p|]; cbn;
      [intros ->|]; reflexivity.
Qed.

Lemma back_target_after_transition_witness :
  previousPanelId
    (PageController.togglePanelVisibility "home" "settings"
       (Sample.page Sample.withOverride ∅)).2 = "about"
  ∧ previousPanelId
      (PageController.togglePanelVisibility "home" "about"
         (Sample.page Sample.withOverride ∅)).2 = "home"
  ∧ currentPanelId
      (PageController.togglePanelVisibility "home" "about"
         (Sample.page Sample.withOverride ∅)).2 = "about".
Proof.
  destruct (back_target_after_transition "home" "settings"
              (Sample.page Sample.withOverride ∅)
              0 (Sample.panel "home" ["visible"] None)
              6 (DOM.mkElement "settings" (Some "panel") []
                   (DOM.mkDataset None (Some "about") None None)))
    as (_ & Hover & _);
    [discriminate | reflexivity | reflexivity |].
  destruct (back_target_after_transition "home" "about"
              (Sample.page Sample.withOverride ∅)
              0 (Sample.panel "home" ["visible"] None)
              5 (Sample.panel "about" [] None))
    as (Hcur & _ & Hplain);
    [discriminate | reflexivity | reflexivity |].
  split; [apply (Hover "about"); reflexivity|].
  split; [apply Hplain; reflexivity | exact Hcur].
Defined.

(** ** Direction classes on pages of at most ten panels *)








(** ** Escape *)

Lemma matching_from_drop_first (sel : DOM.Element → bool)
  (f : DOM.Element → DOM.Element) (doc : DOM.Document) :
  (∀ e, sel (f e) = false) →
  ∀ n x off,
    list_find (λ e, sel e = true) doc = Some (n, x) →
    DOM.matching_from sel off (alter f n doc)
    = tail (DOM.matching_from sel off doc).
Proof.
  intros Hf. induction doc as [|e doc IH]; intros n x off Hfind.
  - discriminate.
  - apply list_find_Some in Hfind as (Hn & Hx & Hmin).
    destruct n as [|n].
    + cbn in Hn. injection Hn as ->.
      cbn [alter list_alter DOM.matching_from]. rewrite Hf, Hx. reflexivity.
    + assert (He : sel e = false).
      { destruct (sel e) eqn:E; [|reflexivity].
        exfalso. apply (Hmin 0 e eq_refl); [lia | exact E]. }
      cbn [alter list_alter DOM.matching_from]. rewrite He. cbn [app].
      apply (IH n x (S off)). apply list_find_Some.
      split; [exact Hn|]. split; [exact Hx|].
      intros j y Hj Hlt. apply (Hmin (S j) y Hj). lia.
Qed.

Lemma matching_from_observed (sel : DOM.Element → bool)
  (doc doc' : DOM.Document) :
  sel <$> doc' = sel <$> doc →
  ∀ off, DOM.matching_from sel off doc' = DOM.matching_from sel off doc.
Proof.
  revert doc'. induction doc as [|e doc IH]; intros [|e' doc'] Heq off;
    try discriminate; [reflexivity|].
  cbn in Heq. injection Heq as He Hrest.
  cbn [DOM.matching_from]. rewrite He. f_equal. now apply IH.
Qed.

(** Escape removes [selected] from the first element carrying it and from
    no other. *)
Lemma deselected_selection (w : World) :
  DOM.querySelectorAll DOM.isSelected (document (Spec.deselected w))
  = tail (DOM.querySelectorAll DOM.isSelected (document w)).
Proof.
  unfold Spec.deselected, DOM.querySelectorAll.
  destruct (DOM.querySelector DOM.isSelected (document w)) as [[n x]|] eqn:Hq.
  - cbn [with_document document]. unfold DOM.update.
    apply (matching_from_drop_first DOM.isSelected) with (x := x);
      [|exact Hq].
    intros e. unfold DOM.isSelected. rewrite hasClass_remove.
    now rewrite bool_decide_true by reflexivity.
  - unfold DOM.querySelector in Hq.
    assert (Hnone : ∀ off, DOM.matching_from DOM.isSelected off (document w) = []).
    { rewrite list_find_None in Hq. revert Hq.
      induction (document w) as [|e doc IH]; intros Hall off; [reflexivity|].
      apply Forall_cons in Hall as [He Hall].
      cbn [DOM.matching_from].
      destruct (DOM.isSelected e); [now exfalso|]. now apply IH. }
    now rewrite Hnone.
Qed.

(** X5.  While the navigation pointer lacks one of its two ids, as before
    the first transition, Escape navigates nowhere and does not arm the
    key guard: it returns normally having removed [selected] from the
    first element carrying it, and from that one only. *)
Theorem escape_without_history (w : World) :
  isKeyDown w = false →
  previousPanelId w = "" ∨ currentPanelId w = "" →
  PageController.handleKeyDown "Escape" w = (Normal tt, Spec.deselected w)
  ∧ isKeyDown (PageController.handleKeyDown "Escape" w).2 = false
  ∧ location (PageController.handleKeyDown "Escape" w).2 = location w
  ∧ DOM.querySelectorAll DOM.isVisiblePanel
      (document (PageController.handleKeyDown "Escape" w).2)
    = DOM.querySelectorAll DOM.isVisiblePanel (document w)
  ∧ DOM.querySelectorAll DOM.isSelected
      (document (PageController.handleKeyDown "Escape" w).2)
    = tail (DOM.querySelectorAll DOM.isSelected (document w)).
Proof.
  intros Hup Hunknown.
  rewrite (handleKeyDown_escape w Hup).
  assert (Hfalse : JS.truthy (previousPanelId w)
                   && JS.truthy (currentPanelId w) = false).
  { destruct Hunknown as [-> | ->]; [reflexivity | apply andb_false_r]. }
  rewrite Hfalse. cbn [snd].
  split; [reflexivity|].
  split; [now rewrite (proj1 (proj2 (proj2 (deselected_fields w))))|].
  split.
  { unfold Spec.deselected.
    now destruct (DOM.querySelector DOM.isSelected (document w)) as [[n x]|]. }
  split; [|apply deselected_selection].
  unfold Spec.deselected.
  destruct (DOM.querySelector DOM.isSelected (document w)) as [[n x]|];
    [|reflexivity].
  cbn [with_document document]. unfold DOM.querySelectorAll, DOM.update.
  apply matching_from_observed. apply alter_observed.
  intros e. unfold DOM.isVisiblePanel.
  rewrite isPanel_remove, hasClass_remove.
  now rewrite bool_decide_false by discriminate.
Qed.

Lemma escape_without_history_witness :
  DOM.querySelectorAll DOM.isSelected
    (document (Sample.page Sample.withOverride ∅)) = [1; 4]
  ∧ DOM.querySelectorAll DOM.isSelected
      (document (PageController.handleKeyDown "Escape"
                   (Sample.page Sample.withOverride ∅)).2) = [4]
  ∧ isKeyDown (PageController.handleKeyDown "Escape"
                 (Sample.page Sample.withOverride ∅)).2 = false.
Proof.
  destruct (escape_without_history (Sample.page Sample.withOverride ∅))
    as (_ & Hguard & _ & _ & Hsel); [reflexivity | left; reflexivity |].
  split; [vm_compute; reflexivity|].
  split; [|exact Hguard].
  etransitivity; [exact Hsel | vm_compute; reflexivity].
Defined.




(** ** Activating a page button *)

Lemma reselected_map (id : string) (doc : DOM.Document) :
  Spec.reselected id doc
  = map (λ e, if DOM.hasPageId e
              then (if bool_decide (DOM.pageId (DOM.dataset e) = Some id)
                    then DOM.add "selected" e else e)
              else e)
      (map (λ e, if DOM.isSelected e then DOM.remove "selected" e else e) doc).
Proof.
  unfold Spec.reselected.
  rewrite (forEach_querySelectorAll DOM.isSelected).
  set (doc1 := map _ doc).
  assert (Hsame : DOM.querySelectorAll DOM.hasPageId doc
                  = DOM.querySelectorAll DOM.hasPageId doc1).
  { symmetry. apply matching_from_observed.
    apply (map_if_observed DOM.hasPageId DOM.isSelected
             (DOM.remove "selected") doc).
    reflexivity. }
  rewrite Hsame. apply forEach_querySelectorAll.
Qed.

(** After the selection update the elements carrying [selected] are
    exactly the page buttons of [id]; nothing else of an element has
    changed. *)
Lemma reselected_lookup (id : string) (doc : DOM.Document) (n : nat)
  (e' : DOM.Element) :
  Spec.reselected id doc !! n = Some e' →
  DOM.hasClass "selected" e'
  = bool_decide (DOM.pageId (DOM.dataset e') = Some id)
  ∧ ∃ e, doc !! n = Some e
         ∧ Spec.skeleton e' = Spec.skeleton e
         ∧ ∀ c, c ≠ "selected" → DOM.hasClass c e' = DOM.hasClass c e.
Proof.
  rewrite reselected_map, !list_lookup_fmap.
  destruct (doc !! n) as [e|]; cbn; [|discriminate].
  intros [= <-].
  set (e1 := if DOM.isSelected e then DOM.remove "selected" e else e).
  assert (H1 : DOM.hasClass "selected" e1 = false
               ∧ Spec.skeleton e1 = Spec.skeleton e
               ∧ ∀ c, c ≠ "selected" → DOM.hasClass c e1 = DOM.hasClass c e).
  { unfold e1. destruct (DOM.isSelected e) eqn:Hs.
    - split; [|split; [reflexivity|]].
      + rewrite hasClass_remove. now rewrite bool_decide_true by reflexivity.
      + intros c Hc. rewrite hasClass_remove.
        now rewrite bool_decide_false by exact Hc.
    - split; [exact Hs | split; reflexivity]. }
  destruct H1 as (Hoff & Hsk & Hother).
  assert (Hdata : DOM.dataset e1 = DOM.dataset e)
    by (apply (skeleton_facts _ _ Hsk)).
  unfold DOM.hasPageId.
  destruct (DOM.pageId (DOM.dataset e1)) as [q|] eqn:Hq.
  - rewrite bool_decide_true by eauto.
    case_bool_decide as Hid.
    + split.
      * rewrite hasClass_add, bool_decide_true by reflexivity.
        cbn. symmetry. apply bool_decide_eq_true. cbn. congruence.
      * exists e. split; [reflexivity|]. split; [exact Hsk|].
        intros c Hc. rewrite hasClass_add.
        rewrite bool_decide_false by exact Hc. now apply Hother.
    + split.
      * rewrite Hoff. symmetry. apply bool_decide_eq_false. congruence.
      * exists e. auto.
  - rewrite bool_decide_false by (intros [? ?]; discriminate).
    split.
    + rewrite Hoff. symmetry. apply bool_decide_eq_false. congruence.
    + exists e. auto.
Qed.

Lemma reselected_skeleton (id : string) (doc : DOM.Document) :
  Spec.skeleton <$> Spec.reselected id doc = Spec.skeleton <$> doc.
Proof.
  apply list_eq. intros n. rewrite !list_lookup_fmap.
  destruct (Spec.reselected id doc !! n) as [e'|] eqn:He'.
  - destruct (reselected_lookup id doc n e' He') as (_ & e & -> & Hsk & _).
    cbn. now rewrite Hsk.
  - assert (Hlen : length (Spec.reselected id doc) = length doc)
      by (rewrite reselected_map; now rewrite !length_map).
    apply lookup_ge_None in He'. rewrite Hlen in He'.
    apply lookup_ge_None in He'. now rewrite He'.
Qed.


(** The handler, once the foreign focus call has returned. *)
Lemma click_run (makeFocusable : M unit) (id : string) (w : World) :
  Spec.harmless makeFocusable →
  PageController.handlePageButtonClick makeFocusable id w
  = match DOM.querySelector DOM.isVisiblePanel (document w) with
    | None => (Throw TypeError, with_document (Spec.reselected id) w)
    | Some (_, sp) =>
        PageController.togglePanelVisibility (DOM.el_id sp) id
          (with_document (Spec.reselected id) w)
    end.
Proof.
  intros Hmf. unfold PageController.handlePageButtonClick.
  unfold bind at 1. unfold gets at 1.
  assert (Hfocus :
    (if Window.hasProperty "SpatialNavigation" (window w)
     then makeFocusable else ret tt) w = (Normal tt, w)).
  { destruct (Window.hasProperty _ _); [apply Hmf | reflexivity]. }
  unfold bind at 1. rewrite Hfocus.
  unfold bind at 1. unfold gets at 1.
  unfold bind at 1. unfold modify at 1.
  unfold bind at 1. unfold modify at 1.
  unfold Spec.reselected.
  destruct (DOM.querySelector DOM.isVisiblePanel (document w)) as [[n sp]|];
    destruct w; reflexivity.
Qed.

Lemma selected_blind (c : string) (e : DOM.Element) :
  c = "visible" ∨ c = "previous" ∨ c = "next" →
  (DOM.hasClass "selected" (DOM.add c e), DOM.pageId (DOM.dataset (DOM.add c e)))
  = (DOM.hasClass "selected" e, DOM.pageId (DOM.dataset e))
  ∧ (DOM.hasClass "selected" (DOM.remove c e),
     DOM.pageId (DOM.dataset (DOM.remove c e)))
    = (DOM.hasClass "selected" e, DOM.pageId (DOM.dataset e)).
Proof.
  intros Hc. rewrite hasClass_add, hasClass_remove.
  rewrite !bool_decide_false by (destruct Hc as [->|[->| ->]]; discriminate).
  split; reflexivity.
Qed.

(** X7.  Activating a page button leaves [selected] on exactly the
    elements whose [data-page-id] is the activated id: every earlier
    selection is cleared, page button or not, and every button of that
    page is selected.  This holds however the handler ends (a transition,
    no transition, or an error), the focus call having returned. *)
Theorem click_selects_the_buttons_of_the_page (makeFocusable : M unit)
  (id : string) (w : World) (n : nat) (e : DOM.Element) :
  Spec.harmless makeFocusable →
  document (PageController.handlePageButtonClick makeFocusable id w).2 !! n
  = Some e →
  DOM.hasClass "selected" e
  = bool_decide (DOM.pageId (DOM.dataset e) = Some id).
Proof.
  intros Hmf. rewrite (click_run _ id w Hmf).
  set (g := λ x : DOM.Element,
              (DOM.hasClass "selected" x, DOM.pageId (DOM.dataset x))).
  assert (Hobs : g <$> document
                   (match DOM.querySelector DOM.isVisiblePanel (document w) with
                    | None => (Throw TypeError,
                               with_document (Spec.reselected id) w)
                    | Some (_, sp) =>
                        PageController.togglePanelVisibility (DOM.el_id sp) id
                          (with_document (Spec.reselected id) w)
                    end).2
                 = g <$> Spec.reselected id (document w)).
  { destruct (DOM.querySelector DOM.isVisiblePanel (document w)) as [[k sp]|];
      [|reflexivity].
    rewrite (toggle_observed g); [reflexivity|].
    intros c x Hc. apply (selected_blind c x Hc). }
  intros He.
  assert (Hg : (g <$> Spec.reselected id (document w)) !! n = Some (g e))
    by (now rewrite <- Hobs, list_lookup_fmap, He).
  rewrite list_lookup_fmap in Hg.
  destruct (Spec.reselected id (document w) !! n) as [e1|] eqn:He1;
    [|discriminate].
  cbn in Hg. injection Hg as Hsel Hpage.
  destruct (reselected_lookup id _ n e1 He1) as [Hexact _].
  now rewrite <- Hsel, <- Hpage.
Qed.

Lemma click_selects_the_buttons_of_the_page_witness :
  DOM.querySelectorAll DOM.isSelected
    (document (Sample.page Sample.withOverride ∅)) = [1; 4]
  ∧ DOM.querySelectorAll DOM.isSelected
      (document (PageController.handlePageButtonClick (ret tt) "settings"
                   (Sample.page Sample.withOverride ∅)).2) = [2; 3]
  ∧ (∀ e, document (PageController.handlePageButtonClick (ret tt) "settings"
                      (Sample.page Sample.withOverride ∅)).2 !! 4 = Some e →
          DOM.hasClass "selected" e = false).
Proof.
  split; [vm_compute; reflexivity|]. split; [vm_compute; reflexivity|].
  intros e He.
  rewrite (click_selects_the_buttons_of_the_page (ret tt) "settings"
             (Sample.page Sample.withOverride ∅) 4 e (λ w, eq_refl) He).
  revert He. vm_compute. intros [= <-]. reflexivity.
Defined.

(** X8.  Activating a page button while no panel is visible throws a
    TypeError (the visible panel's [id] is read from [null]): the
    selection has been updated by then, and nothing else has changed. *)
Theorem click_without_visible_panel (makeFocusable : M unit) (id : string)
  (w : World) :
  Spec.harmless makeFocusable →
  DOM.querySelector DOM.isVisiblePanel (document w) = None →
  (PageController.handlePageButtonClick makeFocusable id w).1
  = Throw TypeError
  ∧ document (PageController.handlePageButtonClick makeFocusable id w).2
    = Spec.reselected id (document w)
  ∧ previousPanelId (PageController.handlePageButtonClick makeFocusable id w).2
    = previousPanelId w
  ∧ currentPanelId (PageController.handlePageButtonClick makeFocusable id w).2
    = currentPanelId w
  ∧ location (PageController.handlePageButtonClick makeFocusable id w).2
    = location w
  ∧ history (PageController.handlePageButtonClick makeFocusable id w).2
    = history w
  ∧ calls (PageController.handlePageButtonClick makeFocusable id w).2
    = calls w.
Proof.
  intros Hmf Hnone. rewrite (click_run _ id w Hmf), Hnone.
  repeat split; reflexivity.
Qed.

Lemma click_without_visible_panel_witness :
  (PageController.handlePageButtonClick (ret tt) "settings"
     (Sample.page Sample.noneVisible ∅)).1 = Throw TypeError
  ∧ DOM.querySelectorAll DOM.isSelected
      (document (PageController.handlePageButtonClick (ret tt) "settings"
                   (Sample.page Sample.noneVisible ∅)).2) = [1]
  ∧ history (PageController.handlePageButtonClick (ret tt) "settings"
               (Sample.page Sample.noneVisible ∅)).2 = [].
Proof.
  destruct (click_without_visible_panel (ret tt) "settings"
              (Sample.page Sample.noneVisible ∅))
    as (Hres & _ & _ & _ & _ & Hhist & _);
    [intros w; reflexivity | reflexivity |].
  split; [exact Hres|]. split; [vm_compute; reflexivity | exact Hhist].
Defined.

(** X9.  Activating the button of another page shows that page: when the
    visible panel's id and the activated id are different and both name
    elements, the activated one being a panel, that panel ends as the one
    visible panel, the navigation pointer names it as current, and the
    location carries it as the [panel] parameter. *)
Theorem click_shows_the_page (makeFocusable : M unit) (id : string)
  (w : World) vn vp sn sp tn tp :
  Spec.harmless makeFocusable →
  DOM.querySelector DOM.isVisiblePanel (document w) = Some (vn, vp) →
  DOM.el_id vp ≠ id →
  DOM.getElementById (DOM.el_id vp) (document w) = Some (sn, sp) →
  DOM.getElementById id (document w) = Some (tn, tp) →
  DOM.isPanel tp = true →
  DOM.querySelectorAll DOM.isVisiblePanel
    (document (PageController.handlePageButtonClick makeFocusable id w).2)
  = [tn]
  ∧ currentPanelId
      (PageController.handlePageButtonClick makeFocusable id w).2 = id
  ∧ URL.get_param "panel"
      (location (PageController.handlePageButtonClick makeFocusable id w).2)
    = Some id.
Proof.
  intros Hmf Hvis Hne Hs Ht Hpanel.
  rewrite (click_run _ id w Hmf), Hvis.
  set (ws := with_document (Spec.reselected id) w).
  assert (Hsk : Spec.skeleton <$> document ws = Spec.skeleton <$> document w)
    by apply reselected_skeleton.
  destruct (getElementById_skeleton _ _ _ _ _ Hsk Hs) as (sp' & Hs' & _).
  destruct (getElementById_skeleton _ _ _ _ _ Hsk Ht) as (tp' & Ht' & Htp').
  destruct (skeleton_facts _ _ Htp') as (_ & Hpanel' & _).
  split; [apply (toggle_visible _ _ ws _ _ _ _ Hne Hs' Ht'); congruence|].
  split; [apply (toggle_pointer _ _ ws _ _ _ _ Hne Hs' Ht')|].
  destruct (toggle_shape (DOM.el_id vp) id ws Hne)
    as (res & prev & doc' & win' & l & ->).
  apply params_get_set.
Qed.

Lemma click_shows_the_page_witness :
  DOM.querySelectorAll DOM.isVisiblePanel
    (document (PageController.handlePageButtonClick (ret tt) "settings"
                 (Sample.started Sample.threePanels ∅)).2) = [4]
  ∧ currentPanelId
      (PageController.handlePageButtonClick (ret tt) "settings"
         (Sample.started Sample.threePanels ∅)).2 = "settings".
Proof.
  destruct (click_shows_the_page (ret tt) "settings"
              (Sample.started Sample.threePanels ∅)
              0 (DOM.mkElement "home" (Some "panel") ["visible"; "next"]
                   (DOM.mkDataset (Some "0") None None None))
              0 (DOM.mkElement "home" (Some "panel") ["visible"; "next"]
                   (DOM.mkDataset (Some "0") None None None))
              4 (DOM.mkElement "settings" (Some "panel") ["next"]
                   (DOM.mkDataset (Some "2") None (Some "Store.Library") None)))
    as (Hvis & Hcur & _);
    [intros w; reflexivity | reflexivity | discriminate | reflexivity
    | reflexivity | reflexivity |].
  split; assumption.
Defined.

(** X10.  Activating the button of the page that is already visible only
    updates the selection: the handler returns normally, no history entry
    is pushed, and the navigation pointer, the location and every class
    but [selected] stay as they were. *)
Theorem click_on_the_visible_page (makeFocusable : M unit) (w : World) vn vp :
  Spec.harmless makeFocusable →
  DOM.querySelector DOM.isVisiblePanel (document w) = Some (vn, vp) →
  PageController.handlePageButtonClick makeFocusable (DOM.el_id vp) w
  = (Normal tt, with_document (Spec.reselected (DOM.el_id vp)) w).
Proof.
  intros Hmf Hvis. rewrite (click_run _ _ w Hmf), Hvis.
  apply toggle_same.
Qed.

Lemma click_on_the_visible_page_witness :
  history (PageController.handlePageButtonClick (ret tt) "home"
             (Sample.started Sample.threePanels ∅)).2 = []
  ∧ DOM.querySelectorAll DOM.isVisiblePanel
      (document (PageController.handlePageButtonClick (ret tt) "home"
                   (Sample.started Sample.threePanels ∅)).2) = [0].
Proof.
  rewrite (click_on_the_visible_page (ret tt)
             (Sample.started Sample.threePanels ∅)
             0 (DOM.mkElement "home" (Some "panel") ["visible"; "next"]
                  (DOM.mkDataset (Some "0") None None None))
             (λ w, eq_refl) eq_refl).
  split; vm_compute; reflexivity.
Defined.



(** ** Opening the page at a panel *)

Lemma list_find_observed {A} (g : DOM.Element → A) (P : DOM.Element → Prop)
  `{∀ x, Decision (P x)} (doc doc' : DOM.Document) :
  (∀ x y, g x = g y → P x → P y) →
  g <$> doc' = g <$> doc →
  match list_find P doc with
  | Some (n, e) => ∃ e', list_find P doc' = Some (n, e') ∧ g e' = g e
  | None => list_find P doc' = None
  end.
Proof.
  intros HP Hg.
  assert (Hat : ∀ k x', doc' !! k = Some x' →
                        ∃ x, doc !! k = Some x ∧ g x' = g x).
  { intros k x' Hk.
    assert (Hk' : (g <$> doc') !! k = Some (g x'))
      by (now rewrite list_lookup_fmap, Hk).
    rewrite Hg, list_lookup_fmap in Hk'.
    destruct (doc !! k) as [x|]; [|discriminate].
    exists x. split; [reflexivity|]. cbn in Hk'. congruence. }
  destruct (list_find P doc) as [[n e]|] eqn:Hfind.
  - apply list_find_Some in Hfind as (Hn & He & Hmin).
    assert (Hn' : ∃ e', doc' !! n = Some e').
    { assert (Hk : (g <$> doc) !! n = Some (g e))
        by (now rewrite list_lookup_fmap, Hn).
      rewrite <- Hg, list_lookup_fmap in Hk.
      destruct (doc' !! n) as [e'|]; [eauto | discriminate]. }
    destruct Hn' as [e' He'].
    destruct (Hat n e' He') as (x & Hx & Hgx).
    assert (x = e) by congruence. subst x.
    exists e'. split; [|exact Hgx].
    apply list_find_Some. split; [exact He'|]. split.
    + apply (HP e e'); [now symmetry | exact He].
    + intros j y Hj Hlt Hy.
      destruct (Hat j y Hj) as (y0 & Hy0 & Hgy).
      apply (Hmin j y0 Hy0 Hlt). now apply (HP y y0).
  - apply list_find_None. apply list_find_None in Hfind.
    apply Forall_forall. intros y Hy Hpy.
    apply list_elem_of_lookup in Hy as [j Hj].
    destruct (Hat j y Hj) as (y0 & Hy0 & Hgy).
    rewrite Forall_forall in Hfind.
    apply (Hfind y0); [apply list_elem_of_lookup; eauto|].
    now apply (HP y y0).
Qed.

Lemma marks_facts (e e' : DOM.Element) :
  Spec.marks e' = Spec.marks e →
  DOM.el_id e' = DOM.el_id e
  ∧ DOM.isPanel e' = DOM.isPanel e
  ∧ DOM.isVisiblePanel e' = DOM.isVisiblePanel e
  ∧ DOM.previousPageId (DOM.dataset e') = DOM.previousPageId (DOM.dataset e)
  ∧ DOM.pageObject (DOM.dataset e') = DOM.pageObject (DOM.dataset e).
Proof.
  unfold Spec.marks, DOM.isVisiblePanel, DOM.isPanel.
  intros [= Hid Hrole Hvis Hsel Hpage Hprev Hobj].
  now rewrite Hid, Hrole, Hvis, Hprev, Hobj.
Qed.

(** The indexing loop changes [dataset.index] and the class [next] and
    nothing else. *)
Lemma init_panels_marks (w : World) :
  Spec.marks <$> document (PageController.init_panels w).2
  = Spec.marks <$> document w.
Proof.
  rewrite init_panels_run. cbn [snd with_document document].
  apply list_eq. intros n.
  rewrite !list_lookup_fmap, list_lookup_imap.
  destruct (document w !! n) as [e|]; cbn; [|reflexivity].
  destruct (DOM.isPanel e); [|reflexivity].
  f_equal. unfold Spec.marks.
  rewrite !hasClass_add, !bool_decide_false by discriminate. reflexivity.
Qed.

Lemma init_panels_fields (w : World) :
  location (PageController.init_panels w).2 = location w
  ∧ history (PageController.init_panels w).2 = history w
  ∧ previousPanelId (PageController.init_panels w).2 = previousPanelId w
  ∧ currentPanelId (PageController.init_panels w).2 = currentPanelId w.
Proof. rewrite init_panels_run. repeat split. Qed.

Lemma init_selection_run (w : World) :
  PageController.init_selection w
  = match URL.get_param "panel" (location w) with
    | Some v =>
        if JS.truthy v then
          match DOM.querySelector DOM.isVisiblePanel (document w) with
          | None => (Throw TypeError, w)
          | Some (_, sp) =>
              if bool_decide (DOM.el_id sp ≠ v)
              then (Normal (Some (DOM.el_id sp, v)),
                    with_document (Spec.reselected v) w)
              else (Normal None, w)
          end
        else (Normal None, w)
    | None => (Normal None, w)
    end.
Proof.
  unfold PageController.init_selection. run.
  destruct (URL.get_param "panel" (location w)) as [v|]; [|reflexivity].
  destruct (JS.truthy v); [|reflexivity].
  destruct (DOM.querySelector DOM.isVisiblePanel (document w)) as [[n sp]|];
    [|reflexivity].
  case_bool_decide; [|reflexivity].
  unfold Spec.reselected. destruct w; reflexivity.
Qed.

Lemma init_run (w : World) :
  PageController.init w
  = PageController.init_selection (PageController.init_panels w).2.
Proof.
  unfold PageController.init. unfold bind.
  now rewrite init_panels_run.
Qed.

Lemma querySelector_visible_marks (doc doc' : DOM.Document) :
  Spec.marks <$> doc' = Spec.marks <$> doc →
  match DOM.querySelector DOM.isVisiblePanel doc with
  | Some (n, e) =>
      ∃ e', DOM.querySelector DOM.isVisiblePanel doc' = Some (n, e')
            ∧ Spec.marks e' = Spec.marks e
  | None => DOM.querySelector DOM.isVisiblePanel doc' = None
  end.
Proof.
  intros Hm. unfold DOM.querySelector.
  apply (list_find_observed Spec.marks); [|exact Hm].
  intros x y Hxy Hx.
  destruct (marks_facts _ _ Hxy) as (_ & _ & Hv & _). congruence.
Qed.

Lemma getElementById_marks (i : string) (doc doc' : DOM.Document) n e :
  Spec.marks <$> doc' = Spec.marks <$> doc →
  DOM.getElementById i doc = Some (n, e) →
  ∃ e', DOM.getElementById i doc' = Some (n, e')
        ∧ Spec.marks e' = Spec.marks e.
Proof.
  intros Hm. unfold DOM.getElementById.
  destruct (JS.truthy i); [|discriminate]. intros Hfind.
  pose proof (list_find_observed Spec.marks (λ x, DOM.el_id x = i) doc doc')
    as Hobs.
  rewrite Hfind in Hobs. apply Hobs; [|exact Hm].
  intros x y Hxy Hx.
  destruct (marks_facts _ _ Hxy) as (Hid & _). congruence.
Qed.



(** X13.  Opening the page at [?panel=v].  When [v] is not empty and
    not the id of the visible panel, [init] indexes the panels, leaves
    [selected] on exactly the page buttons of [v], and schedules the
    transition from the visible panel to [v], whether or not [v] names an
    element.  When both ids name elements, [v] a panel, running that
    transition makes [v] the one visible panel and the current panel id;
    when the visible panel's id names an element and [v] names none,
    running it throws a TypeError. *)
Theorem init_with_deep_link (w : World) (v : string) vn vp :
  URL.get_param "panel" (location w) = Some v →
  JS.truthy v = true →
  DOM.querySelector DOM.isVisiblePanel (document w) = Some (vn, vp) →
  DOM.el_id vp ≠ v →
  PageController.init w
  = (Normal (Some (DOM.el_id vp, v)),
     with_document (Spec.reselected v) (PageController.init_panels w).2)
  ∧ (∀ n e, document (PageController.init w).2 !! n = Some e →
            DOM.hasClass "selected" e
            = bool_decide (DOM.pageId (DOM.dataset e) = Some v))
  ∧ (∀ sn sp tn tp,
       DOM.getElementById (DOM.el_id vp) (document w) = Some (sn, sp) →
       DOM.getElementById v (document w) = Some (tn, tp) →
       DOM.isPanel tp = true →
       DOM.querySelectorAll DOM.isVisiblePanel
         (document
            (PageController.togglePanelVisibility (DOM.el_id vp) v
               (PageController.init w).2).2) = [tn]
       ∧ currentPanelId
           (PageController.togglePanelVisibility (DOM.el_id vp) v
              (PageController.init w).2).2 = v)
  ∧ (∀ sn sp,
       DOM.getElementById (DOM.el_id vp) (document w) = Some (sn, sp) →
       DOM.getElementById v (document w) = None →
       (PageController.togglePanelVisibility (DOM.el_id vp) v
          (PageController.init w).2).1 = Throw TypeError).
Proof.
  intros Hparam Hv Hvis Hne.
  rewrite init_run, init_selection_run.
  destruct (init_panels_fields w) as (-> & _).
  rewrite Hparam, Hv.
  pose proof (init_panels_marks w) as Hm.
  pose proof (querySelector_visible_marks (document w) _ Hm) as Hq.
  rewrite Hvis in Hq. destruct Hq as (vp' & -> & Hvp').
  destruct (marks_facts _ _ Hvp') as (-> & _).
  rewrite bool_decide_true by exact Hne.
  cbn [fst snd].
  set (wi := (PageController.init_panels w).2) in *.
  set (ws := with_document (Spec.reselected v) wi).
  assert (Hsk : Spec.skeleton <$> document ws = Spec.skeleton <$> document wi)
    by apply reselected_skeleton.
  split; [reflexivity|].
  split.
  { intros n e He. now apply (reselected_lookup v (document wi) n e). }
  split.
  - intros sn sp tn tp Hs Ht Hpanel.
    destruct (getElementById_marks _ _ _ _ _ Hm Hs) as (sp1 & Hs1 & _).
    destruct (getElementById_marks _ _ _ _ _ Hm Ht) as (tp1 & Ht1 & Htp1).
    destruct (marks_facts _ _ Htp1) as (_ & Hpanel1 & _).
    destruct (getElementById_skeleton _ _ _ _ _ Hsk Hs1) as (sp2 & Hs2 & _).
    destruct (getElementById_skeleton _ _ _ _ _ Hsk Ht1) as (tp2 & Ht2 & Htp2).
    destruct (skeleton_facts _ _ Htp2) as (_ & Hpanel2 & _).
    split.
    + apply (toggle_visible _ _ ws _ _ _ _ Hne Hs2 Ht2). congruence.
    + apply (toggle_pointer _ _ ws _ _ _ _ Hne Hs2 Ht2).
  - intros sn sp Hs Hnone.
    destruct (getElementById_marks _ _ _ _ _ Hm Hs) as (sp1 & Hs1 & _).
    destruct (getElementById_skeleton _ _ _ _ _ Hsk Hs1) as (sp2 & Hs2 & _).
    assert (Hnone2 : DOM.getElementById v (document ws) = None).
    { destruct (DOM.getElementById v (document ws)) as [[tn tp]|] eqn:Ht;
        [|reflexivity].
      exfalso.
      assert (Hback : Spec.marks <$> document w = Spec.marks <$> document wi)
        by (now symmetry).
      assert (Hsk' : Spec.skeleton <$> document wi
                     = Spec.skeleton <$> document ws) by (now symmetry).
      destruct (getElementById_skeleton _ _ _ _ _ Hsk' Ht) as (tp1 & Ht1 & _).
      destruct (getElementById_marks _ _ _ _ _ Hback Ht1) as (tp0 & Ht0 & _).
      congruence. }
    now rewrite (toggle_target_missing _ _ ws _ _ Hne Hs2 Hnone2).
Qed.

Lemma init_with_deep_link_witness :
  (PageController.init
     (Sample.pageAt [("panel", "settings")] Sample.threePanels)).1
  = Normal (Some ("home", "settings"))
  ∧ DOM.querySelectorAll DOM.isSelected
      (document
         (PageController.init
            (Sample.pageAt [("panel", "settings")] Sample.threePanels)).2)
    = [3]
  ∧ DOM.querySelectorAll DOM.isVisiblePanel
      (document
         (PageController.togglePanelVisibility "home" "settings"
            (PageController.init
               (Sample.pageAt [("panel", "settings")]
                  Sample.threePanels)).2).2) = [4]
  ∧ (PageController.init
       (Sample.pageAt [("panel", "nowhere")] Sample.threePanels)).1
    = Normal (Some ("home", "nowhere"))
  ∧ (PageController.togglePanelVisibility "home" "nowhere"
       (PageController.init
          (Sample.pageAt [("panel", "nowhere")] Sample.threePanels)).2).1
    = Throw TypeError.
Proof.
  destruct (init_with_deep_link
              (Sample.pageAt [("panel", "settings")] Sample.threePanels)
              "settings" 0 (Sample.panel "home" ["visible"] None))
    as (Hres & _ & Hshown & _);
    [reflexivity | reflexivity | reflexivity | discriminate |].
  destruct (Hshown 0 (Sample.panel "home" ["visible"] None)
              4 (Sample.panel "settings" [] (Some "Store.Library")))
    as [Hvis _]; [reflexivity | reflexivity | reflexivity |].
  destruct (init_with_deep_link
              (Sample.pageAt [("panel", "nowhere")] Sample.threePanels)
              "nowhere" 0 (Sample.panel "home" ["visible"] None))
    as (Hres' & _ & _ & Hmissing);
    [reflexivity | reflexivity | reflexivity | discriminate |].
  split; [now rewrite Hres|]. split; [vm_compute; reflexivity|].
  split; [exact Hvis|]. split; [now rewrite Hres'|].
  apply (Hmissing 0 (Sample.panel "home" ["visible"] None));
    reflexivity.
Defined.

(** X14.  When the location names a panel and no panel is visible, [init]
    throws a TypeError (the visible panel's [id] is read from [null])
    after indexing the panels: nothing is selected and no transition is
    scheduled. *)
Theorem init_without_visible_panel (w : World) (v : string) :
  URL.get_param "panel" (location w) = Some v →
  JS.truthy v = true →
  DOM.querySelector DOM.isVisiblePanel (document w) = None →
  PageController.init w = (Throw TypeError, (PageController.init_panels w).2).
Proof.
  intros Hparam Hv Hnone. rewrite init_run, init_selection_run.
  destruct (init_panels_fields w) as (-> & _).
  rewrite Hparam, Hv.
  pose proof (querySelector_visible_marks (document w) _
                (init_panels_marks w)) as Hq.
  rewrite Hnone in Hq. now rewrite Hq.
Qed.

Lemma init_without_visible_panel_witness :
  (PageController.init
     (Sample.pageAt [("panel", "settings")] Sample.noneVisible)).1
  = Throw TypeError
  ∧ Sample.indexAt 2
      (PageController.init
         (Sample.pageAt [("panel", "settings")] Sample.noneVisible)).2
    = Some (Some "1").
Proof.
  rewrite (init_without_visible_panel
             (Sample.pageAt [("panel", "settings")] Sample.noneVisible)
             "settings" eq_refl eq_refl eq_refl).
  split; [reflexivity | vm_compute; reflexivity].
Defined.

(** ** Easing and the scroll listeners, further *)

Lemma easing_is_cube (p : Q) :
  (PageController.cubicBezier p 0 0 0 1 == p * p * p)%Q.
Proof. unfold PageController.cubicBezier. cbv zeta. ring. Qed.

Lemma capAtOne_cases (q : Q) :
  ((1 <= q)%Q ∧ PageController.capAtOne q = 1%Q)
  ∨ ((q < 1)%Q ∧ PageController.capAtOne q = q).
Proof.
  unfold PageController.capAtOne. destruct (Qle_bool 1 q) eqn:E.
  - left. split; [now apply Qle_bool_iff | reflexivity].
  - right. split; [|reflexivity].
    apply Qnot_le_lt. rewrite <- Qle_bool_iff. congruence.
Qed.

Lemma capAtOne_mono (p q : Q) :
  (p <= q)%Q → (PageController.capAtOne p <= PageController.capAtOne q)%Q.
Proof.
  intros Hpq.
  destruct (capAtOne_cases p) as [[Hp ->]|[Hp ->]];
    destruct (capAtOne_cases q) as [[Hq ->]|[Hq ->]]; lra.
Qed.

Lemma cube_mono (p q : Q) :
  (0 <= p)%Q → (p <= q)%Q → (p * p * p <= q * q * q)%Q.
Proof. intros H0 Hpq. assert (p * p <= q * q)%Q by nra. nra. Qed.

(** X17.  For a non-negative scroll offset both scroll listeners publish a
    raw progress [p] and an eased progress [p * p * p] with
    [0 <= eased <= p <= 1]; both are exactly 1 once the offset reaches
    the listener's threshold (80 native, 40 smooth-scroll) and both grow
    with the offset. *)
Theorem eased_progress (x y : Q) (style : gmap string Q) :
  (0 <= x)%Q → (x <= y)%Q →
  (∃ p e q,
     PageController.scrollListener x style !! "--panel-progress" = Some p
     ∧ PageController.scrollListener x style !! "--panel-progress-expo"
       = Some e
     ∧ PageController.scrollListener y style !! "--panel-progress-expo"
       = Some q
     ∧ (e == p * p * p)%Q ∧ (0 <= e)%Q ∧ (e <= p)%Q ∧ (p <= 1)%Q
     ∧ (e <= q)%Q
     ∧ ((80 <= x)%Q → (p == 1)%Q ∧ (e == 1)%Q))
  ∧ (∃ p e q,
       PageController.scrollbarListener x style !! "--panel-progress" = Some p
       ∧ PageController.scrollbarListener x style !! "--panel-progress-expo"
         = Some e
       ∧ PageController.scrollbarListener y style !! "--panel-progress-expo"
         = Some q
       ∧ (e == p * p * p)%Q ∧ (0 <= e)%Q ∧ (e <= p)%Q ∧ (p <= 1)%Q
       ∧ (e <= q)%Q
       ∧ ((40 <= x)%Q → (p == 1)%Q ∧ (e == 1)%Q)).
Proof.
  intros Hx Hxy.
  assert (Hgen : ∀ T : Q, (0 < T)%Q →
    let p := PageController.capAtOne (x / T) in
    let e := PageController.cubicBezier p 0 0 0 1 in
    let q := PageController.cubicBezier
               (PageController.capAtOne (y / T)) 0 0 0 1 in
    (e == p * p * p)%Q ∧ (0 <= e)%Q ∧ (e <= p)%Q ∧ (p <= 1)%Q ∧ (e <= q)%Q
    ∧ ((T <= x)%Q → (p == 1)%Q ∧ (e == 1)%Q)).
  { intros T HT p e q.
    assert (Hq0 : (0 <= x / T)%Q) by (apply Qle_shift_div_l; lra).
    assert (Hmono : (x / T <= y / T)%Q).
    { unfold Qdiv. apply Qmult_le_compat_r; [exact Hxy|].
      apply Qlt_le_weak, Qinv_lt_0_compat, HT. }
    destruct (capAtOne_clamp _ Hq0) as [_ [Hp0 Hp1]]. fold p in Hp0, Hp1.
    pose proof (capAtOne_mono _ _ Hmono) as Hpq. fold p in Hpq.
    assert (He : (e == p * p * p)%Q) by apply easing_is_cube.
    split; [exact He|].
    split; [rewrite He; repeat apply Qmult_le_0_compat; lra|].
    split; [rewrite He; nra|]. split; [exact Hp1|].
    split.
    - unfold q. rewrite He, easing_is_cube. apply cube_mono; lra.
    - intros HTx.
      assert (H1 : (1 <= x / T)%Q) by (apply Qle_shift_div_l; lra).
      assert (Hp : (p == 1)%Q).
      { unfold p. destruct (capAtOne_cases (x / T)) as [[_ ->]|[Hlt _]];
          [reflexivity | lra]. }
      split; [exact Hp|]. rewrite He, Hp. ring. }
  split.
  - exists (PageController.capAtOne (x / 80)),
      (PageController.cubicBezier (PageController.capAtOne (x / 80)) 0 0 0 1),
      (PageController.cubicBezier (PageController.capAtOne (y / 80)) 0 0 0 1).
    split; [apply scrollListener_publishes|].
    split; [apply lookup_insert_eq|]. split; [apply lookup_insert_eq|].
    apply (Hgen 80%Q). lra.
  - exists (PageController.capAtOne (x / 40)),
      (PageController.cubicBezier (PageController.capAtOne (x / 40)) 0 0 0 1),
      (PageController.cubicBezier (PageController.capAtOne (y / 40)) 0 0 0 1).
    split; [apply scrollbarListener_publishes|].
    unfold PageController.scrollbarListener, PageController.setOverscrollProgress,
      PageController.setProgress.
    split; [rewrite lookup_insert_ne by discriminate; apply lookup_insert_eq|].
    split; [rewrite lookup_insert_ne by discriminate; apply lookup_insert_eq|].
    apply (Hgen 40%Q). lra.
Qed.

Lemma eased_progress_witness :
  (∃ p e,
     PageController.scrollListener 40 ∅ !! "--panel-progress" = Some p
     ∧ PageController.scrollListener 40 ∅ !! "--panel-progress-expo" = Some e
     ∧ (p == 1 # 2)%Q ∧ (e == 1 # 8)%Q)
  ∧ (∃ e, PageController.scrollbarListener 40 ∅ !! "--panel-progress-expo"
          = Some e ∧ (e == 1)%Q).
Proof.
  destruct (eased_progress 40 40 ∅) as [Hnative Hsmooth]; [lra | lra |].
  destruct Hnative as (p & e & _ & Hp & He & _ & Hcube & _).
  destruct Hsmooth as (p' & e' & _ & _ & He' & _ & _ & _ & _ & _ & _ & Hsat).
  split.
  - exists p, e. split; [exact Hp|]. split; [exact He|].
    assert (Hpv : (p == 1 # 2)%Q).
    { rewrite scrollListener_publishes in Hp. injection Hp as <-.
      vm_compute. reflexivity. }
    split; [exact Hpv|]. rewrite Hcube, Hpv. reflexivity.
  - exists e'. split; [exact He'|]. apply Hsat. lra.
Defined.

(** X19.  The overscroll progress grows with the pull and saturates: for
    a negative [params.y] the published value lies in [0,1], is at most
    the value published for any longer pull, equals [-y / 300] while the
    pull is shorter than 300, and is exactly 1 from 300 on. *)
Theorem overscroll_progress (y y' : Q) (style : gmap string Q) :
  (y < 0)%Q → (y' <= y)%Q →
  ∃ p p',
    PageController.onScroll y style !! "--panel-progress-overscroll" = Some p
    ∧ PageController.onScroll y' style !! "--panel-progress-overscroll"
      = Some p'
    ∧ (0 <= p)%Q ∧ (p <= p')%Q ∧ (p' <= 1)%Q
    ∧ ((-300 < y)%Q → (p == - y / 300)%Q)
    ∧ ((y <= -300)%Q → (p == 1)%Q).
Proof.
  intros Hy Hyy.
  exists (PageController.capAtOne (y * -1 / 300)),
    (PageController.capAtOne (y' * -1 / 300)).
  split; [now apply onScroll_publishes|].
  split; [apply onScroll_publishes; lra|].
  assert (Hsame : (y * -1 / 300 == - y / 300)%Q) by field.
  assert (Hpos : (0 <= y * -1 / 300)%Q) by (apply Qle_shift_div_l; lra).
  assert (Hmono : (y * -1 / 300 <= y' * -1 / 300)%Q).
  { unfold Qdiv. apply Qmult_le_compat_r; [lra|].
    apply Qlt_le_weak, Qinv_lt_0_compat. reflexivity. }
  split; [apply (capAtOne_clamp _ Hpos)|].
  split; [now apply capAtOne_mono|].
  split; [apply capAtOne_le_1|].
  destruct (capAtOne_cases (y * -1 / 300)) as [[Hge ->]|[Hlt ->]].
  - split; [|reflexivity].
    intros Hshort. exfalso.
    assert (y * -1 / 300 < 1)%Q by (apply Qlt_shift_div_r; lra). lra.
  - split; [intros _; exact Hsame|].
    intros Hlong. exfalso.
    assert (1 <= y * -1 / 300)%Q by (apply Qle_shift_div_l; lra). lra.
Qed.

Lemma overscroll_progress_witness :
  ∃ p p',
    PageController.onScroll (-150) ∅ !! "--panel-progress-overscroll" = Some p
    ∧ PageController.onScroll (-450) ∅ !! "--panel-progress-overscroll"
      = Some p'
    ∧ (p == 1 # 2)%Q ∧ (p <= p')%Q.
Proof.
  destruct (overscroll_progress (-150) (-450) ∅)
    as (p & p' & Hp & Hp' & _ & Hle & _ & Hshort & _); [lra | lra |].
  exists p, p'. split; [exact Hp|]. split; [exact Hp'|].
  split; [rewrite Hshort by lra; reflexivity | exact Hle].
Defined.

(** ** Box intersection *)

(** X20.  [areaIntersects] does not depend on the order of its two
    boxes. *)
Theorem areaIntersects_is_symmetric (box1 box2 : Vividus2D.Box) :
  Vividus2D.areaIntersects box1 box2 = Vividus2D.areaIntersects box2 box1.
Proof.
  unfold Vividus2D.areaIntersects, Vividus2D.gt, Vividus2D.lt.
  destruct (Qle_bool (Vividus2D.x box1) (Vividus2D.x box2 + Vividus2D.width box2)),
    (Qle_bool (Vividus2D.x box2) (Vividus2D.x box1 + Vividus2D.width box1)),
    (Qle_bool (Vividus2D.y box1) (Vividus2D.y box2 + Vividus2D.height box2)),
    (Qle_bool (Vividus2D.y box2) (Vividus2D.y box1 + Vividus2D.height box1));
    reflexivity.
Qed.

(** ** Lifecycle calls, further *)

(** The calls [showTarget] logs are [init()] and [show()], never
    [hide()]. *)
Lemma showTarget_never_hides (tp : DOM.Element) (w : World) :
  ∃ res l win',
    PageController.showTarget tp w = (res, Spec.logged l win' w)
    ∧ Forall (λ c, c.2 ≠ Window.MHide) l.
Proof.
  destruct (JS.truthy_opt (DOM.pageObject (DOM.dataset tp))) eqn:Hdecl.
  2:{ exists (Normal tt), [], (window w).
      rewrite logged_nil, (showTarget_undeclared _ _ Hdecl).
      split; [reflexivity | constructor]. }
  destruct (DOM.pageObject (DOM.dataset tp)) as [code|] eqn:Hcode;
    [|discriminate].
  cbn in Hdecl.
  pose proof (showTarget_cases tp w code Hcode Hdecl) as Hcases.
  cbn zeta in Hcases.
  set (r0 := PageController.pathRef code) in *.
  destruct (Window.resolve r0 (window w)) as [po|].
  2:{ destruct Hcases as (res & -> & _).
      exists res, [], (window w). rewrite logged_nil.
      split; [reflexivity | constructor]. }
  assert (Hshown : Forall (λ c : Window.ObjRef * Window.Method,
                             c.2 ≠ Window.MHide) (Spec.shown r0 po)).
  { unfold Spec.shown. destruct (Window.show po); repeat constructor.
    discriminate. }
  rewrite Hcases.
  destruct (Window.isLoaded po); [eauto 6|].
  destruct (Window.init po) as [[]|].
  - do 3 eexists. split; [reflexivity|].
    constructor; [discriminate | exact Hshown].
  - do 3 eexists. split; [reflexivity|]. repeat constructor. discriminate.
  - exists (Throw TypeError), [], (window w). rewrite logged_nil.
    split; [reflexivity | constructor].
Qed.

(** X22.  The only foreign error that leaves a transition is that of an
    [init()]: if the call throws what a lifecycle method threw, the
    method is the [init()] of an existing object that was not marked
    loaded, and the object is still not marked loaded afterwards, so a
    later transition to the same target invokes [init()] again. *)
Theorem foreign_error_is_an_init_error (a b : string) (w : World)
  (r : Window.ObjRef) (m : Window.Method) :
  (PageController.togglePanelVisibility a b w).1 = Throw (Thrown r m) →
  m = Window.MInit
  ∧ ∃ po, Window.resolve r (window w) = Some po
          ∧ Window.isLoaded po = false
          ∧ Window.init po = Some Window.Raises
          ∧ Window.resolve r
              (window (PageController.togglePanelVisibility a b w).2)
            = Some po.
Proof.
  destruct (decide (a = b)) as [->|Hab]; [now rewrite toggle_same|].
  destruct (DOM.getElementById a (document w)) as [[sn sp]|] eqn:Ha.
  2:{ now rewrite (toggle_source_missing a b w Hab Ha). }
  destruct (DOM.getElementById b (document w)) as [[tn tp]|] eqn:Hb.
  2:{ now rewrite (toggle_target_missing a b w _ _ Hab Ha Hb). }
  rewrite (toggle_resolved a b w _ _ _ _ Hab Ha Hb).
  destruct (hideSelected_spec sp (Spec.switched a b sn tn sp tp w))
    as (hides & Hhide & _).
  unfold bind. rewrite Hhide.
  set (w0 := Spec.logged hides _ _).
  assert (Hwin : window w0 = window w) by reflexivity.
  destruct (JS.truthy_opt (DOM.pageObject (DOM.dataset tp))) eqn:Hdecl.
  2:{ now rewrite (showTarget_undeclared _ _ Hdecl). }
  destruct (DOM.pageObject (DOM.dataset tp)) as [code|] eqn:Hcode;
    [|discriminate].
  cbn in Hdecl.
  pose proof (showTarget_cases tp w0 code Hcode Hdecl) as Hcases.
  cbn zeta in Hcases. rewrite Hwin in Hcases.
  destruct (Window.resolve (PageController.pathRef code) (window w))
    as [po|] eqn:Hres.
  2:{ destruct Hcases as (res & -> & [-> | ->]); discriminate. }
  rewrite Hcases.
  destruct (Window.isLoaded po) eqn:Hl; [discriminate|].
  destruct (Window.init po) as [[]|] eqn:Hi; try discriminate.
  cbn [fst snd]. intros [= <- <-].
  split; [reflexivity|]. exists po. auto.
Qed.

Lemma foreign_error_is_an_init_error_witness :
  Window.resolve ("Store", Some "Library")
    (window (PageController.togglePanelVisibility "home" "settings"
               (Sample.started Sample.threePanels
                  (Sample.storeWith Sample.initThrows))).2)
  = Some Sample.initThrows
  ∧ Window.isLoaded Sample.initThrows = false.
Proof.
  destruct (foreign_error_is_an_init_error "home" "settings"
              (Sample.started Sample.threePanels
                 (Sample.storeWith Sample.initThrows))
              ("Store", Some "Library") Window.MInit)
    as (_ & po & Hres & Hl & _ & Hafter); [vm_compute; reflexivity|].
  assert (po = Sample.initThrows).
  { revert Hres. vm_compute. congruence. }
  subst po. split; [exact Hafter | reflexivity].
Defined.

(** X23.  [hide()] of a dotted controller path is guarded by the wrong
    name.  When the source panel declares a path whose second component
    is not itself a property of [window], no [hide()] is invoked in the
    transition, whether or not the object the path denotes has one. *)
Theorem hide_is_skipped_without_a_global_of_that_name (a b : string)
  (w : World) sn sp tn tp code O :
  a ≠ b →
  DOM.getElementById a (document w) = Some (sn, sp) →
  DOM.getElementById b (document w) = Some (tn, tp) →
  DOM.pageObject (DOM.dataset sp) = Some code →
  JS.split PageController.dot code !! 1%nat = Some O →
  Window.hasProperty O (window w) = false →
  ∃ l, calls (PageController.togglePanelVisibility a b w).2 = calls w ++ l
       ∧ Forall (λ c, c.2 ≠ Window.MHide) l.
Proof.
  intros Hab Ha Hb Hcode HO Hnot.
  rewrite (toggle_resolved a b w _ _ _ _ Hab Ha Hb).
  set (w0 := Spec.switched a b sn tn sp tp w).
  assert (Hhide : PageController.hideSelected sp w0 = (Normal tt, w0)).
  { unfold PageController.hideSelected. rewrite Hcode.
    destruct (JS.truthy code); [|reflexivity].
    rewrite HO. run. change (JS.toPropertyKey (Some O)) with O.
    change (window w0) with (window w). now rewrite Hnot. }
  unfold bind. rewrite Hhide.
  destruct (showTarget_never_hides tp w0) as (res & l & win' & -> & Hl).
  exists l. split; [reflexivity | exact Hl].
Qed.

Lemma hide_is_skipped_without_a_global_of_that_name_witness :
  Window.hide Sample.wellBehaved = Some Window.Returns
  ∧ calls (PageController.togglePanelVisibility "settings" "home"
             (PageController.togglePanelVisibility "home" "settings"
                (Sample.started Sample.threePanels
                   (Sample.storeWith Sample.wellBehaved))).2).2
    = [(("Store", Some "Library"), Window.MInit);
       (("Store", Some "Library"), Window.MShow)]
  ∧ calls (PageController.togglePanelVisibility "settings" "home"
             (with_window (insert "Library" Window.GNullish)
                (PageController.togglePanelVisibility "home" "settings"
                   (Sample.started Sample.threePanels
                      (Sample.storeWith Sample.wellBehaved))).2)).2
    = [(("Store", Some "Library"), Window.MInit);
       (("Store", Some "Library"), Window.MShow);
       (("Store", Some "Library"), Window.MHide)].
Proof.
  split; [reflexivity|]. split; [|vm_compute; reflexivity].
  destruct (hide_is_skipped_without_a_global_of_that_name "settings" "home"
              (PageController.togglePanelVisibility "home" "settings"
                 (Sample.started Sample.threePanels
                    (Sample.storeWith Sample.wellBehaved))).2
              4 (DOM.mkElement "settings" (Some "panel")
                   ["visible"; "previous"]
                   (DOM.mkDataset (Some "2") None (Some "Store.Library") None))
              0 (DOM.mkElement "home" (Some "panel") ["previous"]
                   (DOM.mkDataset (Some "0") None None None))
              "Store.Library" "Library")
    as (l & Hcalls & _);
    [discriminate | vm_compute; reflexivity | vm_compute; reflexivity
    | reflexivity | reflexivity | vm_compute; reflexivity |].
  vm_compute. reflexivity.
Defined.
